(** * Sentinel2_Data: the tile loader and the tile merge engine

    A shallow embedding of [Data_Server_pkg/Sentinel2_Data.py].

    The Python module works on a directory of files, on raster handles and
    on xarray datasets.  The embedding threads an explicit [World] through
    every call (the directory content, the raster store and the raster
    handles that are currently open) and returns either a value or the
    exception the Python code raises.

    Conventions of the embedding:
    - [directory] is the workspace held in the [World]; file names are
      relative to it.  The source builds paths with [directory + name] as
      well as [os.path.join(directory, name)], which agree when the
      directory string ends with the path separator, as in the module's own
      example ['F:/Data_Sentinel/WorkDir/'].
    - A dataset keeps its three coordinate vectors (time, lat, lon).  The
      band arrays and the attributes travel with them in xarray and are not
      inspected by the merge logic; of a band array only the shape is kept,
      pixel values are not represented.
    - Coordinates are metres of the UTM grid and are held as integers.
      rasterio and the loop of [loadBand] hold them as binary64 floats;
      module [Binary64] has that arithmetic, and a statement on the labels
      takes the exactness of the float sums as a hypothesis.
    - xarray is embedded in part ([Xr]).  Statements on what the merge
      engine does to the workspace, whatever xarray computes, are made on the
      engine with the library calls as parameters (section [Library]).
    - [print] and the wall-clock measurements are dropped. *)

From Stdlib Require Import ZArith Lia Bool String Ascii DecimalString.
From Stdlib Require Import PrimFloat FloatOps SpecFloat Uint63.
From stdpp Require Import base list sorting.

Local Open Scope Z_scope.

#[local] Instance string_eq_dec : EqDecision string := String.string_dec.

(* ------------------------------------------------------------------ *)
(** ** Python strings *)

Module PyStr.

(** [s[a:b]] for literal offsets [0 <= a <= b]: the characters of [s] from
    position [a] up to, not including, position [b]; positions past the
    end are dropped without an error. *)
Definition slice (a b : nat) (s : string) : string :=
  substring a (b - a) s.

(** [s.endswith(suffix)] *)
Definition endswith (s suffix : string) : bool :=
  let n := String.length s in
  let m := String.length suffix in
  (m <=? n)%nat && String.eqb (substring (n - m) m s) suffix.

(** [str(z)] for an integer *)
Definition str (z : Z) : string := NilZero.string_of_int (Z.to_int z).

End PyStr.

Import PyStr.

(* ------------------------------------------------------------------ *)
(** ** Exceptions and results *)

(** The exception classes the module raises itself ([NoPath],
    [NoResolution], [TypeError], [FileNotFoundError]) and those raised by
    the interpreter and the libraries on the paths that are embedded.
    [Unmodelled] marks library behaviour outside the embedded fragment; no
    statement below depends on a result of that kind. *)
Inductive exn : Type :=
| NoPath (message : string)
| NoResolution (message : string)
| TypeError (message : string)
| FileNotFoundError (message : string)
| IndexError
| ValueError (message : string)
| OSError (message : string)
| RasterioIOError
| Unmodelled.

Inductive result (A : Type) : Type :=
| Ok (a : A)
| Err (e : exn).

Arguments Ok {A} a.
Arguments Err {A} e.

Definition is_ok {A} (r : result A) : bool :=
  match r with Ok _ => true | Err _ => false end.

Definition and_then {A B} (r : result A) (k : A -> result B) : result B :=
  match r with
  | Ok a => k a
  | Err e => Err e
  end.

(* ------------------------------------------------------------------ *)
(** ** Data model *)

(** The coordinate part of an [xr.Dataset] with dimensions time, lat, lon. *)
Record Dataset : Type := mkDataset {
  ds_time : list string;
  ds_lat : list Z;
  ds_lon : list Z
}.

(** What a raster handle is asked for: [b.bounds.left], [b.bounds.bottom],
    [b.count], [b.height], [b.width].  The two bounds are Python floats in
    rasterio; they are held here as the integers they stand for (whole
    metres), see [Binary64] for the arithmetic of the source on them. *)
Record Raster : Type := mkRaster {
  bounds_left : Z;
  bounds_bottom : Z;
  count : Z;
  height : Z;
  width : Z
}.

(** The shape of a band array: bands, rows, columns *)
Definition Shape : Type := Z * Z * Z.

(** A file of the workspace: a NetCDF dataset, or anything else. *)
Inductive Content : Type :=
| NetCDF (d : Dataset)
| Other.

(** The directory listing is an association list: [os.listdir] has an order,
    and the loops of [merge_Sentinel] follow it. *)
Record World : Type := mkWorld {
  files : list (string * Content);
  rasters : list (string * Raster);
  handles : list string
}.

Definition set_files (fs : list (string * Content)) (w : World) : World :=
  {| files := fs; rasters := rasters w; handles := handles w |}.

Definition set_handles (hs : list string) (w : World) : World :=
  {| files := files w; rasters := rasters w; handles := hs |}.

Module Dir.

Fixpoint find {V} (name : string) (fs : list (string * V)) : option V :=
  match fs with
  | [] => None
  | (n, c) :: fs' => if String.eqb name n then Some c else find name fs'
  end.

Fixpoint remove {V} (name : string) (fs : list (string * V)) : list (string * V) :=
  match fs with
  | [] => []
  | (n, c) :: fs' =>
      if String.eqb name n then remove name fs' else (n, c) :: remove name fs'
  end.

(** Writing replaces the file of that name, or adds a new entry. *)
Fixpoint write {V} (name : string) (c : V) (fs : list (string * V)) : list (string * V) :=
  match fs with
  | [] => [(name, c)]
  | (n, c') :: fs' =>
      if String.eqb name n then (n, c) :: fs' else (n, c') :: write name c fs'
  end.

Definition names {V} (fs : list (string * V)) : list string := map fst fs.

Definition mem (name : string) (l : list string) : bool :=
  existsb (String.eqb name) l.

End Dir.

(* ------------------------------------------------------------------ *)
(** ** The monad of the embedding: state and exceptions *)

Definition M (A : Type) : Type := World -> World * result A.

Definition ret {A} (a : A) : M A := fun w => (w, Ok a).

Definition raise {A} (e : exn) : M A := fun w => (w, Err e).

Definition bind {A B} (m : M A) (k : A -> M B) : M B :=
  fun w =>
    match m w with
    | (w', Ok a) => k a w'
    | (w', Err e) => (w', Err e)
    end.

Definition lift {A} (r : result A) : M A := fun w => (w, r).

Notation "'let!' x ':=' m 'in' k" := (bind m (fun x => k))
  (at level 10, x pattern, m at level 100, k at level 200).
Notation "m ';;' k" := (bind m (fun _ => k))
  (at level 100, k at level 200, right associativity).

(** [for x in l: body(x)] *)
Fixpoint for_each {A} (l : list A) (body : A -> M unit) : M unit :=
  match l with
  | [] => ret tt
  | x :: l' => body x ;; for_each l' body
  end.

(** [l[i]] on a Python list *)
Definition index {A} (l : list A) (i : nat) : M A :=
  match l !! i with
  | Some a => ret a
  | None => raise IndexError
  end.

(* ------------------------------------------------------------------ *)
(** ** The operating system and the libraries *)

(** [os.listdir(directory)] *)
Definition listdir : M (list string) :=
  fun w => (w, Ok (Dir.names (files w))).

(** [os.remove(path)] on a file.  The module removes archives and datasets
    this way; on a folder [os.remove] raises an error that [delete] does not
    convert, and the product folders, the entries named [*.SAFE], leave the
    workspace through [rmtree]. *)
Definition os_remove (path : string) : M unit :=
  fun w =>
    if Dir.mem path (Dir.names (files w))
    then (set_files (Dir.remove path (files w)) w, Ok tt)
    else (w, Err (FileNotFoundError path)).

(** [os.rename(src, dst)]: the file moves to [dst], replacing what was there. *)
Definition os_rename (src dst : string) : M unit :=
  fun w =>
    match Dir.find src (files w) with
    | None => (w, Err (FileNotFoundError src))
    | Some c =>
        if String.eqb src dst then (w, Ok tt)
        else (set_files (Dir.write dst c (Dir.remove src (files w))) w, Ok tt)
    end.

(** [xr.open_dataset(path)] *)
Definition open_dataset (path : string) : M Dataset :=
  fun w =>
    match Dir.find path (files w) with
    | Some (NetCDF d) => (w, Ok d)
    | Some Other => (w, Err (OSError path))
    | None => (w, Err (FileNotFoundError path))
    end.

(** [ds.to_netcdf(path)] in mode [w]: the file is written, or replaced.
    The handles xarray keeps on the datasets it opened are not part of the
    world: a target that is one of the files still open for reading (an
    input of the final combination) makes the library raise
    [PermissionError], and statements on the tail of [merge_Sentinel] ask
    for an output name that is not the name of an input. *)
Definition to_netcdf (ds : Dataset) (path : string) : M unit :=
  fun w => (set_files (Dir.write path (NetCDF ds) (files w)) w, Ok tt).

(** [rio.open(path)]: the handle is open from here on. *)
Definition rio_open (path : string) : M Raster :=
  fun w =>
    match Dir.find path (rasters w) with
    | Some r => (set_handles (path :: handles w) w, Ok r)
    | None => (w, Err RasterioIOError)
    end.

Fixpoint remove_first (path : string) (hs : list string) : list string :=
  match hs with
  | [] => []
  | h :: hs' => if String.eqb path h then hs' else h :: remove_first path hs'
  end.

(** [b.close()] on the handle opened on [path] *)
Definition rio_close (path : string) : M unit :=
  fun w => (set_handles (remove_first path (handles w)) w, Ok tt).

(* ------------------------------------------------------------------ *)
(** ** xarray on the coordinate vectors *)

Module Xr.

(** [index.is_monotonic_increasing] and [index.is_monotonic_decreasing] of
    pandas: neighbours may be equal. *)
Fixpoint is_monotonic_increasing (l : list Z) : bool :=
  match l with
  | [] => true
  | x :: l' =>
      match l' with
      | [] => true
      | y :: _ => (x <=? y) && is_monotonic_increasing l'
      end
  end.

Fixpoint is_monotonic_decreasing (l : list Z) : bool :=
  match l with
  | [] => true
  | x :: l' =>
      match l' with
      | [] => true
      | y :: _ => (y <=? x) && is_monotonic_decreasing l'
      end
  end.

(** [ds.lon[0]] *)
Definition lon0 (ds : Dataset) : result Z :=
  match ds_lon ds with
  | x :: _ => Ok x
  | [] => Err IndexError
  end.

(** [ds.sel(lon = slice(a, b))]: label slicing keeps both end points.  On
    an increasing index these are the labels between [a] and [b]; other
    indexes are [Unmodelled]. *)
Definition sel_lon (ds : Dataset) (a b : Z) : result Dataset :=
  if is_monotonic_increasing (ds_lon ds)
  then Ok {| ds_time := ds_time ds;
             ds_lat := ds_lat ds;
             ds_lon := filter (fun x => a <= x <= b) (ds_lon ds) |}
  else Err Unmodelled.

Definition same_index {A} `{EqDecision A} (l1 l2 : list A) : bool :=
  bool_decide (l1 = l2).

(** Insertion of a dataset into a list ordered by the first label *)
Fixpoint insert_by (le : Z -> Z -> bool) (k : Z) (d : Dataset)
    (l : list (Z * Dataset)) : list (Z * Dataset) :=
  match l with
  | [] => [(k, d)]
  | (k', d') :: l' =>
      if le k k' then (k, d) :: l else (k', d') :: insert_by le k d l'
  end.

Definition sort_by (le : Z -> Z -> bool) (l : list (Z * Dataset)) : list (Z * Dataset) :=
  foldr (fun kd acc => insert_by le (fst kd) (snd kd) acc) [] l.

Definition first_label (d : Dataset) : Z := hd 0 (ds_lon d).

Fixpoint distinct (l : list Z) : bool :=
  match l with
  | [] => true
  | x :: l' => negb (existsb (Z.eqb x) l') && distinct l'
  end.

(** [xr.combine_by_coords(datasets)].  A dimension whose index is the same
    on every dataset is left alone; the datasets are ordered along a
    dimension whose index differs by the first label of each and
    concatenated, and the index that results must be monotonic.  The
    embedding covers concatenation along lon alone: datasets that differ in
    time or latitude, or that share a first longitude, are [Unmodelled]
    (xarray stacks datasets of several dates; section [Library] has the
    merge engine for every behaviour of this call). *)
Definition combine_by_coords (datasets : list Dataset) : result Dataset :=
  match datasets with
  | [] => Ok {| ds_time := []; ds_lat := []; ds_lon := [] |}
  | [d] => Ok d
  | d0 :: rest =>
      let same_time := forallb (fun d => same_index (ds_time d0) (ds_time d)) rest in
      let same_lat := forallb (fun d => same_index (ds_lat d0) (ds_lat d)) rest in
      let same_lon := forallb (fun d => same_index (ds_lon d0) (ds_lon d)) rest in
      if same_time && same_lat && same_lon then
        Err (ValueError "Could not find any dimension coordinates to use to order the datasets for concatenation")
      else if same_time && same_lat then
        let idx := map ds_lon datasets in
        let ascending := forallb is_monotonic_increasing idx in
        if negb (ascending || forallb is_monotonic_decreasing idx) then
          Err (ValueError "Coordinate variable lon is neither monotonically increasing nor monotonically decreasing on all datasets")
        else if existsb (fun l => bool_decide (l = [])) idx then
          Err (ValueError "Cannot handle size zero dimensions")
        else if negb (distinct (map first_label datasets)) then
          Err Unmodelled
        else
          let le := if ascending then Z.leb else Z.geb in
          let ordered := sort_by le (map (fun d => (first_label d, d)) datasets) in
          let lon := concat (map (fun kd => ds_lon (snd kd)) ordered) in
          if is_monotonic_increasing lon || is_monotonic_decreasing lon then
            Ok {| ds_time := ds_time d0; ds_lat := ds_lat d0; ds_lon := lon |}
          else
            Err (ValueError "Resulting object does not have monotonic global indexes along dimension lon")
      else Err Unmodelled
  end.

(** [xr.Dataset({red, nir}, coords = {time, lat, lon})]: both arrays must
    have the sizes of the three coordinate vectors. *)
Definition fits (shape : Shape) (time : list string) (lat lon : list Z) : bool :=
  let '(bands, rows, columns) := shape in
  (bands =? Z.of_nat (length time)) && (rows =? Z.of_nat (length lat))
  && (columns =? Z.of_nat (length lon)).

Definition Dataset_of (red nir : Shape) (time : list string) (lat lon : list Z)
    : result Dataset :=
  if fits red time lat lon && fits nir time lat lon
  then Ok {| ds_time := time; ds_lat := lat; ds_lon := lon |}
  else Err (ValueError "conflicting sizes for dimension").

End Xr.

Module Pd.

Definition digit (c : ascii) : option Z :=
  let n := nat_of_ascii c in
  if (48 <=? n)%nat && (n <=? 57)%nat then Some (Z.of_nat (n - 48)) else None.

Fixpoint number_from (acc : Z) (s : string) : option Z :=
  match s with
  | EmptyString => Some acc
  | String c s' =>
      match digit c with
      | Some d => number_from (10 * acc + d) s'
      | None => None
      end
  end.

Definition number (s : string) : option Z :=
  match s with
  | EmptyString => None
  | _ => number_from 0 s
  end.

Definition leap (y : Z) : bool :=
  (y mod 4 =? 0) && (negb (y mod 100 =? 0) || (y mod 400 =? 0)).

Definition days_in_month (y m : Z) : Z :=
  if (m =? 4) || (m =? 6) || (m =? 9) || (m =? 11) then 30
  else if m =? 2 then (if leap y then 29 else 28)
  else 31.

(** A calendar date written [yyyy-mm-dd], within the years a nanosecond
    time stamp can hold *)
Definition is_date (date : string) : bool :=
  (String.length date =? 10)%nat
  && String.eqb (slice 4 5 date) "-" && String.eqb (slice 7 8 date) "-"
  && match number (slice 0 4 date), number (slice 5 7 date), number (slice 8 10 date) with
     | Some y, Some m, Some d =>
         (1678 <=? y) && (y <=? 2261) && (1 <=? m) && (m <=? 12)
         && (1 <=? d) && (d <=? days_in_month y m)
     | _, _, _ => false
     end.

(** [pd.date_range(date, periods = 1)].  The embedding covers the spelling
    [getDate] produces; what pandas makes of other strings is left open. *)
Definition date_range (date : string) : result (list string) :=
  if is_date date then Ok [date] else Err Unmodelled.

End Pd.

(** [xr.open_mfdataset(paths)]: open every path and combine by coordinates. *)
Fixpoint open_all (paths : list string) : M (list Dataset) :=
  match paths with
  | [] => ret []
  | p :: paths' =>
      let! d := open_dataset p in
      let! ds := open_all paths' in
      ret (d :: ds)
  end.

Definition open_mfdataset (paths : list string) : M Dataset :=
  match paths with
  | [] => raise (OSError "no files to open")
  | _ =>
      let! ds := open_all paths in
      lift (Xr.combine_by_coords ds)
  end.

(* ------------------------------------------------------------------ *)
(** ** The loader: [loadBand], [getDate], [getTile] *)

(** The resolution switch of [loadBand] *)
Definition loadBand_res (resolution : Z) : result Z :=
  if resolution =? 10 then Ok (1830 * 3 * 2)
  else if resolution =? 20 then Ok (1830 * 3)
  else if resolution =? 60 then Ok 1830
  else if resolution =? 100 then Ok 1098
  else Err (NoResolution "Invalid Resolution, try 10, 20, 60 or 100").

(** The [while j >= 0] loop of [loadBand].  The first argument is [j + 1],
    the number of rounds still to run; [i] counts up while [j] counts down.
    [<[i:=v]>] leaves a list unchanged when [i] is out of range, where
    Python raises; [loadBand_while_length] shows the loop stays in range.
    The sums are those of the integers; [Binary64.loadBand_while] has them
    in the floats of the source. *)
Fixpoint loadBand_while (rounds i : nat) (left bottom resolution : Z)
    (lat lon : list Z) : list Z * list Z :=
  match rounds with
  | O => (lat, lon)
  | S j =>
      let lon' := <[i := left + Z.of_nat i * resolution]> lon in
      let lat' := <[i := bottom + Z.of_nat j * resolution]> lat in
      loadBand_while j (S i) left bottom resolution lat' lon'
  end.

(** [lat] and [lon] as [loadBand] leaves them for a grid of [res] points *)
Definition loadBand_coords (left bottom resolution res : Z) : list Z * list Z :=
  let n := Z.to_nat res in
  loadBand_while n 0 left bottom resolution (replicate n 0) (replicate n 0).

Definition loadBand_name (date tile : string) (resolution : Z) : string :=
  ("datacube_" ++ date ++ "_" ++ tile ++ "_R" ++ str resolution ++ ".nc")%string.

(** [b.read()] and [b.read(out_shape = ..., resampling = bilinear)] *)
Definition read (b : Raster) : Shape := (count b, height b, width b).

(** [int(b.height * upscale_factor)] with [upscale_factor = 1/5] is the
    integer part of a fifth.  A target without rows or columns does not
    reach the end of the branch ([b.width / nir.shape[-1]] divides by it). *)
Definition read_resampled (b : Raster) : result Shape :=
  if (height b / 5 =? 0) || (width b / 5 =? 0) then Err Unmodelled
  else Ok (count b, height b / 5, width b / 5).

(** The [if resolution == 100] branch of [loadBand]: [red] and [nir] are
    read again at a fifth of the size, [nir] first. *)
Definition loadBand_resample (b4 b8 : Raster) (resolution : Z) (red nir : Shape)
    : result (Shape * Shape) :=
  if resolution =? 100
  then and_then (read_resampled b8) (fun nir =>
       and_then (read_resampled b4) (fun red => Ok (red, nir)))
  else Ok (red, nir).

(** [loadBand] between opening the rasters and saving the dataset *)
Definition loadBand_dataset (b4 b8 : Raster) (date : string) (resolution : Z)
    : result Dataset :=
  let red := read b4 in
  let nir := read b8 in
  and_then (loadBand_res resolution) (fun res =>
  let coords := loadBand_coords (bounds_left b4) (bounds_bottom b4) resolution res in
  and_then (Pd.date_range date) (fun time =>
  and_then (loadBand_resample b4 b8 resolution red nir) (fun bands =>
  Xr.Dataset_of (fst bands) (snd bands) time (fst coords) (snd coords)))).

Definition loadBand (bandpath : list string) (date tile : string)
    (resolution : Z) : M Dataset :=
  let! p4 := index bandpath 0 in
  let! b4 := rio_open p4 in
  let! p8 := index bandpath 1 in
  let! b8 := rio_open p8 in
  let! dataset := lift (loadBand_dataset b4 b8 date resolution) in
  to_netcdf dataset (loadBand_name date tile resolution) ;;
  rio_close p4 ;;
  rio_close p8 ;;
  ret dataset.

Definition getDate (filename : string) : string :=
  (slice 11 15 filename ++ "-" ++ slice 15 17 filename ++ "-" ++ slice 17 19 filename)%string.

Definition getTile (filename : string) : string :=
  slice 38 44 filename.

(* ------------------------------------------------------------------ *)
(** ** The coordinate arithmetic in binary64 *)

(** rasterio holds the bounds of a raster as Python floats, and the loop of
    [loadBand] adds [i * resolution], an exact integer, to such a float.
    [Raster] and [loadBand_while] hold the bounds and the labels as
    integers.  That is the arithmetic of the source as long as every sum is
    exact in binary64, as it is for bounds in whole metres and labels below
    2^53 in size; [Binary64.exact] says so, and a statement on the labels
    takes it as a hypothesis.  This module has the loop as the source
    computes it. *)
Module Binary64.

(** [float(z)] for a Python integer below 2^62 in size *)
Definition of_Z (z : Z) : float :=
  if z <? 0 then PrimFloat.opp (PrimFloat.of_uint63 (Uint63.of_Z (- z)))
  else PrimFloat.of_uint63 (Uint63.of_Z z).

(** The integer a float stands for, when it stands for one: the value of
    the float is [m * 2 ^ e], with its sign. *)
Definition to_Z (f : float) : option Z :=
  match Prim2SF f with
  | S754_zero _ => Some 0
  | S754_finite s m e =>
      let v := if 0 <=? e then Some (Z.pos m * 2 ^ e)
               else if Z.pos m mod 2 ^ (- e) =? 0 then Some (Z.pos m / 2 ^ (- e))
               else None in
      if s then option_map Z.opp v else v
  | _ => None
  end.

(** [bound + k * resolution]: the product of the two integers is an
    integer, converted and added to the float. *)
Definition label (bound : float) (k resolution : Z) : float :=
  PrimFloat.add bound (of_Z (k * resolution)).

(** The [while j >= 0] loop of [loadBand], as [loadBand_while] below has
    it, on floats *)
Fixpoint loadBand_while (rounds i : nat) (left bottom : float) (resolution : Z)
    (lat lon : list float) : list float * list float :=
  match rounds with
  | O => (lat, lon)
  | S j =>
      let lon' := <[i := label left (Z.of_nat i) resolution]> lon in
      let lat' := <[i := label bottom (Z.of_nat j) resolution]> lat in
      loadBand_while j (S i) left bottom resolution lat' lon'
  end.

Definition loadBand_coords (left bottom : float) (resolution res : Z)
    : list float * list float :=
  let n := Z.to_nat res in
  loadBand_while n 0 left bottom resolution (replicate n (of_Z 0)) (replicate n (of_Z 0)).

(** Every label of a grid of [res] points on the integer [bound] is the
    exact sum. *)
Definition exact (bound resolution res : Z) : Prop :=
  forall k : Z, 0 <= k < res ->
    to_Z (label (of_Z bound) k resolution) = Some (bound + k * resolution).

(** The same, as a test that can be run *)
Definition exactb (bound resolution res : Z) : bool :=
  forallb (fun k : nat =>
             bool_decide (to_Z (label (of_Z bound) (Z.of_nat k) resolution)
                          = Some (bound + Z.of_nat k * resolution)))
    (seq 0 (Z.to_nat res)).

End Binary64.

(* ------------------------------------------------------------------ *)
(** ** The merge engine: [delete], [merge_coords], [merge_Sentinel] *)

(** [delete(path)]: [os.remove], with [FileNotFoundError] turned into [NoPath]. *)
Definition delete (path : string) : M unit :=
  fun w =>
    match os_remove path w with
    | (w', Err (FileNotFoundError _)) => (w', Err (NoPath "No file in this path"))
    | other => other
    end.

Definition safe_datacube (ds : Dataset) (name : string) : M unit :=
  to_netcdf ds (name ++ ".nc")%string.

Definition merge_coords (ds_left ds_right : Dataset) (name : string) : M unit :=
  let! first_left := lift (Xr.lon0 ds_left) in
  let! first_right := lift (Xr.lon0 ds_right) in
  let! ds_selected := lift (Xr.sel_lon ds_left first_left first_right) in
  let ds_merge := [ds_selected; ds_right] in
  let! merged := lift (Xr.combine_by_coords ds_merge) in
  safe_datacube merged name.

(** The name [merge_Sentinel] gives to the join of [file1] with its neighbour *)
Definition merged_name (file1 : string) : string :=
  (slice 0 20 file1 ++ "Merged" ++ slice 26 31 file1)%string.

(** The body of the inner loop of [merge_Sentinel], for one [file1] and one
    [file2] *)
Definition merge_Sentinel_pair (file1 file2 : string) : M unit :=
  let file1Date := slice 9 19 file1 in
  let file1Tile := slice 20 26 file1 in
  let file1Res := slice 27 31 file1 in
  let file2Date := slice 9 19 file2 in
  let file2Tile := slice 20 26 file2 in
  let file2Res := slice 27 31 file2 in
  if String.eqb (slice 21 23 file1) "31" then
    delete file1
  else if String.eqb (slice 21 23 file2) "31" then
    delete file2
  else if String.eqb file1Date file2Date && String.eqb file1Tile file2Tile
          && String.eqb file1Res file2Res then
    ret tt
  else if String.eqb file1Date file2Date && String.eqb file1Tile "T32ULC"
          && String.eqb file2Tile "T32UMC" && String.eqb file1Res file2Res then
    let! fileLeft := open_dataset file1 in
    let! fileRight := open_dataset file2 in
    merge_coords fileLeft fileRight (merged_name file1) ;;
    delete file1 ;;
    delete file2
  else
    ret tt.

(** [for file1 in files: for file2 in files: ...] *)
Definition merge_Sentinel_pairs (files : list string) : M unit :=
  for_each files (fun file1 =>
    for_each files (fun file2 =>
      merge_Sentinel_pair file1 file2)).

(** The tail of [merge_Sentinel]: open what the directory holds now,
    combine, save under [nameSentinel], delete the inputs. *)
Definition merge_Sentinel_concat (nameSentinel : string) : M unit :=
  let! files := listdir in
  let! ds_merge := open_all files in
  let! datacube := open_mfdataset files in
  to_netcdf datacube (nameSentinel ++ ".nc")%string ;;
  for_each files delete.

(** The body of the first loop of [merge_Sentinel]: the extension check *)
Definition check_extension (nc : string) : M unit :=
  if negb (endswith nc ".nc") then raise (TypeError "Wrong file in directory")
  else ret tt.

Definition merge_Sentinel (nameSentinel : string) : M unit :=
  let! files := listdir in
  for_each files check_extension ;;
  match length files with
  | O => raise (FileNotFoundError "Directory empty")
  | S O =>
      let! listing := listdir in
      let! only := index listing 0 in
      os_rename only "merged_cube.nc"
  | _ =>
      merge_Sentinel_pairs files ;;
      merge_Sentinel_concat nameSentinel
  end.

(* ------------------------------------------------------------------ *)
(** ** The merge engine over any xarray *)

(** [Xr] embeds a fragment of xarray: selection on an increasing index and
    combination along the longitude, for one date and one latitude row.
    What the merge engine does to the workspace does not depend on what the
    two calls compute.  This section has the engine with the two calls as
    parameters, any functions of the datasets; with those of [Xr] it is the
    engine above. *)
Section Library.

Variable sel_lon : Dataset -> Z -> Z -> result Dataset.
Variable combine_by_coords : list Dataset -> result Dataset.

Definition merge_coords_with (ds_left ds_right : Dataset) (name : string) : M unit :=
  let! first_left := lift (Xr.lon0 ds_left) in
  let! first_right := lift (Xr.lon0 ds_right) in
  let! ds_selected := lift (sel_lon ds_left first_left first_right) in
  let ds_merge := [ds_selected; ds_right] in
  let! merged := lift (combine_by_coords ds_merge) in
  safe_datacube merged name.

Definition merge_Sentinel_pair_with (file1 file2 : string) : M unit :=
  let file1Date := slice 9 19 file1 in
  let file1Tile := slice 20 26 file1 in
  let file1Res := slice 27 31 file1 in
  let file2Date := slice 9 19 file2 in
  let file2Tile := slice 20 26 file2 in
  let file2Res := slice 27 31 file2 in
  if String.eqb (slice 21 23 file1) "31" then
    delete file1
  else if String.eqb (slice 21 23 file2) "31" then
    delete file2
  else if String.eqb file1Date file2Date && String.eqb file1Tile file2Tile
          && String.eqb file1Res file2Res then
    ret tt
  else if String.eqb file1Date file2Date && String.eqb file1Tile "T32ULC"
          && String.eqb file2Tile "T32UMC" && String.eqb file1Res file2Res then
    let! fileLeft := open_dataset file1 in
    let! fileRight := open_dataset file2 in
    merge_coords_with fileLeft fileRight (merged_name file1) ;;
    delete file1 ;;
    delete file2
  else
    ret tt.

Definition merge_Sentinel_pairs_with (files : list string) : M unit :=
  for_each files (fun file1 =>
    for_each files (fun file2 =>
      merge_Sentinel_pair_with file1 file2)).

Definition open_mfdataset_with (paths : list string) : M Dataset :=
  match paths with
  | [] => raise (OSError "no files to open")
  | _ =>
      let! ds := open_all paths in
      lift (combine_by_coords ds)
  end.

Definition merge_Sentinel_concat_with (nameSentinel : string) : M unit :=
  let! files := listdir in
  let! ds_merge := open_all files in
  let! datacube := open_mfdataset_with files in
  to_netcdf datacube (nameSentinel ++ ".nc")%string ;;
  for_each files delete.

Definition merge_Sentinel_with (nameSentinel : string) : M unit :=
  let! files := listdir in
  for_each files check_extension ;;
  match length files with
  | O => raise (FileNotFoundError "Directory empty")
  | S O =>
      let! listing := listdir in
      let! only := index listing 0 in
      os_rename only "merged_cube.nc"
  | _ =>
      merge_Sentinel_pairs_with files ;;
      merge_Sentinel_concat_with nameSentinel
  end.

End Library.

(* ------------------------------------------------------------------ *)
(** ** Predicates used by the statements *)

(** Every later label is larger, respectively smaller. *)
Definition strictly_increasing (l : list Z) : Prop :=
  forall (i j : nat) (x y : Z), (i < j)%nat -> l !! i = Some x -> l !! j = Some y -> x < y.

Definition strictly_decreasing (l : list Z) : Prop :=
  forall (i j : nat) (x y : Z), (i < j)%nat -> l !! i = Some x -> l !! j = Some y -> y < x.

(** The resolutions [loadBand] accepts *)
Definition supported (resolution : Z) : Prop :=
  resolution = 10 \/ resolution = 20 \/ resolution = 60 \/ resolution = 100.

(** The extent of the longitude axis: its first and its last label *)
Definition lon_range (d : Dataset) : option (Z * Z) :=
  match head (ds_lon d), last (ds_lon d) with
  | Some first, Some final => Some (first, final)
  | _, _ => None
  end.

Definition range_union (r1 r2 : Z * Z) : Z * Z :=
  (Z.min (fst r1) (fst r2), Z.max (snd r1) (snd r2)).

(** The left dataset cut to the labels from [first_left] to [first_right],
    both kept, followed by the whole right dataset *)
Definition trimmed_join (ds_left ds_right : Dataset) (first_left first_right : Z) : Dataset :=
  {| ds_time := ds_time ds_left;
     ds_lat := ds_lat ds_left;
     ds_lon := filter (fun x => first_left <= x <= first_right) (ds_lon ds_left)
               ++ ds_lon ds_right |}.

(** Two names carry the same date, tile code and resolution token. *)
Definition coincident (file1 file2 : string) : Prop :=
  slice 9 19 file1 = slice 9 19 file2 /\
  slice 20 26 file1 = slice 20 26 file2 /\
  slice 27 31 file1 = slice 27 31 file2.

Definition zone31 (file : string) : Prop := slice 21 23 file = "31"%string.

(** The tile codes that [merge_Sentinel] joins *)
Definition adjacent (file1 file2 : string) : Prop :=
  slice 9 19 file1 = slice 9 19 file2 /\
  slice 20 26 file1 = "T32ULC"%string /\
  slice 20 26 file2 = "T32UMC"%string /\
  slice 27 31 file1 = slice 27 31 file2.

Ltac eqb_cases :=
  repeat match goal with
         | |- context [String.eqb ?a ?b] => destruct (String.eqb_spec a b)
         end.

Ltac eqb_solve :=
  simpl;
  repeat match goal with
         | |- context [String.eqb ?a ?b] =>
             destruct (String.eqb_spec a b); try congruence; simpl
         end;
  try done.

(** The rounds of the pair loops, in order: every [file1] of the list with
    every [file2] of the list *)
Definition rounds (files : list string) : list (string * string) :=
  list_prod files files.

Definition round (p : string * string) : M unit :=
  merge_Sentinel_pair (fst p) (snd p).

(** Following the specification: the names of every round are names of the
    directory as it is when the round starts. *)
Definition compares_current_listing (listing : list string) (w : World) : Prop :=
  forall (k : nat) (p : string * string) (wk : World),
    for_each (take k (rounds listing)) round w = (wk, Ok tt) ->
    rounds listing !! k = Some p ->
    In (fst p) (Dir.names (files wk)) /\ In (snd p) (Dir.names (files wk)).


(* ------------------------------------------------------------------ *)
(** ** The band locator: [extractBands] *)

Module Path.

(** One step of [os.path.join] as [posixpath] has it: a component that
    starts with the separator replaces what was joined so far; otherwise it
    is appended, after a separator unless the path so far is empty or
    already ends with one. *)
Definition join2 (path b : string) : string :=
  if String.prefix "/" b then b
  else if String.eqb path "" || endswith path "/" then (path ++ b)%string
  else (path ++ "/" ++ b)%string.

(** [os.path.join(a, *p)] *)
Definition join (a : string) (p : list string) : string := fold_left join2 p a.

End Path.

(** [l[i]] outside the monad *)
Definition item (l : list string) (i : nat) : result string :=
  match l !! i with
  | Some x => Ok x
  | None => Err IndexError
  end.

Section ExtractBands.

(** What [os.listdir] answers for a path: the entries, or the exception. *)
Variable os_listdir : string -> result (list string).

(** One branch of the resolution switch of [extractBands]: list the folder
    of the first granule, take the red and the near-infrared band by
    position. *)
Definition extractBands_folder (filename directory : string) (lTwoA : list string)
    (folder : string) (red nir : nat) : result (list string) :=
  and_then (item lTwoA 0) (fun granule =>
  let images := [filename; "GRANULE"%string; granule; "IMG_DATA"%string; folder] in
  and_then (os_listdir (Path.join directory images)) (fun bandName =>
  and_then (item bandName red) (fun band_red =>
  let pathRed := Path.join directory (images ++ [band_red]) in
  and_then (item bandName nir) (fun band_nir =>
  let pathNIR := Path.join directory (images ++ [band_nir]) in
  Ok [pathRed; pathNIR])))).

(** The body of the [try] of [extractBands] *)
Definition extractBands_try (filename : string) (resolution : Z) (directory : string)
    : result (list string) :=
  and_then (os_listdir (Path.join directory [filename; "GRANULE"%string])) (fun lTwoA =>
  if resolution =? 10 then extractBands_folder filename directory lTwoA "R10m" 3 4
  else if resolution =? 20 then extractBands_folder filename directory lTwoA "R20m" 3 9
  else if resolution =? 60 then extractBands_folder filename directory lTwoA "R60m" 4 11
  else if resolution =? 100 then extractBands_folder filename directory lTwoA "R20m" 3 9
  else Err (NoResolution "Invalid Resolution, try 10, 20, 60 or 100")).

(** [extractBands]: [except FileNotFoundError] turns that exception, and no
    other, into [NoPath]. *)
Definition extractBands (filename : string) (resolution : Z) (directory : string)
    : result (list string) :=
  match extractBands_try filename resolution directory with
  | Err (FileNotFoundError _) => Err (NoPath "No file in this path")
  | other => other
  end.

End ExtractBands.

(** The folders of one extracted product under [/data/], as [os.listdir]
    shows them: one granule, and the image folder of the 20 m bands. *)
Definition product_listing (path : string) : result (list string) :=
  if String.eqb path (Path.join "/data/" ["P.SAFE"; "GRANULE"])%string then
    Ok ["L2A_T32ULC_A025814"%string]
  else if String.eqb path
            (Path.join "/data/" ["P.SAFE"; "GRANULE"; "L2A_T32ULC_A025814";
                                 "IMG_DATA"; "R20m"])%string then
    Ok ["T32ULC_AOT_20m.jp2"; "T32ULC_B02_20m.jp2"; "T32ULC_B03_20m.jp2";
        "T32ULC_B04_20m.jp2"; "T32ULC_B05_20m.jp2"; "T32ULC_B06_20m.jp2";
        "T32ULC_B07_20m.jp2"; "T32ULC_B11_20m.jp2"; "T32ULC_B12_20m.jp2";
        "T32ULC_B8A_20m.jp2"; "T32ULC_SCL_20m.jp2"; "T32ULC_TCI_20m.jp2";
        "T32ULC_WVP_20m.jp2"]%string
  else Err (FileNotFoundError path).

(** [m] never overwrites: whatever it returns, a file whose name is not in
    [S] is afterwards as it was or gone, and the raster store and the open
    handles are as they were. *)
Definition keeps_or_deletes {A} (S : string -> Prop) (m : M A) : Prop :=
  forall (w w' : World) (r : result A),
    m w = (w', r) ->
    (forall n, ~ S n ->
       Dir.find n (files w') = Dir.find n (files w) \/ Dir.find n (files w') = None) /\
    rasters w' = rasters w /\
    handles w' = handles w.

(* ------------------------------------------------------------------ *)
(** ** The archives: [unzip] *)

Section Unzip.

(** [unzipping(filename, directory)].  What [ZipFile.extractall] does to
    the workspace depends on the archive, which is not looked into: the
    call is any operation on the world. *)
Variable unzipping : string -> M unit.

(** One round of the loop of [unzip].  A name that [os.listdir(directory)]
    returned holds no separator, so [os.path.join(directory, filename)]
    is the entry [filename] of the workspace. *)
Definition unzip_file (filename : string) : M unit :=
  if endswith filename ".zip" then
    if negb (String.eqb (slice 39 41 filename) "32") then delete filename
    else unzipping filename ;; delete filename
  else ret tt.

Definition unzip : M unit :=
  let! listing := listdir in
  for_each listing unzip_file.

End Unzip.

(** An extraction that fails on [bad] and otherwise unpacks the folder
    [<name>.SAFE] next to the archive [<name>.zip] *)
Definition unpack (bad filename : string) : M unit :=
  if String.eqb filename bad then raise (OSError filename)
  else fun w =>
    let folder := (slice 0 (String.length filename - 4) filename ++ ".SAFE")%string in
    (set_files (Dir.write folder Other (files w)) w, Ok tt).

(* ------------------------------------------------------------------ *)
(** ** The products: [buildCube] *)

(** [path] lies below the folder [os.path.join(directory, filename)]. *)
Definition below (directory filename path : string) : bool :=
  String.prefix (Path.join directory [filename; ""%string]) path.

(** [shutil.rmtree(os.path.join(directory, filename), onerror = on_rm_error)]:
    the folder leaves the workspace with all that is below it.  For a path
    that does not exist [on_rm_error] is called, and its [os.chmod] raises
    [FileNotFoundError]. *)
Definition rmtree (directory filename : string) : M unit :=
  fun w =>
    if Dir.mem filename (Dir.names (files w))
    then ({| files := Dir.remove filename (files w);
             rasters := filter (fun e => below directory filename (fst e) = false) (rasters w);
             handles := handles w |}, Ok tt)
    else (w, Err (FileNotFoundError (Path.join directory [filename]))).

(** How [buildCube] ends: at its end, with its own [NoSafeFileError], or
    with an exception of a call it makes. *)
Inductive built : Type :=
| Built
| NoSafeFileError (message : string)
| Raised (e : exn).

Section BuildCube.

(** [os.listdir] on a path below the workspace, in the world as it is at
    the call.  A product folder is an entry of the workspace ([Other]); what
    is inside the folders is known through this listing and the raster
    store alone. *)
Variable os_listdir : World -> string -> result (list string).

(** The counting loop: [i] after the first [for] *)
Definition buildCube_count (listing : list string) : nat :=
  fold_left (fun i filename => if endswith filename ".SAFE" then S i else i) listing O.

(** One round of the second loop.  [extractBands] is handed
    [os.path.join(directory, filename)] as its file name, and joins it to
    [directory] once more. *)
Definition buildCube_round (directory : string) (resolution : Z) (filename : string)
    : M unit :=
  if endswith filename ".SAFE" then
    let! bandPath :=
      (fun w => (w, extractBands (os_listdir w) (Path.join directory [filename])
                      resolution directory)) in
    let! band := loadBand bandPath (getDate filename) (getTile filename) resolution in
    rmtree directory filename
  else ret tt.

(** [buildCube].  [loadBand] saves under [directory + name]: the dataset is
    a file of the workspace for a [directory] that ends with the separator,
    as the convention of the embedding has it; statements on the saved
    datasets take that as a hypothesis. *)
Definition buildCube (directory : string) (resolution : Z) : World -> World * built :=
  fun w =>
    if Nat.eqb (buildCube_count (Dir.names (files w))) 0
    then (w, NoSafeFileError "In this directory is no SAFE file to build a cube")
    else
      match (let! listing := listdir in
             for_each listing (buildCube_round directory resolution)) w with
      | (w', Ok _) => (w', Built)
      | (w', Err e) => (w', Raised e)
      end.

End BuildCube.

(** The folders of the extracted product [product] under [directory], as
    [os.listdir] shows them: one granule, and the image folder of the 20 m
    bands. *)
Definition product_tree (directory product path : string) : result (list string) :=
  if String.eqb path (Path.join directory [product; "GRANULE"])%string then
    Ok ["L2A_T32ULC_A025814"%string]
  else if String.eqb path
            (Path.join directory [product; "GRANULE"; "L2A_T32ULC_A025814";
                                  "IMG_DATA"; "R20m"])%string then
    Ok ["T32ULC_AOT_20m.jp2"; "T32ULC_B02_20m.jp2"; "T32ULC_B03_20m.jp2";
        "T32ULC_B04_20m.jp2"; "T32ULC_B05_20m.jp2"; "T32ULC_B06_20m.jp2";
        "T32ULC_B07_20m.jp2"; "T32ULC_B11_20m.jp2"; "T32ULC_B12_20m.jp2";
        "T32ULC_B8A_20m.jp2"; "T32ULC_SCL_20m.jp2"; "T32ULC_TCI_20m.jp2";
        "T32ULC_WVP_20m.jp2"]%string
  else Err (FileNotFoundError path).

(** A workspace [/data/] with one extracted product of tile T32ULC and a
    file of another kind; the two bands of the 20 m folder are rasters of
    5490 rows and columns. *)
Definition S2A_product : string :=
  "S2A_MSIL2A_20200601T103031_N0214_R108_T32ULC_20200601T134211.SAFE".

Definition S2A_band : Raster :=
  {| bounds_left := 399960; bounds_bottom := 5690220;
     count := 1; height := 5490; width := 5490 |}.

Definition S2A_world : World :=
  {| files := [(S2A_product, Other); ("notes.txt"%string, Other)];
     rasters :=
       [(Path.join "/data/" [S2A_product; "GRANULE"; "L2A_T32ULC_A025814"; "IMG_DATA";
                             "R20m"; "T32ULC_B04_20m.jp2"]%string, S2A_band);
        (Path.join "/data/" [S2A_product; "GRANULE"; "L2A_T32ULC_A025814"; "IMG_DATA";
                             "R20m"; "T32ULC_B8A_20m.jp2"]%string, S2A_band)];
     handles := [] |}.

(* ------------------------------------------------------------------ *)
(** * Properties of the loader *)

Section Loader.

Variables left bottom resolution : Z.

Lemma loadBand_while_length (rounds i : nat) (lat lon : list Z) :
  length (fst (loadBand_while rounds i left bottom resolution lat lon)) = length lat /\
  length (snd (loadBand_while rounds i left bottom resolution lat lon)) = length lon.
Proof.
  revert i lat lon.
  induction rounds as [|j IH]; intros i lat lon; simpl; [done|].
  destruct (IH (S i) (<[i:=bottom + Z.of_nat j * resolution]> lat)
               (<[i:=left + Z.of_nat i * resolution]> lon)) as [Hlat Hlon].
  rewrite Hlat, Hlon, !length_insert. done.
Qed.

(** What the loop has written when it stops: the rounds cover the positions
    [i .. i + rounds - 1]; everything else is as before. *)
Lemma loadBand_while_lon (rounds i : nat) (lat lon : list Z) (k : nat) :
  (i + rounds <= length lon)%nat ->
  snd (loadBand_while rounds i left bottom resolution lat lon) !! k =
    if decide (i <= k < i + rounds)%nat
    then Some (left + Z.of_nat k * resolution)
    else lon !! k.
Proof.
  revert i lat lon.
  induction rounds as [|j IH]; intros i lat lon Hlen; simpl.
  - case_decide; [lia | done].
  - rewrite IH by (rewrite length_insert; lia).
    destruct (decide (k = i)) as [->|Hne].
    + rewrite list_lookup_insert_eq by lia.
      repeat case_decide; try lia; done.
    + rewrite list_lookup_insert_ne by done.
      repeat case_decide; try lia; done.
Qed.

Lemma loadBand_while_lat (rounds i : nat) (lat lon : list Z) (k : nat) :
  (i + rounds <= length lat)%nat ->
  fst (loadBand_while rounds i left bottom resolution lat lon) !! k =
    if decide (i <= k < i + rounds)%nat
    then Some (bottom + Z.of_nat (i + rounds - 1 - k) * resolution)
    else lat !! k.
Proof.
  revert i lat lon.
  induction rounds as [|j IH]; intros i lat lon Hlen; simpl.
  - case_decide; [lia | done].
  - rewrite IH by (rewrite length_insert; lia).
    destruct (decide (k = i)) as [->|Hne].
    + rewrite list_lookup_insert_eq by lia.
      repeat case_decide; try lia.
      do 2 f_equal. f_equal. lia.
    + rewrite list_lookup_insert_ne by done.
      repeat case_decide; try lia; try done.
      do 2 f_equal. f_equal. lia.
Qed.

Lemma loadBand_coords_length (res : Z) :
  length (fst (loadBand_coords left bottom resolution res)) = Z.to_nat res /\
  length (snd (loadBand_coords left bottom resolution res)) = Z.to_nat res.
Proof.
  unfold loadBand_coords.
  destruct (loadBand_while_length (Z.to_nat res) 0
              (replicate (Z.to_nat res) 0) (replicate (Z.to_nat res) 0)) as [-> ->].
  by rewrite length_replicate.
Qed.

Lemma loadBand_coords_lon (res : Z) (k : nat) :
  snd (loadBand_coords left bottom resolution res) !! k =
    if decide (k < Z.to_nat res)%nat
    then Some (left + Z.of_nat k * resolution)
    else None.
Proof.
  unfold loadBand_coords.
  rewrite loadBand_while_lon by (rewrite length_replicate; lia).
  repeat case_decide; try lia; try done.
  apply lookup_replicate_None. lia.
Qed.

Lemma loadBand_coords_lat (res : Z) (k : nat) :
  fst (loadBand_coords left bottom resolution res) !! k =
    if decide (k < Z.to_nat res)%nat
    then Some (bottom + Z.of_nat (Z.to_nat res - 1 - k) * resolution)
    else None.
Proof.
  unfold loadBand_coords.
  rewrite loadBand_while_lat by (rewrite length_replicate; lia).
  repeat case_decide; try lia; try done.
  apply lookup_replicate_None. lia.
Qed.

End Loader.

Lemma loadBand_res_supported (resolution res : Z) :
  loadBand_res resolution = Ok res ->
  supported resolution /\ 0 < resolution /\ 0 < res.
Proof.
  unfold loadBand_res, supported.
  repeat match goal with
         | |- context [(resolution =? ?c)%Z] =>
             destruct (Z.eqb_spec resolution c)
         end;
    intros H; inversion H; lia.
Qed.

Lemma loadBand_res_unsupported (resolution : Z) :
  ~ supported resolution ->
  loadBand_res resolution = Err (NoResolution "Invalid Resolution, try 10, 20, 60 or 100").
Proof.
  unfold loadBand_res, supported. intros Hno.
  repeat match goal with
         | |- context [(resolution =? ?c)%Z] =>
             destruct (Z.eqb_spec resolution c); [lia|]
         end.
  reflexivity.
Qed.

Lemma remove_first_opened (p4 p8 : string) (hs : list string) :
  remove_first p8 (remove_first p4 (p8 :: p4 :: hs)) = hs.
Proof.
  simpl. destruct (String.eqb p4 p8) eqn:E; simpl.
  - apply String.eqb_eq in E as ->. by rewrite String.eqb_refl.
  - by rewrite !String.eqb_refl.
Qed.

Lemma loadBand_dataset_res (b4 b8 : Raster) (date : string) (resolution : Z) (ds : Dataset) :
  loadBand_dataset b4 b8 date resolution = Ok ds ->
  exists res : Z,
    loadBand_res resolution = Ok res /\
    ds_lat ds = fst (loadBand_coords (bounds_left b4) (bounds_bottom b4) resolution res) /\
    ds_lon ds = snd (loadBand_coords (bounds_left b4) (bounds_bottom b4) resolution res).
Proof.
  unfold loadBand_dataset, and_then.
  destruct (loadBand_res resolution) as [res|e]; [|done].
  destruct (Pd.date_range date) as [time|e]; [|done].
  destruct (loadBand_resample b4 b8 resolution (read b4) (read b8)) as [[red nir]|e];
    [|done].
  unfold Xr.Dataset_of. simpl fst. simpl snd.
  destruct (_ && _); [|done].
  intros [= <-]. by exists res.
Qed.

Lemma loadBand_dataset_unsupported (b4 b8 : Raster) (date : string) (resolution : Z) :
  ~ supported resolution ->
  loadBand_dataset b4 b8 date resolution =
    Err (NoResolution "Invalid Resolution, try 10, 20, 60 or 100").
Proof.
  intros Hno. unfold loadBand_dataset. by rewrite loadBand_res_unsupported.
Qed.

(** [loadBand] once both rasters open: only the path through the end of
    the function closes the two handles. *)
Lemma loadBand_opened (p4 p8 date tile : string) (resolution : Z) (w : World) (b4 b8 : Raster) :
  Dir.find p4 (rasters w) = Some b4 ->
  Dir.find p8 (rasters w) = Some b8 ->
  loadBand [p4; p8] date tile resolution w =
    match loadBand_dataset b4 b8 date resolution with
    | Ok dataset =>
        (set_files (Dir.write (loadBand_name date tile resolution) (NetCDF dataset) (files w)) w,
         Ok dataset)
    | Err e => (set_handles (p8 :: p4 :: handles w) w, Err e)
    end.
Proof.
  intros H4 H8. unfold loadBand, bind, index, rio_open, lift, ret. simpl.
  rewrite H4. simpl. rewrite H8.
  destruct (loadBand_dataset b4 b8 date resolution) as [dataset|e]; [|done].
  unfold to_netcdf, rio_close, set_files, set_handles. simpl.
  do 2 f_equal. exact (remove_first_opened p4 p8 (handles w)).
Qed.

(** Whatever the raster store holds, a dataset that [loadBand] returns was
    built from the grid of a supported resolution. *)
Lemma loadBand_returns (bandpath : list string) (date tile : string) (resolution : Z)
    (w w' : World) (ds : Dataset) :
  loadBand bandpath date tile resolution w = (w', Ok ds) ->
  exists (res : Z) (b4 : Raster),
    loadBand_res resolution = Ok res /\
    ds_lat ds = fst (loadBand_coords (bounds_left b4) (bounds_bottom b4) resolution res) /\
    ds_lon ds = snd (loadBand_coords (bounds_left b4) (bounds_bottom b4) resolution res).
Proof.
  unfold loadBand, bind, index, rio_open, lift, ret, raise.
  destruct (bandpath !! 0%nat) as [p4|]; [|done].
  destruct (Dir.find p4 (rasters w)) as [b4|]; [|done].
  destruct (bandpath !! 1%nat) as [p8|]; [|done]. simpl.
  destruct (Dir.find p8 (rasters w)) as [b8|]; [|done].
  destruct (loadBand_dataset b4 b8 date resolution) as [dataset|e] eqn:Hds; [|done].
  simpl. intros [= _ <-].
  apply loadBand_dataset_res in Hds as (res & Hres & Hlat & Hlon). by exists res, b4.
Qed.

(** Band images that, after the resampling branch, have the size of the
    grid: the dataset is built on the vectors of the loop. *)
Lemma loadBand_dataset_built (b4 b8 : Raster) (date : string) (resolution res : Z) :
  loadBand_res resolution = Ok res ->
  Pd.is_date date = true ->
  loadBand_resample b4 b8 resolution (read b4) (read b8) = Ok ((1, res, res), (1, res, res)) ->
  loadBand_dataset b4 b8 date resolution =
    Ok {| ds_time := [date];
          ds_lat := fst (loadBand_coords (bounds_left b4) (bounds_bottom b4) resolution res);
          ds_lon := snd (loadBand_coords (bounds_left b4) (bounds_bottom b4) resolution res) |}.
Proof.
  intros Hres Hdate Hbands.
  pose proof (loadBand_res_supported _ _ Hres) as (_ & _ & Hpos).
  unfold loadBand_dataset, and_then, Pd.date_range.
  rewrite Hres, Hdate, Hbands.
  simpl fst. simpl snd.
  unfold Xr.Dataset_of, Xr.fits.
  destruct (loadBand_coords_length (bounds_left b4) (bounds_bottom b4) resolution res)
    as [-> ->].
  rewrite Z2Nat.id by lia. simpl length.
  by rewrite !Z.eqb_refl.
Qed.

(** [loadBand] on two rasters that are there and fit: it returns the
    dataset of the loop, saved under the name of the date and the tile. *)
Lemma loadBand_builds (p4 p8 date tile : string) (resolution res : Z) (w : World)
    (b4 b8 : Raster) :
  loadBand_res resolution = Ok res ->
  Dir.find p4 (rasters w) = Some b4 ->
  Dir.find p8 (rasters w) = Some b8 ->
  Pd.is_date date = true ->
  loadBand_resample b4 b8 resolution (read b4) (read b8) = Ok ((1, res, res), (1, res, res)) ->
  let ds := {| ds_time := [date];
               ds_lat := fst (loadBand_coords (bounds_left b4) (bounds_bottom b4)
                                resolution res);
               ds_lon := snd (loadBand_coords (bounds_left b4) (bounds_bottom b4)
                                resolution res) |} in
  loadBand [p4; p8] date tile resolution w =
    (set_files (Dir.write (loadBand_name date tile resolution) (NetCDF ds) (files w)) w,
     Ok ds).
Proof.
  intros Hres H4 H8 Hdate Hbands ds.
  rewrite (loadBand_opened _ _ _ _ _ _ _ _ H4 H8).
  by rewrite (loadBand_dataset_built _ _ _ _ res).
Qed.

(** C2. For the resolutions 10, 20, 60 and 100 [loadBand] takes the grid
    size 10980, 5490, 1830 and 1098, and the latitude and the longitude
    vector it generates have exactly that many entries.  On two band rasters
    that are there and whose arrays fit the grid, [loadBand] returns a
    dataset, and its two vectors have that many entries; so have the vectors
    of every dataset it returns.  For every other resolution the switch
    yields no size but the [NoResolution] error that names the allowed
    values: [loadBand] raises it once the two rasters are open, and returns
    no dataset on any input. *)
Theorem loadBand_grid_size (left bottom resolution : Z) :
  (supported resolution ->
     exists res : Z,
       loadBand_res resolution = Ok res /\
       (resolution = 10 -> res = 10980) /\
       (resolution = 20 -> res = 5490) /\
       (resolution = 60 -> res = 1830) /\
       (resolution = 100 -> res = 1098) /\
       Z.of_nat (length (fst (loadBand_coords left bottom resolution res))) = res /\
       Z.of_nat (length (snd (loadBand_coords left bottom resolution res))) = res /\
       (forall p4 p8 date tile w b4 b8,
          Dir.find p4 (rasters w) = Some b4 ->
          Dir.find p8 (rasters w) = Some b8 ->
          Pd.is_date date = true ->
          loadBand_resample b4 b8 resolution (read b4) (read b8)
            = Ok ((1, res, res), (1, res, res)) ->
          exists w' ds,
            loadBand [p4; p8] date tile resolution w = (w', Ok ds) /\
            Z.of_nat (length (ds_lat ds)) = res /\
            Z.of_nat (length (ds_lon ds)) = res) /\
       (forall bandpath date tile w w' ds,
          loadBand bandpath date tile resolution w = (w', Ok ds) ->
          Z.of_nat (length (ds_lat ds)) = res /\ Z.of_nat (length (ds_lon ds)) = res)) /\
  (~ supported resolution ->
     loadBand_res resolution =
       Err (NoResolution "Invalid Resolution, try 10, 20, 60 or 100") /\
     (forall p4 p8 date tile w b4 b8,
        Dir.find p4 (rasters w) = Some b4 ->
        Dir.find p8 (rasters w) = Some b8 ->
        snd (loadBand [p4; p8] date tile resolution w) =
          Err (NoResolution "Invalid Resolution, try 10, 20, 60 or 100")) /\
     (forall bandpath date tile w,
        is_ok (snd (loadBand bandpath date tile resolution w)) = false)).
Proof.
  split.
  - intros Hs.
    assert (exists res, loadBand_res resolution = Ok res /\
              (resolution = 10 -> res = 10980) /\ (resolution = 20 -> res = 5490) /\
              (resolution = 60 -> res = 1830) /\ (resolution = 100 -> res = 1098))
      as (res & Hres & H10 & H20 & H60 & H100).
    { destruct Hs as [-> | [-> | [-> | ->]]]; eexists; (split; [reflexivity|]);
        repeat split; intros; lia. }
    exists res. repeat (split; [assumption|]).
    pose proof (loadBand_res_supported _ _ Hres) as (_ & _ & Hpos).
    destruct (loadBand_coords_length left bottom resolution res) as [-> ->].
    repeat (split; [lia|]). split.
    + intros p4 p8 date tile w b4 b8 H4 H8 Hdate Hbands.
      eexists _, _. split.
      * by apply (loadBand_builds p4 p8 date tile resolution res w b4 b8).
      * simpl.
        destruct (loadBand_coords_length (bounds_left b4) (bounds_bottom b4) resolution res)
          as [-> ->].
        lia.
    + intros bandpath date tile w w' ds Hrun.
      apply loadBand_returns in Hrun as (res' & b4 & Hres' & -> & ->).
      rewrite Hres in Hres'. injection Hres' as <-.
      destruct (loadBand_coords_length (bounds_left b4) (bounds_bottom b4) resolution res)
        as [-> ->].
      lia.
  - intros Hno. split; [by apply loadBand_res_unsupported|]. split.
    + intros p4 p8 date tile w b4 b8 H4 H8.
      rewrite (loadBand_opened _ _ _ _ _ _ _ _ H4 H8).
      by rewrite loadBand_dataset_unsupported.
    + intros bandpath date tile w.
      destruct (loadBand bandpath date tile resolution w) as [w' [ds|e]] eqn:Hrun; [|done].
      apply loadBand_returns in Hrun as (res & _ & Hres & _).
      apply loadBand_res_supported in Hres as [Hs _]. done.
Qed.

Lemma loadBand_grid_size_witness :
  let band := {| bounds_left := 399960; bounds_bottom := 5690220;
                 count := 1; height := 5490; width := 5490 |} in
  let w := {| files := [];
              rasters := [("red.jp2"%string, band); ("nir.jp2"%string, band)];
              handles := [] |} in
  (exists res,
     loadBand_res 100 = Ok res /\ res = 1098 /\
     exists w' ds,
       loadBand ["red.jp2"%string; "nir.jp2"%string] "2020-06-01" "T32ULC" 100 w
         = (w', Ok ds) /\
       Z.of_nat (length (ds_lat ds)) = res /\ Z.of_nat (length (ds_lon ds)) = res) /\
  snd (loadBand ["red.jp2"%string; "nir.jp2"%string] "2020-06-01" "T32ULC" 30 w) =
    Err (NoResolution "Invalid Resolution, try 10, 20, 60 or 100").
Proof.
  intros band w. split.
  - assert (supported 100) as Hs by (unfold supported; do 3 right; reflexivity).
    destruct (proj1 (loadBand_grid_size 0 0 100) Hs)
      as (res & Hres & _ & _ & _ & H100 & _ & _ & Hrun & _).
    exists res. split; [exact Hres|]. split; [by apply H100|].
    apply (Hrun "red.jp2"%string "nir.jp2"%string "2020-06-01"%string "T32ULC"%string
             w band band); try reflexivity.
    rewrite (H100 eq_refl). reflexivity.
  - assert (~ supported 30) as Hno by (unfold supported; lia).
    destruct (proj2 (loadBand_grid_size 0 0 30) Hno) as (_ & Hrun & _).
    by apply (Hrun "red.jp2"%string "nir.jp2"%string "2020-06-01"%string "T32ULC"%string
                w band band).
Defined.

Lemma loadBand_coords_strict (left bottom resolution res : Z) :
  0 < resolution ->
  strictly_increasing (snd (loadBand_coords left bottom resolution res)) /\
  strictly_decreasing (fst (loadBand_coords left bottom resolution res)).
Proof.
  intros Hpos. split; intros i j x y Hij.
  - rewrite !loadBand_coords_lon.
    repeat case_decide; try done. intros [= <-] [= <-].
    apply Z.add_lt_mono_l, Z.mul_lt_mono_pos_r; lia.
  - rewrite !loadBand_coords_lat.
    repeat case_decide; try done. intros [= <-] [= <-].
    apply Z.add_lt_mono_l, Z.mul_lt_mono_pos_r; [lia|].
    apply Nat2Z.inj_lt. lia.
Qed.

(* ------------------------------------------------------------------ *)
(** * The loop in binary64 *)

Section Binary64Loop.

Variables (left bottom : float) (resolution : Z).

Lemma binary64_while_lon (rounds i : nat) (lat lon : list float) (k : nat) :
  (i + rounds <= length lon)%nat ->
  snd (Binary64.loadBand_while rounds i left bottom resolution lat lon) !! k =
    if decide (i <= k < i + rounds)%nat
    then Some (Binary64.label left (Z.of_nat k) resolution)
    else lon !! k.
Proof.
  revert i lat lon.
  induction rounds as [|j IH]; intros i lat lon Hlen; simpl.
  - case_decide; [lia | done].
  - rewrite IH by (rewrite length_insert; lia).
    destruct (decide (k = i)) as [->|Hne].
    + rewrite list_lookup_insert_eq by lia.
      repeat case_decide; try lia; done.
    + rewrite list_lookup_insert_ne by done.
      repeat case_decide; try lia; done.
Qed.

Lemma binary64_while_lat (rounds i : nat) (lat lon : list float) (k : nat) :
  (i + rounds <= length lat)%nat ->
  fst (Binary64.loadBand_while rounds i left bottom resolution lat lon) !! k =
    if decide (i <= k < i + rounds)%nat
    then Some (Binary64.label bottom (Z.of_nat (i + rounds - 1 - k)) resolution)
    else lat !! k.
Proof.
  revert i lat lon.
  induction rounds as [|j IH]; intros i lat lon Hlen; simpl.
  - case_decide; [lia | done].
  - rewrite IH by (rewrite length_insert; lia).
    destruct (decide (k = i)) as [->|Hne].
    + rewrite list_lookup_insert_eq by lia.
      repeat case_decide; try lia.
      do 2 f_equal. f_equal. lia.
    + rewrite list_lookup_insert_ne by done.
      repeat case_decide; try lia; try done.
      do 2 f_equal. f_equal. lia.
Qed.

(** The labels the source writes: [lon[k] = left + k * resolution] and
    [lat[k] = bottom + (res - 1 - k) * resolution], each one float sum. *)
Lemma binary64_coords_lon (res : Z) (k : nat) :
  snd (Binary64.loadBand_coords left bottom resolution res) !! k =
    if decide (k < Z.to_nat res)%nat
    then Some (Binary64.label left (Z.of_nat k) resolution)
    else None.
Proof.
  unfold Binary64.loadBand_coords.
  rewrite binary64_while_lon by (rewrite length_replicate; lia).
  repeat case_decide; try lia; try done.
  apply lookup_replicate_None. lia.
Qed.

Lemma binary64_coords_lat (res : Z) (k : nat) :
  fst (Binary64.loadBand_coords left bottom resolution res) !! k =
    if decide (k < Z.to_nat res)%nat
    then Some (Binary64.label bottom (Z.of_nat (Z.to_nat res - 1 - k)) resolution)
    else None.
Proof.
  unfold Binary64.loadBand_coords.
  rewrite binary64_while_lat by (rewrite length_replicate; lia).
  repeat case_decide; try lia; try done.
  apply lookup_replicate_None. lia.
Qed.

End Binary64Loop.

Lemma exactb_exact (bound resolution res : Z) :
  Binary64.exactb bound resolution res = true -> Binary64.exact bound resolution res.
Proof.
  unfold Binary64.exactb, Binary64.exact. rewrite forallb_forall. intros Hall k Hk.
  specialize (Hall (Z.to_nat k)). rewrite Z2Nat.id in Hall by lia.
  apply (proj1 (bool_decide_eq_true _)), Hall, in_seq. lia.
Qed.

(** Where every sum is exact, the floats the source writes stand for the
    integers of [loadBand_coords], label by label. *)
Lemma binary64_coords_exact (left bottom resolution res : Z) :
  Binary64.exact left resolution res ->
  Binary64.exact bottom resolution res ->
  Binary64.to_Z <$> snd (Binary64.loadBand_coords (Binary64.of_Z left)
                           (Binary64.of_Z bottom) resolution res)
    = Some <$> snd (loadBand_coords left bottom resolution res) /\
  Binary64.to_Z <$> fst (Binary64.loadBand_coords (Binary64.of_Z left)
                           (Binary64.of_Z bottom) resolution res)
    = Some <$> fst (loadBand_coords left bottom resolution res).
Proof.
  intros Hleft Hbottom. split; apply list_eq; intros k; rewrite !list_lookup_fmap.
  - rewrite binary64_coords_lon, loadBand_coords_lon.
    case_decide; [|done]. simpl. f_equal. apply Hleft. lia.
  - rewrite binary64_coords_lat, loadBand_coords_lat.
    case_decide; [|done]. simpl. f_equal. apply Hbottom. lia.
Qed.




(** The tests of pandas on a vector that increases strictly *)
Lemma strictly_increasing_monotonic (l : list Z) :
  strictly_increasing l -> Xr.is_monotonic_increasing l = true.
Proof.
  induction l as [|x [|y l] IH]; intros Hinc; try reflexivity.
  change (Xr.is_monotonic_increasing (x :: y :: l))
    with ((x <=? y) && Xr.is_monotonic_increasing (y :: l)).
  apply andb_true_iff. split.
  - apply Z.leb_le. pose proof (Hinc 0%nat 1%nat x y). simpl in *.
    assert (x < y) by (apply H; [lia | done | done]). lia.
  - apply IH. intros i j a b Hij Ha Hb. by apply (Hinc (S i) (S j)); [lia | |].
Qed.

(** Two datasets as [loadBand] builds them for the same date, the same
    bottom bound and the same grid, the first further west: they meet what
    the join of a west/east pair asks of its inputs. *)
Lemma loadBand_coords_west_east (left_west left_east bottom resolution res : Z) (date : string) :
  0 < resolution -> 0 < res -> left_west < left_east ->
  let west := {| ds_time := [date];
                 ds_lat := fst (loadBand_coords left_west bottom resolution res);
                 ds_lon := snd (loadBand_coords left_west bottom resolution res) |} in
  let east := {| ds_time := [date];
                 ds_lat := fst (loadBand_coords left_east bottom resolution res);
                 ds_lon := snd (loadBand_coords left_east bottom resolution res) |} in
  ds_time west = ds_time east /\
  ds_lat west = ds_lat east /\
  Xr.is_monotonic_increasing (ds_lon west) = true /\
  Xr.is_monotonic_increasing (ds_lon east) = true /\
  lon_range west = Some (left_west, left_west + (res - 1) * resolution) /\
  lon_range east = Some (left_east, left_east + (res - 1) * resolution) /\
  left_west + (res - 1) * resolution <= left_east + (res - 1) * resolution.
Proof.
  intros Hpos Hres Hwe west east.
  assert (forall l, lon_range {| ds_time := [date];
                                 ds_lat := fst (loadBand_coords l bottom resolution res);
                                 ds_lon := snd (loadBand_coords l bottom resolution res) |}
                    = Some (l, l + (res - 1) * resolution)) as Hrange.
  { intros l. unfold lon_range. simpl.
    rewrite head_lookup, last_lookup.
    destruct (loadBand_coords_length l bottom resolution res) as [_ ->].
    rewrite !loadBand_coords_lon.
    repeat case_decide; try lia.
    replace (Z.of_nat (Init.Nat.pred (Z.to_nat res))) with (res - 1) by lia.
    do 2 f_equal. lia. }
  repeat split; try done; try apply Hrange.
  - simpl. apply list_eq. intros i. by rewrite !loadBand_coords_lat.
  - apply strictly_increasing_monotonic.
    by apply (loadBand_coords_strict left_west bottom resolution res).
  - apply strictly_increasing_monotonic.
    by apply (loadBand_coords_strict left_east bottom resolution res).
  - lia.
Qed.

(** Whenever [loadBand] raises after it opened the two rasters, both
    handles stay open; the unsupported resolution is one such case. *)
Lemma loadBand_error_leaves_handles (p4 p8 date tile : string) (resolution : Z)
    (w : World) (b4 b8 : Raster) (e : exn) :
  Dir.find p4 (rasters w) = Some b4 ->
  Dir.find p8 (rasters w) = Some b8 ->
  loadBand_dataset b4 b8 date resolution = Err e ->
  loadBand [p4; p8] date tile resolution w =
    (set_handles (p8 :: p4 :: handles w) w, Err e).
Proof.
  intros H4 H8 Herr.
  rewrite (loadBand_opened _ _ _ _ _ _ _ _ H4 H8). by rewrite Herr.
Qed.

Lemma loadBand_unsupported_leaves_handles (p4 p8 date tile : string) (resolution : Z)
    (w : World) (b4 b8 : Raster) :
  Dir.find p4 (rasters w) = Some b4 ->
  Dir.find p8 (rasters w) = Some b8 ->
  ~ supported resolution ->
  loadBand [p4; p8] date tile resolution w =
    (set_handles (p8 :: p4 :: handles w) w,
     Err (NoResolution "Invalid Resolution, try 10, 20, 60 or 100")).
Proof.
  intros H4 H8 Hno.
  apply (loadBand_error_leaves_handles _ _ _ _ _ _ b4 b8); try done.
  by apply loadBand_dataset_unsupported.
Qed.

(** Band images that, after the resampling branch, have the size of the
    grid: the dataset is built. *)
Lemma loadBand_dataset_fits (b4 b8 : Raster) (date : string) (resolution res : Z) :
  loadBand_res resolution = Ok res ->
  Pd.is_date date = true ->
  loadBand_resample b4 b8 resolution (read b4) (read b8) = Ok ((1, res, res), (1, res, res)) ->
  exists ds, loadBand_dataset b4 b8 date resolution = Ok ds.
Proof.
  intros Hres Hdate Hbands.
  pose proof (loadBand_res_supported _ _ Hres) as (_ & _ & Hpos).
  unfold loadBand_dataset, and_then, Pd.date_range.
  rewrite Hres, Hdate, Hbands.
  simpl fst. simpl snd.
  unfold Xr.Dataset_of, Xr.fits.
  destruct (loadBand_coords_length (bounds_left b4) (bounds_bottom b4) resolution res)
    as [-> ->].
  rewrite Z2Nat.id by lia. simpl length.
  rewrite !Z.eqb_refl. simpl. by eexists.
Qed.

(** On the path through the end of the function both handles are closed
    again: the open handles are those from before the call. *)
Lemma loadBand_closes_handles (p4 p8 date tile : string) (resolution : Z)
    (w : World) (b4 b8 : Raster) (ds : Dataset) :
  Dir.find p4 (rasters w) = Some b4 ->
  Dir.find p8 (rasters w) = Some b8 ->
  loadBand_dataset b4 b8 date resolution = Ok ds ->
  snd (loadBand [p4; p8] date tile resolution w) = Ok ds /\
  handles (fst (loadBand [p4; p8] date tile resolution w)) = handles w.
Proof.
  intros H4 H8 Hds.
  rewrite (loadBand_opened _ _ _ _ _ _ _ _ H4 H8). by rewrite Hds.
Qed.

(** C5. With two readable band rasters and the resolution 30, [loadBand]
    raises [NoResolution] and leaves the handles of both rasters open,
    where the path through the end of the function (resolution 20) closes
    them. *)
Theorem loadBand_resolution_30_leaks_handles :
  let band := {| bounds_left := 399960; bounds_bottom := 5690220;
                 count := 1; height := 5490; width := 5490 |} in
  let w := {| files := [];
              rasters := [("B04_20m.jp2"%string, band); ("B8A_20m.jp2"%string, band)];
              handles := [] |} in
  loadBand ["B04_20m.jp2"%string; "B8A_20m.jp2"%string] "2020-06-01" "T32ULC" 30 w =
    (set_handles ["B8A_20m.jp2"%string; "B04_20m.jp2"%string] w,
     Err (NoResolution "Invalid Resolution, try 10, 20, 60 or 100")) /\
  is_ok (snd (loadBand ["B04_20m.jp2"%string; "B8A_20m.jp2"%string]
                "2020-06-01" "T32ULC" 20 w)) = true /\
  handles (fst (loadBand ["B04_20m.jp2"%string; "B8A_20m.jp2"%string]
                  "2020-06-01" "T32ULC" 20 w)) = [].
Proof.
  intros band w. split.
  - reflexivity.
  - destruct (loadBand_dataset_fits band band "2020-06-01" 20 5490)
      as [ds Hds]; try reflexivity.
    destruct (loadBand_closes_handles "B04_20m.jp2" "B8A_20m.jp2" "2020-06-01" "T32ULC"
                20 w band band ds eq_refl eq_refl Hds) as [Hok Hclosed].
    rewrite Hok. by split.
Qed.

(* ------------------------------------------------------------------ *)
(** * Slices of file names *)

Section Slices.

Lemma substring_past_end (n m : nat) (s : string) :
  (String.length s <= n)%nat -> substring n m s = ""%string.
Proof.
  revert s. induction n as [|n IH]; intros s Hlen.
  - destruct s; [by destruct m | simpl in Hlen; lia].
  - destruct s as [|c s]; [done|]. simpl. apply IH. simpl in Hlen. lia.
Qed.

Lemma length_substring (n m : nat) (s : string) :
  String.length (substring n m s) = Nat.min m (String.length s - n).
Proof.
  revert m s. induction n as [|n IH]; intros m s.
  - revert s. induction m as [|m IHm]; intros s.
    + by destruct s.
    + destruct s as [|c s]; [done|]. simpl. rewrite IHm. f_equal. f_equal. lia.
  - destruct s as [|c s]; simpl; [lia | apply IH].
Qed.

Lemma slice_past_end (a b : nat) (s : string) :
  (String.length s <= a)%nat -> slice a b s = ""%string.
Proof. apply substring_past_end. Qed.

Lemma slice_nonempty_length (a b : nat) (s : string) :
  slice a b s <> ""%string -> (a < String.length s)%nat.
Proof.
  intros Hne. destruct (le_lt_dec (String.length s) a) as [Hle|]; [|done].
  by rewrite slice_past_end in Hne.
Qed.

(** The zone digits are the second and third character of the tile code. *)
Lemma zone_of_tile (s : string) :
  slice 21 23 s = substring 1 2 (slice 20 26 s).
Proof.
  unfold slice. simpl Nat.sub.
  generalize 20%nat. intros n. revert s.
  induction n as [|n IH]; intros s.
  - destruct s as [|c0 [|c1 [|c2 [|c3 s]]]]; try reflexivity;
      try (simpl; by destruct s).
  - destruct s as [|c s]; [reflexivity|]. apply IH.
Qed.

(** The tile slice of a name built by [merged_name] reads [Merged]. *)
Lemma substring_after_prefix (n : nat) (s rest suffix : string) :
  (n <= String.length s)%nat ->
  substring n 6 ((substring 0 n s ++ "Merged" ++ rest) ++ suffix) = "Merged"%string.
Proof.
  revert s. induction n as [|n IH]; intros s Hlen.
  - destruct s; simpl; by destruct (rest ++ suffix)%string.
  - destruct s as [|c s]; simpl in Hlen; [lia|]. simpl. apply IH. lia.
Qed.

Lemma merged_name_tile (file1 suffix : string) :
  (20 <= String.length file1)%nat ->
  slice 20 26 (merged_name file1 ++ suffix) = "Merged"%string.
Proof.
  intros Hlen. unfold merged_name, slice. simpl Nat.sub.
  by apply substring_after_prefix.
Qed.

End Slices.

(* ------------------------------------------------------------------ *)
(** * The coordinate join *)

Section CoordinateJoin.

Import Xr.

Lemma is_monotonic_increasing_Sorted (l : list Z) :
  is_monotonic_increasing l = true <-> Sorted Z.le l.
Proof.
  induction l as [|x [|y l] IH].
  - split; [constructor | done].
  - split; [repeat constructor | done].
  - change (is_monotonic_increasing (x :: y :: l))
      with ((x <=? y) && is_monotonic_increasing (y :: l)).
    rewrite andb_true_iff, Z.leb_le, IH. split.
    + intros [Hxy Hs]. constructor; [done | by constructor].
    + intros Hs. apply Sorted_inv in Hs as [Hs Hhd]. by apply HdRel_inv in Hhd.
Qed.

Lemma is_monotonic_increasing_StronglySorted (l : list Z) :
  is_monotonic_increasing l = true <-> StronglySorted Z.le l.
Proof.
  rewrite is_monotonic_increasing_Sorted. split.
  - apply Sorted_StronglySorted. intros x y z. apply Z.le_trans.
  - apply StronglySorted_Sorted.
Qed.

Lemma StronglySorted_filter (P : Z -> Prop) `{forall x, Decision (P x)} (l : list Z) :
  StronglySorted Z.le l -> StronglySorted Z.le (filter P l).
Proof.
  induction 1 as [|x l Hs IH Hall]; [constructor|].
  rewrite filter_cons. case_decide; [|done].
  constructor; [done|].
  rewrite Forall_forall in Hall |- *.
  intros z Hz. apply list_elem_of_filter in Hz as [_ Hz]. by apply Hall.
Qed.

(** Two datasets on the same time and latitude, the first wholly west of
    the start of the second: the join is their concatenation along lon. *)
Lemma combine_by_coords_west_east (a b : Dataset) (x y : Z) (ta tb : list Z) :
  ds_time a = ds_time b ->
  ds_lat a = ds_lat b ->
  ds_lon a = x :: ta ->
  ds_lon b = y :: tb ->
  x < y ->
  Forall (fun z => z <= y) (ds_lon a) ->
  is_monotonic_increasing (ds_lon a) = true ->
  is_monotonic_increasing (ds_lon b) = true ->
  combine_by_coords [a; b] =
    Ok {| ds_time := ds_time a; ds_lat := ds_lat a; ds_lon := ds_lon a ++ ds_lon b |}.
Proof.
  intros Ht Hlat Ha Hb Hxy Hwest Hma Hmb.
  assert (is_monotonic_increasing (ds_lon a ++ ds_lon b) = true) as Hmab.
  { apply is_monotonic_increasing_StronglySorted, StronglySorted_app.
    apply is_monotonic_increasing_StronglySorted in Hma, Hmb.
    split; [|done].
    intros z1 z2 Hz1 Hz2.
    rewrite Forall_forall in Hwest. apply Hwest in Hz1.
    rewrite Hb in Hmb, Hz2. apply StronglySorted_inv in Hmb as [_ Hall].
    apply elem_of_cons in Hz2 as [->|Hz2]; [done|].
    rewrite Forall_forall in Hall. apply Hall in Hz2. lia. }
  unfold combine_by_coords, same_index, first_label.
  cbn [forallb map existsb distinct hd].
  rewrite (bool_decide_eq_true_2 _ Ht), (bool_decide_eq_true_2 _ Hlat).
  rewrite (bool_decide_eq_false_2 (ds_lon a = ds_lon b))
    by (rewrite Ha, Hb; intros [= ? _]; lia).
  rewrite Hma, Hmb. cbn [andb orb negb].
  rewrite Ha, Hb.
  rewrite !bool_decide_eq_false_2 by done.
  cbn [andb orb negb hd].
  rewrite (proj2 (Z.eqb_neq x y)) by lia.
  cbn [andb orb negb sort_by foldr fst snd insert_by].
  rewrite (proj2 (Z.leb_le x y)) by lia.
  cbn [concat map snd]. rewrite app_nil_r, Ha, Hb.
  rewrite Ha, Hb in Hmab. rewrite Hmab. reflexivity.
Qed.

End CoordinateJoin.

Section MergeCoords.

Variables (ds_left ds_right : Dataset) (l0 l1 r0 r1 : Z).
Hypothesis same_time : ds_time ds_left = ds_time ds_right.
Hypothesis same_lat : ds_lat ds_left = ds_lat ds_right.
Hypothesis left_sorted : Xr.is_monotonic_increasing (ds_lon ds_left) = true.
Hypothesis right_sorted : Xr.is_monotonic_increasing (ds_lon ds_right) = true.
Hypothesis left_range : lon_range ds_left = Some (l0, l1).
Hypothesis right_range : lon_range ds_right = Some (r0, r1).
Hypothesis west_east : l0 < r0.

Lemma left_head : exists tl, ds_lon ds_left = l0 :: tl.
Proof.
  unfold lon_range in left_range.
  destruct (ds_lon ds_left) as [|x tl]; [done|]. simpl in left_range.
  destruct (last (x :: tl)); [|done]. injection left_range as -> _. by exists tl.
Qed.

Lemma right_head : exists tr, ds_lon ds_right = r0 :: tr.
Proof.
  unfold lon_range in right_range.
  destruct (ds_lon ds_right) as [|x tr]; [done|]. simpl in right_range.
  destruct (last (x :: tr)); [|done]. injection right_range as -> _. by exists tr.
Qed.

Lemma right_last : last (ds_lon ds_right) = Some r1.
Proof.
  unfold lon_range in right_range.
  destruct (head (ds_lon ds_right)); [|done].
  destruct (last (ds_lon ds_right)); [|done]. by injection right_range as _ ->.
Qed.

Lemma left_last : last (ds_lon ds_left) = Some l1.
Proof.
  unfold lon_range in left_range.
  destruct (head (ds_lon ds_left)); [|done].
  destruct (last (ds_lon ds_left)); [|done]. by injection left_range as _ ->.
Qed.

(** [merge_coords] on a west/east pair saves the trimmed join. *)
Lemma merge_coords_west_east (name : string) (w : World) :
  merge_coords ds_left ds_right name w =
    to_netcdf (trimmed_join ds_left ds_right l0 r0) (name ++ ".nc")%string w.
Proof.
  destruct left_head as [tl Hl], right_head as [tr Hr].
  unfold merge_coords, bind, lift, Xr.lon0, Xr.sel_lon.
  rewrite Hl, Hr. rewrite <- Hl, left_sorted.
  set (sel := {| ds_time := ds_time ds_left; ds_lat := ds_lat ds_left;
                 ds_lon := filter (fun x => l0 <= x <= r0) (ds_lon ds_left) |}).
  assert (ds_lon sel = l0 :: filter (fun x => l0 <= x <= r0) tl) as Hsel.
  { simpl. rewrite Hl. apply filter_cons_True. lia. }
  rewrite (combine_by_coords_west_east sel ds_right l0 r0
             (filter (fun x => l0 <= x <= r0) tl) tr); try done.
  - apply Forall_forall. intros z Hz. simpl in Hz.
    apply list_elem_of_filter in Hz as [Hz _]. lia.
  - simpl. apply is_monotonic_increasing_StronglySorted, StronglySorted_filter.
    by apply is_monotonic_increasing_StronglySorted.
Qed.

(** The join starts where the left dataset starts and ends where the right
    one ends. *)
Lemma trimmed_join_range :
  lon_range (trimmed_join ds_left ds_right l0 r0) = Some (l0, r1).
Proof.
  destruct left_head as [tl Hl], right_head as [tr Hr].
  unfold lon_range, trimmed_join. simpl.
  rewrite Hl, filter_cons_True by lia. simpl.
  replace (last _) with (Some r1); [done|].
  rewrite <- right_last, Hr.
  change (l0 :: filter (fun x => l0 <= x <= r0) tl ++ r0 :: tr)
    with ((l0 :: filter (fun x => l0 <= x <= r0) tl) ++ r0 :: tr).
  by rewrite last_app_cons.
Qed.

End MergeCoords.

(* ------------------------------------------------------------------ *)
(** * Running the monad; the directory *)

Lemma run_bind {A B} (m : M A) (k : A -> M B) (w w' : World) (a : A) :
  m w = (w', Ok a) -> bind m k w = k a w'.
Proof. unfold bind. by intros ->. Qed.

Lemma run_bind_err {A B} (m : M A) (k : A -> M B) (w w' : World) (e : exn) :
  m w = (w', Err e) -> bind m k w = (w', Err e).
Proof. unfold bind. by intros ->. Qed.

Lemma for_each_app {A} (l1 l2 : list A) (body : A -> M unit) (w : World) :
  for_each (l1 ++ l2) body w = (for_each l1 body ;; for_each l2 body) w.
Proof.
  revert w. induction l1 as [|x l1 IH]; intros w; simpl.
  - done.
  - unfold bind. destruct (body x w) as [w' [[]|e]]; [apply IH | done].
Qed.

(** A loop whose rounds all leave the world alone leaves it alone. *)
Lemma for_each_idle {A} (l : list A) (body : A -> M unit) (w : World) :
  (forall x, In x l -> body x w = (w, Ok tt)) ->
  for_each l body w = (w, Ok tt).
Proof.
  induction l as [|x l IH]; intros Hidle; simpl; [done|].
  rewrite (run_bind _ _ w w tt) by (apply Hidle; by left).
  apply IH. intros y Hy. apply Hidle. by right.
Qed.

Section Directory.

Context {V : Type}.
Implicit Types (fs : list (string * V)) (n m : string).

Lemma mem_names_find n fs :
  Dir.mem n (Dir.names fs) = true <-> is_Some (Dir.find n fs).
Proof.
  induction fs as [|[k c] fs IH]; simpl.
  - split; [done | by intros [? ?]].
  - destruct (String.eqb n k); simpl; [|done]. split; [by eexists | done].
Qed.

Lemma mem_names_In n fs :
  Dir.mem n (Dir.names fs) = true <-> In n (Dir.names fs).
Proof.
  unfold Dir.mem. rewrite existsb_exists. split.
  - intros (k & Hin & Heq). by apply String.eqb_eq in Heq as ->.
  - intros Hin. exists n. by rewrite String.eqb_refl.
Qed.

Lemma find_remove_eq n fs : Dir.find n (Dir.remove n fs) = None.
Proof.
  induction fs as [|[k c] fs IH]; simpl; [done|].
  destruct (String.eqb n k) eqn:E; [done|]. simpl. by rewrite E.
Qed.

Lemma find_remove_ne n m fs : n <> m -> Dir.find n (Dir.remove m fs) = Dir.find n fs.
Proof.
  intros Hne. induction fs as [|[k c] fs IH]; simpl; [done|].
  destruct (String.eqb_spec m k) as [<-|Hmk]; simpl.
  - by rewrite (proj2 (String.eqb_neq n m)).
  - by rewrite IH.
Qed.

Lemma find_write_eq n c fs : Dir.find n (Dir.write n c fs) = Some c.
Proof.
  induction fs as [|[k c'] fs IH]; simpl.
  - by rewrite String.eqb_refl.
  - destruct (String.eqb n k) eqn:E; simpl; by rewrite E.
Qed.

Lemma find_write_ne n m c fs : n <> m -> Dir.find n (Dir.write m c fs) = Dir.find n fs.
Proof.
  intros Hne. induction fs as [|[k c'] fs IH]; simpl.
  - by rewrite (proj2 (String.eqb_neq n m)).
  - destruct (String.eqb_spec m k) as [<-|Hmk]; simpl.
    + by rewrite (proj2 (String.eqb_neq n m)).
    + by rewrite IH.
Qed.

End Directory.

Lemma delete_present (path : string) (w : World) :
  is_Some (Dir.find path (files w)) ->
  delete path w = (set_files (Dir.remove path (files w)) w, Ok tt).
Proof.
  intros Hin. unfold delete, os_remove.
  by rewrite (proj2 (mem_names_find path (files w)) Hin).
Qed.

Lemma delete_absent (path : string) (w : World) :
  Dir.find path (files w) = None ->
  delete path w = (w, Err (NoPath "No file in this path")).
Proof.
  intros Hout. unfold delete, os_remove.
  destruct (Dir.mem path (Dir.names (files w))) eqn:E; [|done].
  apply mem_names_find in E as [c Hc]. congruence.
Qed.

(** [delete] either removes the file or raises [NoPath]; afterwards the
    file is not there. *)
Lemma delete_twice (path : string) (w w' : World) :
  delete path w = (w', Ok tt) ->
  delete path w' = (w', Err (NoPath "No file in this path")).
Proof.
  intros Hdel. apply delete_absent.
  unfold delete, os_remove in Hdel.
  destruct (Dir.mem path (Dir.names (files w))); [|done].
  injection Hdel as <-. simpl. apply find_remove_eq.
Qed.

(* ------------------------------------------------------------------ *)
(** * The merge engine *)

Lemma check_extension_pass (l : list string) (w : World) :
  Forall (fun nc => endswith nc ".nc" = true) l ->
  for_each l check_extension w = (w, Ok tt).
Proof.
  intros Hall. apply for_each_idle. intros nc Hin.
  rewrite Forall_forall in Hall. unfold check_extension.
  rewrite Hall; [done|]. by apply list_elem_of_In.
Qed.

Lemma check_extension_fail (l : list string) (w : World) :
  Exists (fun nc => endswith nc ".nc" = false) l ->
  for_each l check_extension w = (w, Err (TypeError "Wrong file in directory")).
Proof.
  induction l as [|nc l IH]; intros Hex; [by inversion Hex|].
  simpl. unfold bind.
  destruct (endswith nc ".nc") eqn:E.
  - unfold check_extension at 1. rewrite E. simpl. apply IH.
    inversion Hex as [? ? Hnc|]; [congruence | done].
  - unfold check_extension at 1. by rewrite E.
Qed.

Lemma zone_of_tile_code (file code : string) :
  slice 20 26 file = code -> slice 21 23 file = substring 1 2 code.
Proof. intros <-. apply zone_of_tile. Qed.

Lemma coincident_zone (file1 file2 : string) :
  coincident file1 file2 -> slice 21 23 file1 = slice 21 23 file2.
Proof. intros (_ & Htile & _). by rewrite !zone_of_tile, Htile. Qed.

(** Names that are coincident and not of zone 31: the round does nothing. *)
Lemma pair_coincident (file1 file2 : string) (w : World) :
  ~ zone31 file1 -> coincident file1 file2 ->
  merge_Sentinel_pair file1 file2 w = (w, Ok tt).
Proof.
  intros Hz1 Hco. pose proof (coincident_zone _ _ Hco) as Hz.
  destruct Hco as (Hd & Ht & Hr).
  unfold merge_Sentinel_pair, zone31 in *.
  rewrite <- Hz, <- Hd, <- Ht, <- Hr, !String.eqb_refl.
  by rewrite (proj2 (String.eqb_neq _ _) Hz1).
Qed.

(** Names that are neither of zone 31 nor a west/east pair: nothing either. *)
Lemma pair_unrelated (file1 file2 : string) (w : World) :
  ~ zone31 file1 -> ~ zone31 file2 -> ~ adjacent file1 file2 ->
  merge_Sentinel_pair file1 file2 w = (w, Ok tt).
Proof.
  unfold merge_Sentinel_pair, zone31, adjacent. intros Hz1 Hz2 Hadj.
  rewrite (proj2 (String.eqb_neq _ _) Hz1), (proj2 (String.eqb_neq _ _) Hz2).
  eqb_cases; simpl; try done. by destruct Hadj.
Qed.

(** A west/east pair: both files are opened, joined, and deleted. *)
Lemma pair_adjacent (file1 file2 : string) (w : World) :
  adjacent file1 file2 ->
  merge_Sentinel_pair file1 file2 w =
    (let! fileLeft := open_dataset file1 in
     let! fileRight := open_dataset file2 in
     merge_coords fileLeft fileRight (merged_name file1) ;;
     delete file1 ;;
     delete file2) w.
Proof.
  intros (Hd & Ht1 & Ht2 & Hr).
  unfold merge_Sentinel_pair.
  rewrite (zone_of_tile_code _ _ Ht1), (zone_of_tile_code _ _ Ht2).
  rewrite Ht1, Ht2, Hd, Hr, !String.eqb_refl. reflexivity.
Qed.

(** C8. In a workspace whose only file carries the [.nc] extension,
    [merge_Sentinel] renames that file to [merged_cube.nc] and returns; the
    workspace then holds this one file, with the content unchanged, and
    nothing else. *)
Theorem merge_Sentinel_single_file (nameSentinel only : string) (c : Content) (w : World) :
  files w = [(only, c)] ->
  endswith only ".nc" = true ->
  merge_Sentinel nameSentinel w =
    (set_files [("merged_cube.nc"%string, c)] w, Ok tt).
Proof.
  intros Hfiles Hext. destruct w as [fs rs hs]. simpl in Hfiles. subst fs.
  set (w0 := {| files := [(only, c)]; rasters := rs; handles := hs |}).
  unfold merge_Sentinel.
  rewrite (run_bind listdir _ w0 w0 [only] eq_refl).
  rewrite (run_bind (for_each [only] _) _ w0 w0 tt
             (check_extension_pass [only] w0 ltac:(by repeat constructor))).
  change (length [only]) with 1%nat. cbv iota.
  rewrite (run_bind listdir _ w0 w0 [only] eq_refl).
  rewrite (run_bind (index [only] 0) _ w0 w0 only eq_refl).
  unfold os_rename, set_files. simpl. rewrite String.eqb_refl.
  by destruct (String.eqb_spec only "merged_cube.nc") as [->|Hne].
Qed.

Lemma merge_Sentinel_single_file_witness :
  merge_Sentinel "cube"
    {| files := [("datacube_2020-06-01_T32ULC_R100.nc"%string, Other)];
       rasters := []; handles := [] |} =
    ({| files := [("merged_cube.nc"%string, Other)]; rasters := []; handles := [] |}, Ok tt).
Proof.
  apply (merge_Sentinel_single_file "cube" "datacube_2020-06-01_T32ULC_R100.nc" Other
           {| files := [("datacube_2020-06-01_T32ULC_R100.nc"%string, Other)];
              rasters := []; handles := [] |});
    reflexivity.
Defined.

(** C10. [merge_Sentinel] raises [FileNotFoundError("Directory empty")] on
    an empty workspace, and [TypeError("Wrong file in directory")] on a
    workspace that lists a name without the [.nc] extension; in both cases
    the world it leaves is the world it was given. *)
Theorem merge_Sentinel_rejects (nameSentinel : string) (w : World) :
  (files w = [] ->
     merge_Sentinel nameSentinel w = (w, Err (FileNotFoundError "Directory empty"))) /\
  ((exists nc, In nc (Dir.names (files w)) /\ endswith nc ".nc" = false) ->
     merge_Sentinel nameSentinel w = (w, Err (TypeError "Wrong file in directory"))).
Proof.
  split.
  - intros Hempty. unfold merge_Sentinel.
    rewrite (run_bind listdir _ w w (Dir.names (files w)) eq_refl).
    rewrite Hempty. reflexivity.
  - intros (nc & Hin & Hext). unfold merge_Sentinel.
    rewrite (run_bind listdir _ w w (Dir.names (files w)) eq_refl).
    apply run_bind_err, check_extension_fail, Exists_exists.
    exists nc. split; [by apply list_elem_of_In | done].
Qed.

Lemma merge_Sentinel_rejects_witness :
  merge_Sentinel "cube" {| files := []; rasters := []; handles := [] |} =
    ({| files := []; rasters := []; handles := [] |},
     Err (FileNotFoundError "Directory empty")) /\
  merge_Sentinel "cube"
    {| files := [("datacube_2020-06-01_T32ULC_R100.nc"%string, Other);
                 ("notes.txt"%string, Other)];
       rasters := []; handles := [] |} =
    ({| files := [("datacube_2020-06-01_T32ULC_R100.nc"%string, Other);
                  ("notes.txt"%string, Other)];
        rasters := []; handles := [] |},
     Err (TypeError "Wrong file in directory")).
Proof.
  split.
  - apply (merge_Sentinel_rejects "cube" {| files := []; rasters := []; handles := [] |}).
    reflexivity.
  - apply (merge_Sentinel_rejects "cube"
             {| files := [("datacube_2020-06-01_T32ULC_R100.nc"%string, Other);
                          ("notes.txt"%string, Other)];
                rasters := []; handles := [] |}).
    exists "notes.txt"%string. split; [right; left; reflexivity | reflexivity].
Defined.

Lemma for_each_two {A} (a b : A) (body : A -> M unit) (w w1 w2 : World) :
  body a w = (w1, Ok tt) ->
  body b w1 = (w2, Ok tt) ->
  for_each [a; b] body w = (w2, Ok tt).
Proof.
  intros Ha Hb. simpl.
  rewrite (run_bind (body a) _ w w1 tt Ha).
  by rewrite (run_bind (body b) _ w1 w2 tt Hb).
Qed.

Lemma adjacent_not_zone31 (file1 file2 : string) :
  adjacent file1 file2 -> ~ zone31 file1 /\ ~ zone31 file2.
Proof.
  intros (_ & Ht1 & Ht2 & _). unfold zone31.
  rewrite (zone_of_tile_code _ _ Ht1), (zone_of_tile_code _ _ Ht2). done.
Qed.

Lemma adjacent_names (file1 file2 suffix : string) :
  adjacent file1 file2 ->
  file1 <> file2 /\
  (merged_name file1 ++ suffix)%string <> file1 /\
  (merged_name file1 ++ suffix)%string <> file2.
Proof.
  intros (_ & Ht1 & Ht2 & _).
  assert (slice 20 26 (merged_name file1 ++ suffix) = "Merged"%string) as Hm.
  { apply merged_name_tile.
    assert (20 < String.length file1)%nat; [|lia].
    apply (slice_nonempty_length 20 26). by rewrite Ht1. }
  repeat split; intros Heq.
  - rewrite Heq in Ht1. congruence.
  - rewrite Heq in Hm. congruence.
  - rewrite Heq in Hm. congruence.
Qed.

Lemma coincident_refl (file : string) : coincident file file.
Proof. by repeat split. Qed.

Lemma adjacent_not_reversed (file1 file2 : string) :
  adjacent file1 file2 -> ~ adjacent file2 file1.
Proof. intros (_ & _ & Ht2 & _) (_ & Ht2' & _). congruence. Qed.

Section WestEast.

Variables (file1 file2 : string) (ds_left ds_right : Dataset) (l0 l1 r0 r1 : Z).
Hypothesis names_adjacent : adjacent file1 file2.
Hypothesis same_time : ds_time ds_left = ds_time ds_right.
Hypothesis same_lat : ds_lat ds_left = ds_lat ds_right.
Hypothesis left_sorted : Xr.is_monotonic_increasing (ds_lon ds_left) = true.
Hypothesis right_sorted : Xr.is_monotonic_increasing (ds_lon ds_right) = true.
Hypothesis left_range : lon_range ds_left = Some (l0, l1).
Hypothesis right_range : lon_range ds_right = Some (r0, r1).
Hypothesis west_east : l0 < r0.

Let joined : Dataset := trimmed_join ds_left ds_right l0 r0.
Let merged : string := (merged_name file1 ++ ".nc")%string.

(** The round for the west/east pair, in a world that holds both files *)
Lemma pair_adjacent_run (w : World) :
  Dir.find file1 (files w) = Some (NetCDF ds_left) ->
  Dir.find file2 (files w) = Some (NetCDF ds_right) ->
  merge_Sentinel_pair file1 file2 w =
    (set_files (Dir.remove file2 (Dir.remove file1
                  (Dir.write merged (NetCDF joined) (files w)))) w, Ok tt).
Proof.
  intros H1 H2.
  destruct (adjacent_names _ _ ".nc" names_adjacent) as (Hne & Hm1 & Hm2).
  fold merged in Hm1, Hm2.
  rewrite pair_adjacent by done.
  rewrite (run_bind (open_dataset file1) _ w w ds_left)
    by (unfold open_dataset; by rewrite H1).
  rewrite (run_bind (open_dataset file2) _ w w ds_right)
    by (unfold open_dataset; by rewrite H2).
  set (w1 := set_files (Dir.write merged (NetCDF joined) (files w)) w).
  rewrite (run_bind (merge_coords ds_left ds_right (merged_name file1)) _ w w1 tt)
    by (by rewrite (merge_coords_west_east _ _ l0 l1 r0 r1)).
  set (w2 := set_files (Dir.remove file1 (files w1)) w1).
  rewrite (run_bind (delete file1) _ w1 w2 tt).
  2: { apply delete_present. simpl. rewrite find_write_ne by done. by rewrite H1. }
  rewrite delete_present.
  - reflexivity.
  - simpl. rewrite find_remove_ne, find_write_ne by done. by rewrite H2.
Qed.

(** The tail of [merge_Sentinel] when the join is the only file left *)
Lemma concat_joined (nameSentinel : string) (w : World) :
  (nameSentinel ++ ".nc")%string <> merged ->
  files w = [(merged, NetCDF joined)] ->
  merge_Sentinel_concat nameSentinel w =
    (set_files [((nameSentinel ++ ".nc")%string, NetCDF joined)] w, Ok tt).
Proof.
  intros Hout Hfiles. destruct w as [fs rs hs]. simpl in Hfiles. subst fs.
  set (out := (nameSentinel ++ ".nc")%string) in *.
  set (w0 := {| files := [(merged, NetCDF joined)]; rasters := rs; handles := hs |}).
  set (w1 := {| files := [(merged, NetCDF joined); (out, NetCDF joined)];
                rasters := rs; handles := hs |}).
  assert (open_all [merged] w0 = (w0, Ok [joined])) as Hopen.
  { unfold open_all, bind, open_dataset, ret. simpl. by rewrite String.eqb_refl. }
  unfold merge_Sentinel_concat.
  rewrite (run_bind listdir _ w0 w0 [merged] eq_refl).
  rewrite (run_bind (open_all [merged]) _ w0 w0 [joined] Hopen).
  rewrite (run_bind (open_mfdataset [merged]) _ w0 w0 joined)
    by (unfold open_mfdataset; by rewrite (run_bind (open_all [merged]) _ w0 w0 [joined] Hopen)).
  rewrite (run_bind (to_netcdf joined out) _ w0 w1 tt).
  2: { unfold to_netcdf, set_files. simpl.
       by rewrite (proj2 (String.eqb_neq _ _) Hout). }
  cbn [for_each].
  rewrite (run_bind (delete merged) _ w1 (set_files (Dir.remove merged (files w1)) w1) tt).
  2: { apply delete_present. simpl. rewrite String.eqb_refl. by eexists. }
  unfold ret, set_files. simpl. rewrite String.eqb_refl.
  by rewrite (proj2 (String.eqb_neq _ _) (not_eq_sym Hout)).
Qed.

End WestEast.

(** C1. A workspace holds exactly two dataset files, in either listing
    order, whose names share date and resolution and carry the tile codes
    [T32ULC] and [T32UMC]; the datasets share time and latitude, their
    longitude axes are increasing, and the left one starts west of the right
    one and does not reach further east.  Then the pair loops of
    [merge_Sentinel] leave exactly one file, named by [merged_name]: the
    left dataset cut to the labels from its first longitude to the first
    longitude of the right dataset, followed by the whole right dataset.
    Its longitude range is the union of the two input ranges, and both
    input files are gone.  [merge_Sentinel] as a whole then ends with this
    join as the only file, saved under the output name. *)
Theorem merge_Sentinel_west_east
    (nameSentinel file1 file2 : string) (ds_left ds_right : Dataset)
    (l0 l1 r0 r1 : Z) (w : World) :
  adjacent file1 file2 ->
  endswith file1 ".nc" = true ->
  endswith file2 ".nc" = true ->
  files w = [(file1, NetCDF ds_left); (file2, NetCDF ds_right)] \/
  files w = [(file2, NetCDF ds_right); (file1, NetCDF ds_left)] ->
  ds_time ds_left = ds_time ds_right ->
  ds_lat ds_left = ds_lat ds_right ->
  Xr.is_monotonic_increasing (ds_lon ds_left) = true ->
  Xr.is_monotonic_increasing (ds_lon ds_right) = true ->
  lon_range ds_left = Some (l0, l1) ->
  lon_range ds_right = Some (r0, r1) ->
  l0 < r0 ->
  l1 <= r1 ->
  let joined := trimmed_join ds_left ds_right l0 r0 in
  let merged := (merged_name file1 ++ ".nc")%string in
  lon_range joined = Some (range_union (l0, l1) (r0, r1)) /\
  merge_Sentinel_pairs (Dir.names (files w)) w =
    (set_files [(merged, NetCDF joined)] w, Ok tt) /\
  ((nameSentinel ++ ".nc")%string <> merged ->
   merge_Sentinel nameSentinel w =
     (set_files [((nameSentinel ++ ".nc")%string, NetCDF joined)] w, Ok tt)).
Proof.
  intros Hadj Hext1 Hext2 Hfiles Htime Hlat Hml Hmr Hrl Hrr Hwe Hlast joined merged.
  destruct (adjacent_names _ _ ".nc" Hadj) as (Hne & Hm1 & Hm2).
  destruct (adjacent_not_zone31 _ _ Hadj) as [Hz1 Hz2].
  fold merged in Hm1, Hm2.
  set (w1 := set_files [(merged, NetCDF joined)] w).
  assert (forall v, merge_Sentinel_pair file1 file1 v = (v, Ok tt)) as P11
    by (intros v; apply pair_coincident; [done | apply coincident_refl]).
  assert (forall v, merge_Sentinel_pair file2 file2 v = (v, Ok tt)) as P22
    by (intros v; apply pair_coincident; [done | apply coincident_refl]).
  assert (forall v, merge_Sentinel_pair file2 file1 v = (v, Ok tt)) as P21
    by (intros v; apply pair_unrelated; [done | done | by apply adjacent_not_reversed]).
  assert (merge_Sentinel_pair file1 file2 w = (w1, Ok tt)) as P12.
  { rewrite (pair_adjacent_run file1 file2 ds_left ds_right l0 l1 r0 r1); try done.
    - unfold w1, set_files. do 2 f_equal. fold merged joined.
      destruct Hfiles as [-> | ->]; eqb_solve.
    - destruct Hfiles as [-> | ->]; eqb_solve.
    - destruct Hfiles as [-> | ->]; eqb_solve. }
  assert (merge_Sentinel_pairs (Dir.names (files w)) w = (w1, Ok tt)) as Hpairs.
  { unfold merge_Sentinel_pairs.
    destruct Hfiles as [Hfiles | Hfiles]; rewrite Hfiles; simpl Dir.names.
    - apply (for_each_two _ _ _ w w1 w1).
      + by apply (for_each_two _ _ _ w w w1).
      + by apply (for_each_two _ _ _ w1 w1 w1).
    - apply (for_each_two _ _ _ w w w1).
      + by apply (for_each_two _ _ _ w w w).
      + by apply (for_each_two _ _ _ w w1 w1). }
  split; [|split; [exact Hpairs|]].
  - unfold joined. rewrite (trimmed_join_range _ _ l0 l1 r0 r1) by done.
    unfold range_union. simpl. do 2 f_equal; lia.
  - intros Hout. unfold merge_Sentinel.
    rewrite (run_bind listdir _ w w (Dir.names (files w)) eq_refl).
    rewrite (run_bind (for_each (Dir.names (files w)) _) _ w w tt).
    2: { apply check_extension_pass.
         destruct Hfiles as [-> | ->]; by repeat constructor. }
    replace (length (Dir.names (files w))) with 2%nat
      by (destruct Hfiles as [-> | ->]; reflexivity).
    cbv iota.
    rewrite (run_bind (merge_Sentinel_pairs _) _ w w1 tt Hpairs).
    rewrite (concat_joined file1 ds_left ds_right l0 r0 nameSentinel w1) by done.
    reflexivity.
Qed.

Lemma merge_Sentinel_west_east_witness :
  merge_Sentinel "cube"
    {| files := [("datacube_2020-06-01_T32ULC_R100.nc"%string,
                  NetCDF {| ds_time := ["2020-06-01"%string];
                            ds_lat := [200; 100; 0]; ds_lon := [0; 100; 200; 300] |});
                 ("datacube_2020-06-01_T32UMC_R100.nc"%string,
                  NetCDF {| ds_time := ["2020-06-01"%string];
                            ds_lat := [200; 100; 0]; ds_lon := [250; 350; 450; 550] |})];
       rasters := []; handles := [] |} =
    ({| files := [("cube.nc"%string,
                   NetCDF {| ds_time := ["2020-06-01"%string];
                             ds_lat := [200; 100; 0];
                             ds_lon := [0; 100; 200; 250; 350; 450; 550] |})];
        rasters := []; handles := [] |}, Ok tt).
Proof.
  refine (proj2 (proj2 (merge_Sentinel_west_east "cube"
    "datacube_2020-06-01_T32ULC_R100.nc" "datacube_2020-06-01_T32UMC_R100.nc"
    {| ds_time := ["2020-06-01"%string]; ds_lat := [200; 100; 0]; ds_lon := [0; 100; 200; 300] |}
    {| ds_time := ["2020-06-01"%string]; ds_lat := [200; 100; 0]; ds_lon := [250; 350; 450; 550] |}
    0 300 250 550
    {| files := [("datacube_2020-06-01_T32ULC_R100.nc"%string,
                  NetCDF {| ds_time := ["2020-06-01"%string];
                            ds_lat := [200; 100; 0]; ds_lon := [0; 100; 200; 300] |});
                 ("datacube_2020-06-01_T32UMC_R100.nc"%string,
                  NetCDF {| ds_time := ["2020-06-01"%string];
                            ds_lat := [200; 100; 0]; ds_lon := [250; 350; 450; 550] |})];
       rasters := []; handles := [] |}
    _ _ _ _ _ _ _ _ _ _ _ _)) _).
  - repeat split; reflexivity.
  - reflexivity.
  - reflexivity.
  - left. reflexivity.
  - reflexivity.
  - reflexivity.
  - reflexivity.
  - reflexivity.
  - reflexivity.
  - reflexivity.
  - lia.
  - lia.
  - vm_compute. discriminate.
Defined.







(* ------------------------------------------------------------------ *)
(** * Files of zone 31 *)

(** Every round with a zone 31 name as [file1] deletes that file. *)
Lemma pair_zone31 (file1 file2 : string) (w : World) :
  zone31 file1 -> merge_Sentinel_pair file1 file2 w = delete file1 w.
Proof.
  unfold zone31, merge_Sentinel_pair. intros ->. reflexivity.
Qed.

Lemma delete_result (path : string) (w : World) :
  (exists w', delete path w = (w', Ok tt)) \/
  delete path w = (w, Err (NoPath "No file in this path")).
Proof.
  unfold delete, os_remove.
  destruct (Dir.mem path (Dir.names (files w))); [left; by eexists | by right].
Qed.

(** The inner loop over two or more names, for a zone 31 [file1]: the
    second round at the latest deletes a file that is gone. *)
Lemma inner_loop_zone31 (file1 : string) (files : list string) (w : World) :
  zone31 file1 ->
  (2 <= length files)%nat ->
  exists w', for_each files (merge_Sentinel_pair file1) w
             = (w', Err (NoPath "No file in this path")).
Proof.
  intros Hz Hlen.
  destruct files as [|g1 [|g2 rest]]; simpl in Hlen; try lia.
  cbn [for_each].
  destruct (delete_result file1 w) as [[w1 Hdel] | Hdel].
  - exists w1.
    rewrite (run_bind (merge_Sentinel_pair file1 g1) _ w w1 tt)
      by (by rewrite pair_zone31).
    apply run_bind_err. rewrite pair_zone31 by done. by apply (delete_twice _ w).
  - exists w. apply run_bind_err. by rewrite pair_zone31.
Qed.

Lemma outer_loop_zone31 (file : string) (outer inner : list string) (w : World) :
  In file outer ->
  zone31 file ->
  (2 <= length inner)%nat ->
  exists w' e,
    for_each outer (fun file1 => for_each inner (merge_Sentinel_pair file1)) w = (w', Err e).
Proof.
  intros Hin Hz Hlen. revert w.
  induction outer as [|x outer IH]; intros w; [done|].
  cbn [for_each].
  destruct (for_each inner (merge_Sentinel_pair x) w) as [wa [[]|e]] eqn:Hx.
  - rewrite (run_bind _ _ w wa tt Hx).
    destruct Hin as [-> | Hin]; [|by apply IH].
    destruct (inner_loop_zone31 file inner w Hz Hlen) as [wb Hb]. congruence.
  - exists wa, e. by apply run_bind_err.
Qed.

(** X11. With two or more files listed, one of them of zone 31,
    [merge_Sentinel] never runs to its end: it raises, at the latest when
    the inner loop deletes the zone 31 file a second time. *)
Lemma merge_Sentinel_zone31_raises (nameSentinel file : string) (w : World) :
  (2 <= length (files w))%nat ->
  In file (Dir.names (files w)) ->
  zone31 file ->
  exists w' e, merge_Sentinel nameSentinel w = (w', Err e).
Proof.
  intros Hlen Hin Hz. unfold merge_Sentinel.
  rewrite (run_bind listdir _ w w (Dir.names (files w)) eq_refl).
  assert (2 <= length (Dir.names (files w)))%nat as Hlen'
    by (unfold Dir.names; by rewrite length_map).
  match goal with
  | |- context [bind (for_each _ ?body) _ w] =>
      destruct (for_each (Dir.names (files w)) body w) as [wc [[]|e]] eqn:Hcheck
  end.
  2: { exists wc, e. by apply run_bind_err. }
  rewrite (run_bind _ _ w wc tt Hcheck).
  destruct (length (Dir.names (files w))) as [|[|n]] eqn:Hn; try lia.
  destruct (outer_loop_zone31 file (Dir.names (files w)) (Dir.names (files w)) wc Hin Hz)
    as (w' & e & Hpairs); [lia|].
  exists w', e. by apply run_bind_err.
Qed.

(** C6. A workspace with a zone 31 file and a zone 32 file:
    [merge_Sentinel] deletes the zone 31 file in the first round, deletes
    it a second time in the next round, and stops there with [NoPath]; the
    output is never written. *)
Theorem merge_Sentinel_zone31_deleted_twice :
  let stale := "datacube_2020-06-01_T31UGT_R100.nc"%string in
  let tile := "datacube_2020-06-01_T32ULC_R100.nc"%string in
  let d := {| ds_time := ["2020-06-01"%string]; ds_lat := [200; 100; 0]; ds_lon := [0; 100] |} in
  let w := {| files := [(stale, NetCDF d); (tile, NetCDF d)]; rasters := []; handles := [] |} in
  let w1 := {| files := [(tile, NetCDF d)]; rasters := []; handles := [] |} in
  merge_Sentinel_pair stale stale w = (w1, Ok tt) /\
  merge_Sentinel_pair stale tile w1 = (w1, Err (NoPath "No file in this path")) /\
  merge_Sentinel "cube" w = (w1, Err (NoPath "No file in this path")) /\
  merge_Sentinel "cube"
    {| files := [(tile, NetCDF d); (stale, NetCDF d)]; rasters := []; handles := [] |}
    = (w1, Err (NoPath "No file in this path")).
Proof.
  repeat split; reflexivity.
Qed.

(* ------------------------------------------------------------------ *)
(** * Which names the pair loops compare *)

Lemma for_each_map {A B} (f : A -> B) (l : list A) (body : B -> M unit) (w : World) :
  for_each (map f l) body w = for_each l (fun x => body (f x)) w.
Proof.
  revert w. induction l as [|x l IH]; intros w; simpl; [done|].
  unfold bind. destruct (body (f x) w) as [w' [[]|e]]; [apply IH | done].
Qed.

Lemma merge_Sentinel_pairs_rounds (outer inner : list string) (w : World) :
  for_each outer (fun file1 => for_each inner (merge_Sentinel_pair file1)) w =
  for_each (list_prod outer inner) round w.
Proof.
  revert w. induction outer as [|x outer IH]; intros w; [done|].
  cbn [for_each list_prod]. rewrite for_each_app.
  unfold bind. rewrite for_each_map.
  change (fun y => round (x, y)) with (merge_Sentinel_pair x).
  destruct (for_each inner (merge_Sentinel_pair x) w) as [w' [[]|e]]; [apply IH | done].
Qed.

(** C7, as the code has it.  The pair loops run over one listing: the
    rounds are the pairs of the list they are given, whatever the rounds do
    to the directory, and [merge_Sentinel] gives them the listing it took on
    entry.  The directory is listed again only after the loops, by the tail
    of the function. *)
Theorem merge_Sentinel_pairs_snapshot (nameSentinel : string) (w : World) :
  (forall files v, merge_Sentinel_pairs files v = for_each (rounds files) round v) /\
  (Forall (fun nc => endswith nc ".nc" = true) (Dir.names (files w)) ->
   (2 <= length (Dir.names (files w)))%nat ->
   merge_Sentinel nameSentinel w =
     (for_each (rounds (Dir.names (files w))) round ;;
      merge_Sentinel_concat nameSentinel) w).
Proof.
  split.
  - intros files v. apply merge_Sentinel_pairs_rounds.
  - intros Hext Hlen. unfold merge_Sentinel.
    rewrite (run_bind listdir _ w w (Dir.names (files w)) eq_refl).
    rewrite (run_bind (for_each (Dir.names (files w)) _) _ w w tt
               (check_extension_pass _ w Hext)).
    destruct (length (Dir.names (files w))) as [|[|n]]; try lia.
    unfold bind, merge_Sentinel_pairs. by rewrite merge_Sentinel_pairs_rounds.
Qed.

Lemma merge_Sentinel_pairs_snapshot_witness :
  let w := {| files := [("datacube_2020-06-01_T32ULC_R100.nc"%string, Other);
                        ("datacube_2020-06-02_T32ULC_R100.nc"%string, Other)];
              rasters := []; handles := [] |} in
  merge_Sentinel "cube" w =
    (for_each (rounds ["datacube_2020-06-01_T32ULC_R100.nc"%string;
                       "datacube_2020-06-02_T32ULC_R100.nc"%string]) round ;;
     merge_Sentinel_concat "cube") w.
Proof.
  intros w.
  refine (proj2 (merge_Sentinel_pairs_snapshot "cube" w) _ _).
  - repeat constructor.
  - simpl. lia.
Defined.

(** C7 as stated fails: after the round that joins the west/east pair the
    directory holds the join only, and the next round compares the two
    names that were deleted. *)
Lemma pair_loops_compare_deleted_names :
  let file1 := "datacube_2020-06-01_T32ULC_R100.nc"%string in
  let file2 := "datacube_2020-06-01_T32UMC_R100.nc"%string in
  let w := {| files :=
                [(file1, NetCDF {| ds_time := ["2020-06-01"%string];
                                   ds_lat := [200; 100; 0]; ds_lon := [0; 100; 200; 300] |});
                 (file2, NetCDF {| ds_time := ["2020-06-01"%string];
                                   ds_lat := [200; 100; 0]; ds_lon := [250; 350; 450; 550] |})];
              rasters := []; handles := [] |} in
  ~ compares_current_listing (Dir.names (files w)) w.
Proof.
  intros file1 file2 w Hclaim.
  destruct (Hclaim 2%nat (file2, file1)
              {| files := [("datacube_2020-06-01_Merged_R100.nc"%string,
                            NetCDF {| ds_time := ["2020-06-01"%string];
                                      ds_lat := [200; 100; 0];
                                      ds_lon := [0; 100; 200; 250; 350; 450; 550] |})];
                 rasters := []; handles := [] |}
              eq_refl eq_refl) as [Hin _].
  simpl in Hin. destruct Hin as [Heq | []]. discriminate.
Qed.

(* ------------------------------------------------------------------ *)
(** * Names shorter than the offsets *)

Lemma length_append (s1 s2 : string) :
  String.length (s1 ++ s2) = (String.length s1 + String.length s2)%nat.
Proof. induction s1 as [|c s1 IH]; simpl; [done | by rewrite IH]. Qed.

Lemma length_slice (a b : nat) (s : string) :
  (a <= b)%nat ->
  String.length (slice a b s) = (Nat.min b (String.length s) - Nat.min a (String.length s))%nat.
Proof. intros Hab. unfold slice. rewrite length_substring. lia. Qed.




(* ------------------------------------------------------------------ *)
(** * The file naming contract *)

Section Substrings.

Lemma append_assoc (a b c : string) : ((a ++ b) ++ c)%string = (a ++ b ++ c)%string.
Proof. induction a as [|x a IH]; simpl; [done | by rewrite IH]. Qed.

Lemma substring_0_app (a b : string) :
  substring 0 (String.length a) (a ++ b) = a.
Proof.
  induction a as [|x a IH]; simpl.
  - by destruct b.
  - by rewrite IH.
Qed.

Lemma substring_app_r (a b : string) (n m : nat) :
  substring (String.length a + n) m (a ++ b) = substring n m b.
Proof. induction a as [|x a IH]; simpl; [done | apply IH]. Qed.

Lemma substring_0_take (m k : nat) (s : string) :
  (m <= k)%nat -> substring 0 m (substring 0 k s) = substring 0 m s.
Proof.
  revert k s. induction m as [|m IH]; intros k s Hmk.
  - by destruct (substring 0 k s), s.
  - destruct k as [|k]; [lia|]. destruct s as [|c s]; [done|].
    simpl. rewrite IH by lia. done.
Qed.

Lemma substring_take (n m k : nat) (s : string) :
  (n + m <= k)%nat -> substring n m (substring 0 k s) = substring n m s.
Proof.
  revert k s. induction n as [|n IH]; intros k s Hk.
  - by apply substring_0_take.
  - destruct k as [|k]; [lia|]. destruct s as [|c s]; [done|].
    simpl. apply IH. lia.
Qed.

Lemma substring_substring (j k n m : nat) (s : string) :
  (n + m <= k)%nat -> substring n m (substring j k s) = substring (j + n) m s.
Proof.
  revert s. induction j as [|j IH]; intros s Hk.
  - by apply substring_take.
  - destruct s as [|c s]; simpl.
    + by destruct n, m.
    + by apply IH.
Qed.

Lemma substring_app_l (a b : string) (n m : nat) :
  (n + m <= String.length a)%nat -> substring n m (a ++ b) = substring n m a.
Proof.
  intros Hlen.
  rewrite <- (substring_take n m (String.length a) (a ++ b)) by done.
  by rewrite substring_0_app.
Qed.

Lemma substring_0_all (s : string) : substring 0 (String.length s) s = s.
Proof. induction s as [|c s IH]; simpl; [done | by rewrite IH]. Qed.

Lemma endswith_app (s suffix : string) : endswith (s ++ suffix) suffix = true.
Proof.
  unfold endswith. rewrite length_append.
  apply andb_true_iff. split; [apply Nat.leb_le; lia|].
  replace (String.length s + String.length suffix - String.length suffix)%nat
    with (String.length s + 0)%nat by lia.
  rewrite substring_app_r, substring_0_all. apply String.eqb_refl.
Qed.

End Substrings.

(** The slices [merge_Sentinel] takes of a name built by [loadBand] *)
Lemma loadBand_name_slices (date tile : string) (resolution : Z) :
  String.length date = 10%nat ->
  String.length tile = 6%nat ->
  slice 9 19 (loadBand_name date tile resolution) = date /\
  slice 20 26 (loadBand_name date tile resolution) = tile /\
  slice 27 31 (loadBand_name date tile resolution) =
    substring 0 4 ("R" ++ str resolution ++ ".nc").
Proof.
  intros Hd Ht. unfold loadBand_name, slice. simpl Nat.sub.
  repeat split.
  - change (substring 9 10) with (substring (String.length "datacube_" + 0) 10).
    rewrite substring_app_r, <- Hd. apply substring_0_app.
  - change (substring 20 6) with (substring (String.length "datacube_" + 11) 6).
    rewrite substring_app_r.
    replace (substring 11 6) with (substring (String.length date + 1) 6)
      by (by rewrite Hd).
    rewrite substring_app_r. simpl. rewrite <- Ht. apply substring_0_app.
  - change (substring 27 4) with (substring (String.length "datacube_" + 18) 4).
    rewrite substring_app_r.
    replace (substring 18 4) with (substring (String.length date + 8) 4)
      by (by rewrite Hd).
    rewrite substring_app_r. simpl.
    replace (substring 7 4) with (substring (String.length tile + 1) 4)
      by (by rewrite Ht).
    rewrite substring_app_r. reflexivity.
Qed.

Lemma getDate_length (filename : string) :
  (19 <= String.length filename)%nat -> String.length (getDate filename) = 10%nat.
Proof.
  intros Hlen. unfold getDate. rewrite !length_append, !length_slice by lia.
  change (String.length "-") with 1%nat. lia.
Qed.

Lemma getTile_length (filename : string) :
  (44 <= String.length filename)%nat -> String.length (getTile filename) = 6%nat.
Proof. intros Hlen. unfold getTile. rewrite length_slice by lia. lia. Qed.

(** X1. For every product name of at least 44 characters, the file name
    that [loadBand] builds from [getDate] and [getTile] gives both back at
    the offsets [merge_Sentinel] slices: characters 9 to 19 are the date and
    characters 20 to 26 the tile code. *)
Theorem loadBand_name_parses_back (filename : string) (resolution : Z) :
  (44 <= String.length filename)%nat ->
  slice 9 19 (loadBand_name (getDate filename) (getTile filename) resolution)
    = getDate filename /\
  slice 20 26 (loadBand_name (getDate filename) (getTile filename) resolution)
    = getTile filename.
Proof.
  intros Hlen.
  destruct (loadBand_name_slices (getDate filename) (getTile filename) resolution)
    as (Hd & Ht & _).
  - apply getDate_length. lia.
  - by apply getTile_length.
  - by split.
Qed.

Lemma loadBand_name_parses_back_witness :
  slice 9 19 (loadBand_name
                (getDate "S2A_MSIL2A_20200601T103031_N0214_R108_T32ULC_20200601T134211.SAFE")
                (getTile "S2A_MSIL2A_20200601T103031_N0214_R108_T32ULC_20200601T134211.SAFE")
                100) = "2020-06-01"%string /\
  slice 20 26 (loadBand_name
                 (getDate "S2A_MSIL2A_20200601T103031_N0214_R108_T32ULC_20200601T134211.SAFE")
                 (getTile "S2A_MSIL2A_20200601T103031_N0214_R108_T32ULC_20200601T134211.SAFE")
                 100) = "T32ULC"%string.
Proof.
  apply (loadBand_name_parses_back
           "S2A_MSIL2A_20200601T103031_N0214_R108_T32ULC_20200601T134211.SAFE" 100).
  simpl. lia.
Defined.

Lemma resolution_token (resolution : Z) :
  supported resolution ->
  substring 0 4 ("R" ++ str resolution ++ ".nc") =
    if resolution =? 10 then "R10."%string else if resolution =? 20 then "R20."%string
    else if resolution =? 60 then "R60."%string else "R100"%string.
Proof. intros [-> | [-> | [-> | ->]]]; reflexivity. Qed.

(** X2. Two names that [loadBand] builds for product names of at least 44
    characters and supported resolutions are coincident for
    [merge_Sentinel] (same date, tile and resolution slices) only when they
    are the same name: the resolution tokens ["R10."], ["R20."], ["R60."]
    and ["R100"] tell the resolutions apart. *)
Theorem loadBand_names_coincident_equal (filename1 filename2 : string) (r1 r2 : Z) :
  (44 <= String.length filename1)%nat ->
  (44 <= String.length filename2)%nat ->
  supported r1 ->
  supported r2 ->
  coincident (loadBand_name (getDate filename1) (getTile filename1) r1)
             (loadBand_name (getDate filename2) (getTile filename2) r2) ->
  r1 = r2 /\
  loadBand_name (getDate filename1) (getTile filename1) r1 =
  loadBand_name (getDate filename2) (getTile filename2) r2.
Proof.
  intros Hl1 Hl2 Hs1 Hs2 (Hd & Ht & Hr).
  destruct (loadBand_name_slices (getDate filename1) (getTile filename1) r1)
    as (Hd1 & Ht1 & Hr1); [apply getDate_length; lia | by apply getTile_length |].
  destruct (loadBand_name_slices (getDate filename2) (getTile filename2) r2)
    as (Hd2 & Ht2 & Hr2); [apply getDate_length; lia | by apply getTile_length |].
  rewrite Hd1, Hd2 in Hd. rewrite Ht1, Ht2 in Ht. rewrite Hr1, Hr2 in Hr.
  rewrite !resolution_token in Hr by done.
  assert (r1 = r2) as ->.
  { destruct Hs1 as [-> | [-> | [-> | ->]]], Hs2 as [-> | [-> | [-> | ->]]];
      simpl in Hr; first [reflexivity | discriminate]. }
  split; [done|]. by rewrite Hd, Ht.
Qed.

Lemma loadBand_names_coincident_equal_witness :
  100 = 100 /\
  loadBand_name
    (getDate "S2A_MSIL2A_20200601T103031_N0214_R108_T32ULC_20200601T134211.SAFE")
    (getTile "S2A_MSIL2A_20200601T103031_N0214_R108_T32ULC_20200601T134211.SAFE") 100 =
  loadBand_name
    (getDate "S2B_MSIL2A_20200601T103031_N0214_R108_T32ULC_20200601T150000.SAFE")
    (getTile "S2B_MSIL2A_20200601T103031_N0214_R108_T32ULC_20200601T150000.SAFE") 100.
Proof.
  apply (loadBand_names_coincident_equal
           "S2A_MSIL2A_20200601T103031_N0214_R108_T32ULC_20200601T134211.SAFE"
           "S2B_MSIL2A_20200601T103031_N0214_R108_T32ULC_20200601T150000.SAFE" 100 100).
  - simpl. lia.
  - simpl. lia.
  - do 3 right. reflexivity.
  - do 3 right. reflexivity.
  - repeat split; reflexivity.
Defined.

(** X3. The zone digits that [unzip] tests on a product name (characters
    39 to 41) are the zone digits that [merge_Sentinel] tests on the
    datacube name built from it (characters 21 to 23): a product of zone 32
    never yields a datacube file that the merge engine deletes as zone 31. *)
Theorem loadBand_name_zone (filename : string) (resolution : Z) :
  (41 <= String.length filename)%nat ->
  slice 21 23 (loadBand_name (getDate filename) (getTile filename) resolution)
    = slice 39 41 filename /\
  (slice 39 41 filename = "32"%string ->
   ~ zone31 (loadBand_name (getDate filename) (getTile filename) resolution)).
Proof.
  intros Hlen.
  assert (slice 21 23 (loadBand_name (getDate filename) (getTile filename) resolution)
          = slice 39 41 filename) as Hzone.
  { pose proof (getDate_length filename ltac:(lia)) as Hd.
    assert (3 <= String.length (getTile filename))%nat as Ht
      by (unfold getTile; rewrite length_slice by lia; lia).
    unfold loadBand_name, slice. simpl Nat.sub.
    change (substring 21 2) with (substring (String.length "datacube_" + 12) 2).
    rewrite substring_app_r.
    replace (substring 12 2) with (substring (String.length (getDate filename) + 2) 2)
      by (by rewrite Hd).
    rewrite substring_app_r. simpl.
    rewrite substring_app_l by lia.
    unfold getTile, slice. simpl Nat.sub.
    by rewrite substring_substring by lia. }
  split; [done|]. unfold zone31. rewrite Hzone. by intros ->.
Qed.

Lemma loadBand_name_zone_witness :
  ~ zone31 (loadBand_name
              (getDate "S2A_MSIL2A_20200601T103031_N0214_R108_T32ULC_20200601T134211.SAFE")
              (getTile "S2A_MSIL2A_20200601T103031_N0214_R108_T32ULC_20200601T134211.SAFE")
              100).
Proof.
  refine (proj2 (loadBand_name_zone
            "S2A_MSIL2A_20200601T103031_N0214_R108_T32ULC_20200601T134211.SAFE" 100 _) _).
  - simpl. lia.
  - reflexivity.
Defined.

(** X4. Every name under which the module saves a dataset passes the
    extension check at the head of [merge_Sentinel]: the name [loadBand]
    builds, the name of a joined pair, and the name of the final cube all
    end in [.nc]. *)
Theorem saved_names_end_in_nc (date tile file1 nameSentinel : string) (resolution : Z) :
  endswith (loadBand_name date tile resolution) ".nc" = true /\
  endswith (merged_name file1 ++ ".nc") ".nc" = true /\
  endswith (nameSentinel ++ ".nc") ".nc" = true.
Proof.
  repeat split; try apply endswith_app.
  unfold loadBand_name. rewrite <- !append_assoc. apply endswith_app.
Qed.

(** X5. The name of a joined pair keeps the date and the resolution slice of
    its left input (a name of at least 31 characters) and reads [Merged]
    where the tile code was.  Such a file is inert for the pair loops: it is
    not of zone 31, and a round that compares it with any name outside zone
    31, in either position, does nothing. *)
Theorem merged_name_slices (file1 : string) :
  (31 <= String.length file1)%nat ->
  slice 9 19 (merged_name file1 ++ ".nc") = slice 9 19 file1 /\
  slice 20 26 (merged_name file1 ++ ".nc") = "Merged"%string /\
  slice 27 31 (merged_name file1 ++ ".nc") = slice 27 31 file1 /\
  ~ zone31 (merged_name file1 ++ ".nc") /\
  (forall other w, ~ zone31 other ->
     merge_Sentinel_pair (merged_name file1 ++ ".nc") other w = (w, Ok tt) /\
     merge_Sentinel_pair other (merged_name file1 ++ ".nc") w = (w, Ok tt)).
Proof.
  intros Hlen.
  assert (slice 20 26 (merged_name file1 ++ ".nc") = "Merged"%string) as Htile
    by (apply merged_name_tile; lia).
  assert (~ zone31 (merged_name file1 ++ ".nc")) as Hzone
    by (unfold zone31; by rewrite (zone_of_tile_code _ _ Htile)).
  assert (String.length (substring 0 20 file1) = 20%nat) as H20
    by (rewrite length_substring; lia).
  repeat split; try done.
  - unfold merged_name, slice. simpl Nat.sub.
    rewrite append_assoc, substring_app_l by lia.
    by rewrite substring_take by lia.
  - unfold merged_name, slice. simpl Nat.sub.
    rewrite append_assoc.
    replace (substring 27 4) with (substring (String.length (substring 0 20 file1) + 7) 4)
      by (by rewrite H20).
    rewrite substring_app_r. simpl.
    rewrite substring_app_l by (rewrite length_substring; lia).
    by rewrite substring_substring, H20 by lia.
  - apply pair_unrelated; try done.
    intros (_ & Ht & _). rewrite Htile in Ht. discriminate.
  - apply pair_unrelated; try done.
    intros (_ & _ & Ht & _). rewrite Htile in Ht. discriminate.
Qed.

Lemma merged_name_slices_witness :
  slice 9 19 (merged_name "datacube_2020-06-01_T32ULC_R100.nc" ++ ".nc") = "2020-06-01"%string /\
  slice 27 31 (merged_name "datacube_2020-06-01_T32ULC_R100.nc" ++ ".nc") = "R100"%string.
Proof.
  destruct (merged_name_slices "datacube_2020-06-01_T32ULC_R100.nc") as (Hd & _ & Hr & _).
  - simpl. lia.
  - split; [exact Hd | exact Hr].
Defined.

(* ------------------------------------------------------------------ *)
(** * What the merge engine does to the workspace *)

Section KeepsOrDeletes.

Context {A B : Type}.

Lemma kd_ret (S : string -> Prop) (a : A) : keeps_or_deletes S (ret a).
Proof. intros w w' r [= <- _]. auto. Qed.

Lemma kd_lift (S : string -> Prop) (x : result A) : keeps_or_deletes S (lift x).
Proof. intros w w' r [= <- _]. auto. Qed.

Lemma kd_weaken (S T : string -> Prop) (m : M A) :
  (forall n, S n -> T n) -> keeps_or_deletes S m -> keeps_or_deletes T m.
Proof.
  intros Hsub Hm w w' r Hrun. destruct (Hm w w' r Hrun) as (Hf & Hr & Hh).
  repeat split; try done. intros n Hn. apply Hf. intros Hs. by apply Hn, Hsub.
Qed.

Lemma kd_bind (S : string -> Prop) (m : M A) (k : A -> M B) :
  keeps_or_deletes S m -> (forall a, keeps_or_deletes S (k a)) ->
  keeps_or_deletes S (bind m k).
Proof.
  intros Hm Hk w w' r. unfold bind.
  destruct (m w) as [w1 [a|e]] eqn:Hmw.
  - intros Hrun. destruct (Hm w w1 _ Hmw) as (Hf1 & Hr1 & Hh1).
    destruct (Hk a w1 w' r Hrun) as (Hf2 & Hr2 & Hh2).
    repeat split; try congruence.
    intros n Hn. destruct (Hf2 n Hn) as [-> | ->]; [by apply Hf1 | by right].
  - intros [= <- <-]. destruct (Hm w w1 _ Hmw) as (Hf1 & Hr1 & Hh1). by repeat split.
Qed.

End KeepsOrDeletes.

Lemma kd_for_each {A} (S : string -> Prop) (l : list A) (body : A -> M unit) :
  (forall x, In x l -> keeps_or_deletes S (body x)) ->
  keeps_or_deletes S (for_each l body).
Proof.
  induction l as [|x l IH]; intros Hbody; simpl.
  - apply kd_ret.
  - apply kd_bind; [apply Hbody; by left|].
    intros _. apply IH. intros y Hy. apply Hbody. by right.
Qed.

Lemma kd_open_dataset (S : string -> Prop) (path : string) :
  keeps_or_deletes S (open_dataset path).
Proof.
  intros w w' r. unfold open_dataset.
  destruct (Dir.find path (files w)) as [[d|]|]; intros [= <- _]; auto.
Qed.

Lemma kd_delete (S : string -> Prop) (path : string) : keeps_or_deletes S (delete path).
Proof.
  intros w w' r. unfold delete, os_remove.
  destruct (Dir.mem path (Dir.names (files w))); intros [= <- _]; simpl; [|auto].
  repeat split. intros n _.
  destruct (String.eqb_spec n path) as [-> | Hne].
  - right. apply find_remove_eq.
  - left. by apply find_remove_ne.
Qed.

Lemma kd_to_netcdf (ds : Dataset) (path : string) :
  keeps_or_deletes (fun n => n = path) (to_netcdf ds path).
Proof.
  intros w w' r [= <- _]. simpl. repeat split.
  intros n Hn. left. by apply find_write_ne.
Qed.

Lemma kd_merge_coords (ds_left ds_right : Dataset) (name : string) :
  keeps_or_deletes (fun n => n = (name ++ ".nc")%string) (merge_coords ds_left ds_right name).
Proof.
  unfold merge_coords.
  repeat (apply kd_bind; [apply kd_lift | intros ?]).
  apply kd_to_netcdf.
Qed.

Lemma kd_merge_Sentinel_pair (file1 file2 : string) :
  keeps_or_deletes (fun n => n = (merged_name file1 ++ ".nc")%string)
    (merge_Sentinel_pair file1 file2).
Proof.
  unfold merge_Sentinel_pair.
  repeat match goal with
         | |- keeps_or_deletes _ (if ?c then _ else _) => destruct c
         end;
    try apply kd_delete; try apply kd_ret.
  apply kd_bind; [apply kd_open_dataset | intros fileLeft].
  apply kd_bind; [apply kd_open_dataset | intros fileRight].
  apply kd_bind; [apply kd_merge_coords | intros _].
  apply kd_bind; [apply kd_delete | intros _].
  apply kd_delete.
Qed.

(** X6. The pair loops of [merge_Sentinel] never overwrite a file.
    Whatever they return, also when they raise, every file whose name is not
    the name of a joined pair of the listing is afterwards as it was or
    deleted, and the raster store and the open raster handles are as they
    were. *)
Theorem merge_Sentinel_pairs_never_overwrite
    (files_listed : list string) (w w' : World) (r : result unit) (n : string) :
  merge_Sentinel_pairs files_listed w = (w', r) ->
  (forall file1, In file1 files_listed -> n <> (merged_name file1 ++ ".nc")%string) ->
  (Dir.find n (files w') = Dir.find n (files w) \/ Dir.find n (files w') = None) /\
  rasters w' = rasters w /\
  handles w' = handles w.
Proof.
  intros Hrun Hn.
  assert (keeps_or_deletes
            (fun n => exists file1, In file1 files_listed
                                    /\ n = (merged_name file1 ++ ".nc")%string)
            (merge_Sentinel_pairs files_listed)) as Hkd.
  { unfold merge_Sentinel_pairs.
    apply kd_for_each. intros file1 Hin1.
    apply kd_for_each. intros file2 _.
    apply (kd_weaken (fun n => n = (merged_name file1 ++ ".nc")%string));
      [|apply kd_merge_Sentinel_pair].
    intros m ->. by exists file1. }
  destruct (Hkd w w' r Hrun) as (Hf & Hr & Hh).
  repeat split; try done. apply Hf. intros (file1 & Hin & ->). by apply (Hn file1).
Qed.

Lemma merge_Sentinel_pairs_never_overwrite_witness :
  let d := {| ds_time := ["2020-06-01"%string]; ds_lat := [200; 100; 0]; ds_lon := [0; 100] |} in
  let w := {| files := [("datacube_2020-06-01_T31UGT_R100.nc"%string, NetCDF d);
                        ("datacube_2020-06-01_T32ULC_R100.nc"%string, NetCDF d)];
              rasters := []; handles := [] |} in
  let w' := {| files := [("datacube_2020-06-01_T32ULC_R100.nc"%string, NetCDF d)];
               rasters := []; handles := [] |} in
  (Dir.find "datacube_2020-06-01_T32ULC_R100.nc" (files w')
     = Dir.find "datacube_2020-06-01_T32ULC_R100.nc" (files w) \/
   Dir.find "datacube_2020-06-01_T32ULC_R100.nc" (files w') = None) /\
  rasters w' = rasters w /\ handles w' = handles w.
Proof.
  intros d w w'.
  apply (merge_Sentinel_pairs_never_overwrite
           ["datacube_2020-06-01_T31UGT_R100.nc"%string;
            "datacube_2020-06-01_T32ULC_R100.nc"%string]
           w w' (Err (NoPath "No file in this path"))).
  - reflexivity.
  - intros file1 [<- | [<- | []]]; vm_compute; discriminate.
Defined.

(** X7. [delete] removes exactly the named file.  When the path names a
    file of the workspace (an entry that is not a product folder: the
    folders are the entries named [*.SAFE], and on them [os.remove] raises
    an error that [delete] does not convert), the file is gone afterwards,
    every other entry is as it was, and a second [delete] of the same path
    raises [NoPath]; when there is no entry of that name [delete] raises
    [NoPath] and leaves the workspace as it is. *)
Theorem delete_removes_exactly (path : string) (w : World) :
  (is_Some (Dir.find path (files w)) ->
   endswith path ".SAFE" = false ->
     exists w', delete path w = (w', Ok tt) /\
       Dir.find path (files w') = None /\
       (forall n, n <> path -> Dir.find n (files w') = Dir.find n (files w)) /\
       delete path w' = (w', Err (NoPath "No file in this path"))) /\
  (Dir.find path (files w) = None ->
     delete path w = (w, Err (NoPath "No file in this path"))).
Proof.
  split.
  - intros Hin _. exists (set_files (Dir.remove path (files w)) w).
    pose proof (delete_present path w Hin) as Hdel.
    repeat split; try done.
    + simpl. apply find_remove_eq.
    + intros n Hne. simpl. by apply find_remove_ne.
    + by apply (delete_twice path w).
  - apply delete_absent.
Qed.

Lemma delete_removes_exactly_witness :
  let w := {| files := [("a.nc"%string, Other); ("b.nc"%string, Other)];
              rasters := []; handles := [] |} in
  exists w',
    delete "a.nc" w = (w', Ok tt) /\
    Dir.find "a.nc" (files w') = None /\
    (forall n, n <> "a.nc"%string -> Dir.find n (files w') = Dir.find n (files w)) /\
    delete "a.nc" w' = (w', Err (NoPath "No file in this path")).
Proof.
  intros w.
  apply (proj1 (delete_removes_exactly "a.nc" w)); [by eexists | reflexivity].
Defined.

(** X8. A listing without a zone 31 name and without a west/east pair
    ([T32ULC] before [T32UMC] with the same date and resolution): the pair
    loops of [merge_Sentinel] run through all rounds without raising and
    leave the world as it is, whatever the files hold. *)
Theorem merge_Sentinel_pairs_idle (files_listed : list string) (w : World) :
  (forall file, In file files_listed -> ~ zone31 file) ->
  (forall file1 file2, In file1 files_listed -> In file2 files_listed ->
     ~ adjacent file1 file2) ->
  merge_Sentinel_pairs files_listed w = (w, Ok tt).
Proof.
  intros Hzone Hadj. unfold merge_Sentinel_pairs.
  apply for_each_idle. intros file1 Hin1.
  apply for_each_idle. intros file2 Hin2.
  apply pair_unrelated; auto.
Qed.

Lemma merge_Sentinel_pairs_idle_witness :
  let w := {| files := [("datacube_2020-06-01_T32ULC_R100.nc"%string, Other);
                        ("datacube_2020-06-02_T32UMC_R100.nc"%string, Other)];
              rasters := []; handles := [] |} in
  merge_Sentinel_pairs ["datacube_2020-06-01_T32ULC_R100.nc"%string;
                        "datacube_2020-06-02_T32UMC_R100.nc"%string] w = (w, Ok tt).
Proof.
  intros w.
  apply (merge_Sentinel_pairs_idle
           ["datacube_2020-06-01_T32ULC_R100.nc"%string;
            "datacube_2020-06-02_T32UMC_R100.nc"%string] w).
  - intros file [<- | [<- | []]]; vm_compute; discriminate.
  - intros file1 file2 [<- | [<- | []]] [<- | [<- | []]] (Hd & Ht1 & Ht2 & _);
      vm_compute in Hd, Ht1, Ht2; discriminate.
Defined.

Section DirectoryEntries.

Context {V : Type}.
Implicit Types (fs tail : list (string * V)) (n : string).

Lemma remove_filter n fs : Dir.remove n fs = filter (fun e => fst e <> n) fs.
Proof.
  induction fs as [|[k c] fs IH]; simpl; [done|].
  rewrite filter_cons. simpl.
  destruct (String.eqb_spec n k) as [<- | Hne].
  - rewrite decide_False by (intros H; by apply H). done.
  - rewrite decide_True by congruence. by rewrite IH.
Qed.

Lemma write_absent n (c : V) fs :
  ~ In n (Dir.names fs) -> Dir.write n c fs = fs ++ [(n, c)].
Proof.
  induction fs as [|[k c'] fs IH]; simpl; intros Hout; [done|].
  destruct (String.eqb_spec n k) as [<- | Hne]; [tauto|].
  rewrite IH; [done | tauto].
Qed.

Lemma write_present_names n (c : V) fs :
  In n (Dir.names fs) -> Dir.names (Dir.write n c fs) = Dir.names fs.
Proof.
  induction fs as [|[k c'] fs IH]; simpl; intros Hin; [done|].
  destruct (String.eqb_spec n k) as [<- | Hne]; simpl; [done|].
  rewrite IH; [done|]. destruct Hin; [congruence | done].
Qed.

Lemma filter_listed fs (l : list string) :
  (forall n, In n (Dir.names fs) -> n ∈ l) ->
  filter (fun e : string * V => fst e ∉ l) fs = [].
Proof.
  induction fs as [|[k c] fs IH]; intros Hall; [done|].
  rewrite filter_cons. simpl.
  rewrite decide_False by (intros H; apply H, Hall; by left).
  apply IH. intros n Hn. apply Hall. by right.
Qed.

Lemma find_In n (c : V) fs :
  NoDup (Dir.names fs) -> In (n, c) fs -> Dir.find n fs = Some c.
Proof.
  induction fs as [|[k c'] fs IH]; intros Hnd Hin; [done|].
  simpl in Hnd. apply NoDup_cons in Hnd as [Hk Hnd]. simpl.
  destruct Hin as [[= -> ->] | Hin]; [by rewrite String.eqb_refl|].
  destruct (String.eqb_spec n k) as [-> | Hne]; [|by apply IH].
  exfalso. apply Hk. apply list_elem_of_In, in_map_iff. by exists (k, c).
Qed.

End DirectoryEntries.

(** A loop of [delete] that runs to its end has removed the files it names
    and nothing else. *)
Lemma for_each_delete_ok (l : list string) (w w' : World) :
  for_each l delete w = (w', Ok tt) ->
  files w' = filter (fun e => fst e ∉ l) (files w) /\
  rasters w' = rasters w /\ handles w' = handles w.
Proof.
  revert w. induction l as [|n l IH]; intros w; simpl.
  - intros [= <-]. repeat split.
    induction (files w) as [|e fs IHfs]; [done|].
    rewrite filter_cons, decide_True by apply not_elem_of_nil. by rewrite <- IHfs.
  - unfold bind. destruct (delete n w) as [w1 [[]|e]] eqn:Hdel; [|done].
    intros Hrest. apply IH in Hrest as (Hf & Hr & Hh).
    unfold delete, os_remove in Hdel.
    destruct (Dir.mem n (Dir.names (files w))); [|done].
    injection Hdel as <-. simpl in *.
    repeat split; try done.
    rewrite Hf, remove_filter, list_filter_filter.
    apply list_filter_iff. intros [k c]. simpl.
    rewrite not_elem_of_cons. tauto.
Qed.

Lemma check_extension_world (l : list string) (w w' : World) (r : result unit) :
  for_each l check_extension w = (w', r) -> w' = w.
Proof.
  revert w'. induction l as [|nc l IH]; intros w'; simpl.
  - by intros [= <- _].
  - unfold bind, check_extension at 1.
    destruct (negb (endswith nc ".nc")); simpl; [by intros [= <- _] | apply IH].
Qed.

Lemma open_all_world (paths : list string) (w w' : World) (r : result (list Dataset)) :
  open_all paths w = (w', r) -> w' = w.
Proof.
  revert w' r. induction paths as [|p paths IH]; intros w' r; simpl.
  - by intros [= <- _].
  - unfold bind, open_dataset.
    destruct (Dir.find p (files w)) as [[d|]|]; try by intros [= <- _].
    destruct (open_all paths w) as [w1 r1].
    pose proof (IH _ _ eq_refl) as ->.
    destruct r1; by intros [= <- _].
Qed.

Lemma open_mfdataset_world (paths : list string) (w w' : World) (r : result Dataset) :
  open_mfdataset paths w = (w', r) -> w' = w.
Proof.
  unfold open_mfdataset. destruct paths as [|p paths]; [by intros [= <- _]|].
  unfold bind. destruct (open_all (p :: paths) w) as [w1 [ds|e]] eqn:Hopen.
  - apply open_all_world in Hopen as ->. by intros [= <- _].
  - apply open_all_world in Hopen as ->. by intros [= <- _].
Qed.

Lemma remove_absent {V} (n : string) (fs : list (string * V)) :
  ~ In n (Dir.names fs) -> Dir.remove n fs = fs.
Proof.
  induction fs as [|[k c] fs IH]; simpl; intros Hout; [done|].
  destruct (String.eqb_spec n k) as [<- | Hne]; [tauto|].
  rewrite IH; [done | tauto].
Qed.

(** The final loop of [merge_Sentinel] on a directory without double names:
    every listed file is deleted, what was saved besides stays. *)
Lemma for_each_delete_listed (fs tail : list (string * Content)) (w : World) :
  NoDup (Dir.names fs) ->
  (forall n, In n (Dir.names fs) -> ~ In n (Dir.names tail)) ->
  for_each (Dir.names fs) delete (set_files (fs ++ tail) w) = (set_files tail w, Ok tt).
Proof.
  revert w. induction fs as [|[n c] fs IH]; intros w Hnd Hdis; [done|].
  simpl in Hnd. apply NoDup_cons in Hnd as [Hn Hnd].
  cbn [Dir.names map fst for_each].
  rewrite (run_bind (delete n) _ _ (set_files (fs ++ tail) w) tt).
  - apply IH; [done|]. intros k Hk. apply Hdis. by right.
  - unfold delete, os_remove, set_files. simpl. rewrite String.eqb_refl. simpl.
    rewrite remove_absent; [done|].
    unfold Dir.names. rewrite map_app, in_app_iff. intros [Hin | Hin].
    + by apply Hn, list_elem_of_In.
    + by apply (Hdis n); [left|].
Qed.

Lemma open_all_named (named : list (string * Dataset)) (w : World) :
  (forall n d, In (n, d) named -> Dir.find n (files w) = Some (NetCDF d)) ->
  open_all (map fst named) w = (w, Ok (map snd named)).
Proof.
  induction named as [|[n d] named IH]; intros Hfind; [done|].
  cbn [map fst snd open_all].
  rewrite (run_bind (open_dataset n) _ w w d)
    by (unfold open_dataset; by rewrite (Hfind n d) by (by left)).
  rewrite (run_bind (open_all (map fst named)) _ w w (map snd named)); [done|].
  apply IH. intros k dk Hk. apply Hfind. by right.
Qed.

(* ------------------------------------------------------------------ *)
(** * The merge engine, whatever xarray computes *)

(** The engine with the calls of [Xr] is the engine of the claims. *)
Lemma merge_Sentinel_xr (nameSentinel : string) :
  merge_Sentinel_with Xr.sel_lon Xr.combine_by_coords nameSentinel
    = merge_Sentinel nameSentinel.
Proof. reflexivity. Qed.

Section LibraryFacts.

Variable sel_lon : Dataset -> Z -> Z -> result Dataset.
Variable combine_by_coords : list Dataset -> result Dataset.

Lemma kd_merge_coords_with (ds_left ds_right : Dataset) (name : string) :
  keeps_or_deletes (fun n => n = (name ++ ".nc")%string)
    (merge_coords_with sel_lon combine_by_coords ds_left ds_right name).
Proof.
  unfold merge_coords_with.
  repeat (apply kd_bind; [apply kd_lift | intros ?]).
  apply kd_to_netcdf.
Qed.

Lemma kd_merge_Sentinel_pair_with (file1 file2 : string) :
  keeps_or_deletes (fun n => n = (merged_name file1 ++ ".nc")%string)
    (merge_Sentinel_pair_with sel_lon combine_by_coords file1 file2).
Proof.
  unfold merge_Sentinel_pair_with.
  repeat match goal with
         | |- keeps_or_deletes _ (if ?c then _ else _) => destruct c
         end;
    try apply kd_delete; try apply kd_ret.
  apply kd_bind; [apply kd_open_dataset | intros fileLeft].
  apply kd_bind; [apply kd_open_dataset | intros fileRight].
  apply kd_bind; [apply kd_merge_coords_with | intros _].
  apply kd_bind; [apply kd_delete | intros _].
  apply kd_delete.
Qed.

(** The pair loops write joined pairs and nothing else: a name that is
    neither in the workspace nor the name of a joined pair is not in the
    workspace afterwards. *)
Lemma merge_Sentinel_pairs_with_fresh (listing : list string) (w w' : World)
    (r : result unit) (n : string) :
  merge_Sentinel_pairs_with sel_lon combine_by_coords listing w = (w', r) ->
  ~ In n (Dir.names (files w)) ->
  (forall f, In f listing -> n <> (merged_name f ++ ".nc")%string) ->
  ~ In n (Dir.names (files w')).
Proof.
  intros Hrun Hout Hn.
  assert (keeps_or_deletes
            (fun n => exists file1, In file1 listing
                                    /\ n = (merged_name file1 ++ ".nc")%string)
            (merge_Sentinel_pairs_with sel_lon combine_by_coords listing)) as Hkd.
  { unfold merge_Sentinel_pairs_with.
    apply kd_for_each. intros file1 Hin1.
    apply kd_for_each. intros file2 _.
    apply (kd_weaken (fun n => n = (merged_name file1 ++ ".nc")%string));
      [|apply kd_merge_Sentinel_pair_with].
    intros m ->. by exists file1. }
  destruct (Hkd w w' r Hrun) as (Hf & _ & _).
  assert (Dir.find n (files w) = None) as Hnone.
  { destruct (Dir.find n (files w)) as [c|] eqn:Hfind; [|done].
    exfalso. apply Hout, mem_names_In, mem_names_find. by eexists. }
  intros Hin. apply mem_names_In, mem_names_find in Hin as [c Hc].
  destruct (Hf n) as [Heq | Heq].
  - intros (file1 & Hin1 & ->). by apply (Hn file1).
  - congruence.
  - congruence.
Qed.

Lemma open_mfdataset_with_world (paths : list string) (w w' : World) (r : result Dataset) :
  open_mfdataset_with combine_by_coords paths w = (w', r) -> w' = w.
Proof.
  unfold open_mfdataset_with. destruct paths as [|p paths]; [by intros [= <- _]|].
  unfold bind. destruct (open_all (p :: paths) w) as [w1 [ds|e]] eqn:Hopen.
  - apply open_all_world in Hopen as ->. by intros [= <- _].
  - apply open_all_world in Hopen as ->. by intros [= <- _].
Qed.

(** The tail of [merge_Sentinel], when it runs to its end under an output
    name that is not in the directory: nothing is left but the cube. *)
Lemma merge_Sentinel_concat_with_ok (nameSentinel : string) (w w' : World) :
  merge_Sentinel_concat_with combine_by_coords nameSentinel w = (w', Ok tt) ->
  ~ In (nameSentinel ++ ".nc")%string (Dir.names (files w)) ->
  exists cube, files w' = [((nameSentinel ++ ".nc")%string, NetCDF cube)].
Proof.
  unfold merge_Sentinel_concat_with.
  rewrite (run_bind listdir _ w w (Dir.names (files w)) eq_refl).
  unfold bind at 1.
  destruct (open_all (Dir.names (files w)) w) as [w1 [ds_merge|e]] eqn:Hopen; [|done].
  apply open_all_world in Hopen as ->.
  unfold bind at 1.
  destruct (open_mfdataset_with combine_by_coords (Dir.names (files w)) w)
    as [w2 [cube|e]] eqn:Hmf; [|done].
  apply open_mfdataset_with_world in Hmf as ->.
  unfold bind at 1, to_netcdf at 1.
  intros Hdel Hout. apply for_each_delete_ok in Hdel as (Hf & _ & _). simpl in Hf.
  set (out := (nameSentinel ++ ".nc")%string) in *.
  exists cube.
  rewrite Hf, write_absent, filter_app by done.
  rewrite filter_listed by (intros n Hn; by apply list_elem_of_In).
  simpl. rewrite filter_cons, decide_True; [done|].
  simpl. by rewrite list_elem_of_In.
Qed.

(** X9. Whatever xarray's selection and combination compute: whenever
    [merge_Sentinel] returns without raising, under an output name that is
    neither the name of an entry of the directory nor the name of a joined
    pair, the workspace holds exactly one file.  From a single file it is
    that file under the fixed name [merged_cube.nc], whatever
    [nameSentinel] says; from two or more files it is the cube under
    [nameSentinel.nc]. *)
Theorem merge_Sentinel_leaves_one_file (nameSentinel : string) (w w' : World) :
  merge_Sentinel_with sel_lon combine_by_coords nameSentinel w = (w', Ok tt) ->
  ~ In (nameSentinel ++ ".nc")%string (Dir.names (files w)) ->
  (forall f, In f (Dir.names (files w)) ->
     (nameSentinel ++ ".nc")%string <> (merged_name f ++ ".nc")%string) ->
  (exists only c, files w = [(only, c)] /\ files w' = [("merged_cube.nc"%string, c)]) \/
  ((2 <= length (files w))%nat /\
   exists cube, files w' = [((nameSentinel ++ ".nc")%string, NetCDF cube)]).
Proof.
  unfold merge_Sentinel_with.
  rewrite (run_bind listdir _ w w (Dir.names (files w)) eq_refl).
  unfold bind at 1.
  destruct (for_each (Dir.names (files w)) check_extension w) as [wc [[]|e]] eqn:Hcheck;
    [|done].
  apply check_extension_world in Hcheck as ->.
  destruct w as [fs rs hs]. simpl.
  destruct fs as [|[only c] [|second rest]]; simpl.
  - done.
  - intros Hrun _ _. left. exists only, c. split; [done|].
    unfold bind, listdir, index, os_rename, ret, set_files in Hrun. simpl in Hrun.
    rewrite String.eqb_refl in Hrun.
    destruct (String.eqb_spec only "merged_cube.nc") as [-> | Hne];
      by injection Hrun as <-.
  - intros Hrun Hout Hn. right. split; [lia|].
    unfold bind at 1 in Hrun.
    destruct (merge_Sentinel_pairs_with _ _ _ _) as [w1 [[]|e]] eqn:Hpairs; [|done].
    apply (merge_Sentinel_concat_with_ok nameSentinel w1 w' Hrun).
    by apply (merge_Sentinel_pairs_with_fresh _ _ _ _ _ Hpairs).
Qed.

Lemma pair_unrelated_with (file1 file2 : string) (w : World) :
  ~ zone31 file1 -> ~ zone31 file2 -> ~ adjacent file1 file2 ->
  merge_Sentinel_pair_with sel_lon combine_by_coords file1 file2 w = (w, Ok tt).
Proof.
  unfold merge_Sentinel_pair_with, zone31, adjacent. intros Hz1 Hz2 Hadj.
  rewrite (proj2 (String.eqb_neq _ _) Hz1), (proj2 (String.eqb_neq _ _) Hz2).
  eqb_cases; simpl; try done. by destruct Hadj.
Qed.

(** X10. Whatever xarray's selection and combination compute: a workspace
    of two or more dataset files with distinct names that all end in [.nc],
    none of zone 31 and no two of them a west/east pair.  When the
    combination of the datasets in listing order returns a cube and the
    output name is not the name of an input, [merge_Sentinel] ends with that
    cube as the only file of the workspace. *)
Theorem merge_Sentinel_unrelated_files
    (nameSentinel : string) (named : list (string * Dataset)) (cube : Dataset) (w : World) :
  files w = map (fun nd => (fst nd, NetCDF (snd nd))) named ->
  (2 <= length named)%nat ->
  NoDup (map fst named) ->
  (forall n, In n (map fst named) -> endswith n ".nc" = true) ->
  (forall n, In n (map fst named) -> ~ zone31 n) ->
  (forall n1 n2, In n1 (map fst named) -> In n2 (map fst named) -> ~ adjacent n1 n2) ->
  combine_by_coords (map snd named) = Ok cube ->
  ~ In (nameSentinel ++ ".nc")%string (map fst named) ->
  merge_Sentinel_with sel_lon combine_by_coords nameSentinel w =
    (set_files [((nameSentinel ++ ".nc")%string, NetCDF cube)] w, Ok tt).
Proof.
  intros Hfiles Hlen Hnd Hext Hzone Hadj Hcube Hout.
  assert (Dir.names (files w) = map fst named) as Hnames.
  { rewrite Hfiles. unfold Dir.names. rewrite map_map. by apply map_ext. }
  assert (forall n d, In (n, d) named -> Dir.find n (files w) = Some (NetCDF d)) as Hfind.
  { intros n d Hin. apply find_In.
    - by rewrite Hnames.
    - rewrite Hfiles. apply in_map_iff. by exists (n, d). }
  unfold merge_Sentinel_with.
  rewrite (run_bind listdir _ w w (map fst named)) by (unfold listdir; by rewrite Hnames).
  rewrite (run_bind (for_each (map fst named) check_extension) _ w w tt).
  2: { apply check_extension_pass, Forall_forall. intros n Hn.
       by apply Hext, list_elem_of_In. }
  rewrite length_map.
  destruct (length named) as [|[|k]] eqn:Hk; try lia.
  rewrite (run_bind (merge_Sentinel_pairs_with sel_lon combine_by_coords (map fst named))
             _ w w tt).
  2: { unfold merge_Sentinel_pairs_with.
       apply for_each_idle. intros n1 Hn1. apply for_each_idle. intros n2 Hn2.
       apply pair_unrelated_with; auto. }
  unfold merge_Sentinel_concat_with.
  rewrite (run_bind listdir _ w w (map fst named)) by (unfold listdir; by rewrite Hnames).
  rewrite (run_bind (open_all (map fst named)) _ w w (map snd named))
    by (by apply open_all_named).
  rewrite (run_bind (open_mfdataset_with combine_by_coords (map fst named)) _ w w cube).
  2: { unfold open_mfdataset_with.
       destruct named as [|nd named']; [done|]. cbn [map].
       change (fst nd :: map fst named') with (map fst (nd :: named')).
       rewrite (run_bind (open_all (map fst (nd :: named'))) _ w w (map snd (nd :: named')))
         by (by apply open_all_named).
       unfold lift. by rewrite Hcube. }
  set (out := (nameSentinel ++ ".nc")%string) in *.
  rewrite (run_bind (to_netcdf cube out) _ w
             (set_files (files w ++ [(out, NetCDF cube)]) w) tt).
  2: { unfold to_netcdf. rewrite write_absent; [done|]. by rewrite Hnames. }
  rewrite <- Hnames. apply for_each_delete_listed.
  - by rewrite Hnames.
  - intros n Hn [<- | []]. apply Hout. by rewrite <- Hnames.
Qed.

End LibraryFacts.

Lemma merge_Sentinel_unrelated_files_witness :
  let d1 := {| ds_time := ["2020-06-01"%string]; ds_lat := [200; 100; 0]; ds_lon := [0; 100] |} in
  let d2 := {| ds_time := ["2020-06-01"%string]; ds_lat := [200; 100; 0]; ds_lon := [200; 300] |} in
  let d3 := {| ds_time := ["2020-06-01"%string]; ds_lat := [200; 100; 0]; ds_lon := [400; 500] |} in
  merge_Sentinel "cube"
    {| files := [("datacube_2020-06-01_T32ULC_R100.nc"%string, NetCDF d1);
                 ("datacube_2020-06-01_T32UNC_R100.nc"%string, NetCDF d2);
                 ("datacube_2020-06-01_T32UPC_R100.nc"%string, NetCDF d3)];
       rasters := []; handles := [] |} =
    ({| files := [("cube.nc"%string,
                   NetCDF {| ds_time := ["2020-06-01"%string]; ds_lat := [200; 100; 0];
                             ds_lon := [0; 100; 200; 300; 400; 500] |})];
        rasters := []; handles := [] |}, Ok tt).
Proof.
  intros d1 d2 d3.
  apply (merge_Sentinel_unrelated_files Xr.sel_lon Xr.combine_by_coords "cube"
           [("datacube_2020-06-01_T32ULC_R100.nc"%string, d1);
            ("datacube_2020-06-01_T32UNC_R100.nc"%string, d2);
            ("datacube_2020-06-01_T32UPC_R100.nc"%string, d3)]).
  - reflexivity.
  - simpl. lia.
  - apply (bool_decide_unpack _). vm_compute. reflexivity.
  - intros n H. simpl in H. decompose [or] H; subst; try reflexivity; done.
  - intros n H. simpl in H. decompose [or] H; subst; try (vm_compute; discriminate); done.
  - intros n1 n2 H1 H2 (_ & Ht1 & Ht2 & _). simpl in H1, H2.
    decompose [or] H1; decompose [or] H2; subst; try done;
      vm_compute in Ht1, Ht2; discriminate.
  - reflexivity.
  - simpl. intros H. decompose [or] H; try discriminate; done.
Defined.

Lemma merge_Sentinel_leaves_one_file_witness :
  let d1 := {| ds_time := ["2020-06-01"%string]; ds_lat := [200; 100; 0]; ds_lon := [0; 100] |} in
  let d2 := {| ds_time := ["2020-06-01"%string]; ds_lat := [200; 100; 0]; ds_lon := [200; 300] |} in
  let w := {| files := [("datacube_2020-06-01_T32ULC_R100.nc"%string, NetCDF d1);
                        ("datacube_2020-06-01_T32UNC_R100.nc"%string, NetCDF d2)];
              rasters := []; handles := [] |} in
  let w' := fst (merge_Sentinel "cube" w) in
  (exists only c, files w = [(only, c)] /\ files w' = [("merged_cube.nc"%string, c)]) \/
  ((2 <= length (files w))%nat /\
   exists cube, files w' = [("cube.nc"%string, NetCDF cube)]).
Proof.
  intros d1 d2 w w'.
  apply (merge_Sentinel_leaves_one_file Xr.sel_lon Xr.combine_by_coords "cube" w w').
  - reflexivity.
  - simpl. intros H. decompose [or] H; try discriminate; done.
  - intros f H. simpl in H. decompose [or] H; subst; try done; vm_compute; discriminate.
Defined.

Lemma merge_Sentinel_zone31_raises_witness :
  exists w' e,
    merge_Sentinel "cube"
      {| files := [("datacube_2020-06-01_T32ULC_R100.nc"%string, Other);
                   ("datacube_2020-06-01_T31UGT_R100.nc"%string, Other);
                   ("datacube_2020-06-02_T32ULC_R100.nc"%string, Other)];
         rasters := []; handles := [] |} = (w', Err e).
Proof.
  apply (merge_Sentinel_zone31_raises "cube" "datacube_2020-06-01_T31UGT_R100.nc").
  - simpl. lia.
  - right. left. reflexivity.
  - reflexivity.
Defined.

(* ------------------------------------------------------------------ *)
(** * What [loadBand] does to the world *)

(** Every way [loadBand] can end *)
Lemma loadBand_cases (bandpath : list string) (date tile : string) (resolution : Z)
    (w : World) :
  loadBand bandpath date tile resolution w =
    match bandpath !! 0%nat with
    | None => (w, Err IndexError)
    | Some p4 =>
        match Dir.find p4 (rasters w) with
        | None => (w, Err RasterioIOError)
        | Some b4 =>
            match bandpath !! 1%nat with
            | None => (set_handles (p4 :: handles w) w, Err IndexError)
            | Some p8 =>
                match Dir.find p8 (rasters w) with
                | None => (set_handles (p4 :: handles w) w, Err RasterioIOError)
                | Some b8 =>
                    match loadBand_dataset b4 b8 date resolution with
                    | Err e => (set_handles (p8 :: p4 :: handles w) w, Err e)
                    | Ok dataset =>
                        (set_files (Dir.write (loadBand_name date tile resolution)
                                      (NetCDF dataset) (files w)) w, Ok dataset)
                    end
                end
            end
        end
    end.
Proof.
  unfold loadBand, bind, index, rio_open, lift, ret, raise.
  destruct (bandpath !! 0%nat) as [p4|]; [|done].
  destruct (Dir.find p4 (rasters w)) as [b4|]; [|done].
  destruct (bandpath !! 1%nat) as [p8|]; [|done]. simpl.
  destruct (Dir.find p8 (rasters w)) as [b8|]; [|done].
  destruct (loadBand_dataset b4 b8 date resolution) as [dataset|e]; [|done].
  unfold to_netcdf, rio_close, set_files, set_handles. simpl.
  do 2 f_equal. exact (remove_first_opened p4 p8 (handles w)).
Qed.

(** X12. [loadBand] writes nothing unless it succeeds: when it raises, the
    files of the workspace and the raster store are as they were.  When it
    returns a dataset, the workspace holds that dataset under the name
    [datacube_<date>_<tile>_R<resolution>.nc] (opening the file gives the
    returned dataset back), every other file is as it was, and the raster
    handles that are open are those from before the call. *)
Theorem loadBand_saves_on_success_only (bandpath : list string) (date tile : string)
    (resolution : Z) (w w' : World) :
  (forall e, loadBand bandpath date tile resolution w = (w', Err e) ->
     files w' = files w /\ rasters w' = rasters w) /\
  (forall ds, loadBand bandpath date tile resolution w = (w', Ok ds) ->
     open_dataset (loadBand_name date tile resolution) w' = (w', Ok ds) /\
     (forall n, n <> loadBand_name date tile resolution ->
        Dir.find n (files w') = Dir.find n (files w)) /\
     rasters w' = rasters w /\
     handles w' = handles w).
Proof.
  rewrite loadBand_cases.
  destruct (bandpath !! 0%nat) as [p4|]; [|split; [by intros e [= <- _] | done]].
  destruct (Dir.find p4 (rasters w)) as [b4|]; [|split; [by intros e [= <- _] | done]].
  destruct (bandpath !! 1%nat) as [p8|]; [|split; [by intros e [= <- _] | done]].
  destruct (Dir.find p8 (rasters w)) as [b8|]; [|split; [by intros e [= <- _] | done]].
  destruct (loadBand_dataset b4 b8 date resolution) as [dataset|e];
    [|split; [by intros e' [= <- _] | done]].
  split; [done|]. intros ds [= <- <-]. simpl. repeat split.
  - unfold open_dataset. simpl. by rewrite find_write_eq.
  - intros n Hn. by apply find_write_ne.
Qed.

Lemma loadBand_saves_on_success_only_witness :
  let band := {| bounds_left := 399960; bounds_bottom := 5690220;
                 count := 1; height := 5490; width := 5490 |} in
  let w := {| files := [("notes.txt"%string, Other)];
              rasters := [("B04_20m.jp2"%string, band); ("B8A_20m.jp2"%string, band)];
              handles := [] |} in
  files (set_handles ["B8A_20m.jp2"%string; "B04_20m.jp2"%string] w) = files w /\
  rasters (set_handles ["B8A_20m.jp2"%string; "B04_20m.jp2"%string] w) = rasters w.
Proof.
  intros band w.
  refine (proj1 (loadBand_saves_on_success_only
                   ["B04_20m.jp2"%string; "B8A_20m.jp2"%string] "2020-06-01" "T32ULC" 30 w
                   (set_handles ["B8A_20m.jp2"%string; "B04_20m.jp2"%string] w))
            (NoResolution "Invalid Resolution, try 10, 20, 60 or 100") _).
  reflexivity.
Defined.

(** X13. Once [loadBand] has opened the red band, every way of raising
    leaves its handle open: a band path list that is too short, a second
    raster that cannot be opened, an unsupported resolution, band arrays
    that do not fit the grid.  Before that (no first path, or a first raster
    that cannot be opened) no handle is opened. *)
Theorem loadBand_error_leaks_red_handle (bandpath : list string) (date tile : string)
    (resolution : Z) (w w' : World) (e : exn) :
  loadBand bandpath date tile resolution w = (w', Err e) ->
  match bandpath !! 0%nat with
  | None => w' = w
  | Some p4 =>
      match Dir.find p4 (rasters w) with
      | None => w' = w
      | Some _ =>
          handles w' = p4 :: handles w \/
          exists p8, bandpath !! 1%nat = Some p8 /\ handles w' = p8 :: p4 :: handles w
      end
  end.
Proof.
  rewrite loadBand_cases.
  destruct (bandpath !! 0%nat) as [p4|]; [|by intros [= <- _]].
  destruct (Dir.find p4 (rasters w)) as [b4|]; [|by intros [= <- _]].
  destruct (bandpath !! 1%nat) as [p8|]; [|intros [= <- _]; by left].
  destruct (Dir.find p8 (rasters w)) as [b8|]; [|intros [= <- _]; by left].
  destruct (loadBand_dataset b4 b8 date resolution) as [dataset|e']; [done|].
  intros [= <- _]. right. by exists p8.
Qed.

Lemma loadBand_error_leaks_red_handle_witness :
  let band := {| bounds_left := 399960; bounds_bottom := 5690220;
                 count := 1; height := 5490; width := 5490 |} in
  let w := {| files := []; rasters := [("B04_20m.jp2"%string, band)]; handles := [] |} in
  handles (set_handles ["B04_20m.jp2"%string] w) = "B04_20m.jp2"%string :: handles w \/
  exists p8, ["B04_20m.jp2"%string; "B8A_20m.jp2"%string] !! 1%nat = Some p8 /\
             handles (set_handles ["B04_20m.jp2"%string] w)
               = p8 :: "B04_20m.jp2"%string :: handles w.
Proof.
  intros band w.
  exact (loadBand_error_leaks_red_handle
           ["B04_20m.jp2"%string; "B8A_20m.jp2"%string] "2020-06-01" "T32ULC" 20 w
           (set_handles ["B04_20m.jp2"%string] w) RasterioIOError eq_refl).
Defined.

Lemma supported_footprint (resolution res : Z) :
  loadBand_res resolution = Ok res -> res * resolution = 109800.
Proof.
  unfold loadBand_res.
  repeat match goal with
         | |- context [(resolution =? ?c)%Z] => destruct (Z.eqb_spec resolution c)
         end;
    intros H; inversion H; subst; reflexivity.
Qed.

(** X14. Every dataset [loadBand] builds covers the same ground.  For
    bounds of the red band in whole metres on which binary64 adds every label
    exactly, and each supported resolution, the grid spans 109800 metres:
    the floats the source writes stand for the coordinates of the dataset,
    the longitudes run from the left bound up to [left + 109800 -
    resolution] and the latitudes from [bottom + 109800 - resolution] down
    to the bottom bound, with the one date as time axis.  Only the bounds of
    the red band are read: a near-infrared raster of the same array size
    with any other bounds gives the same dataset. *)
Theorem loadBand_dataset_extent (b4 b8 : Raster) (date : string) (resolution res : Z)
    (ds : Dataset) :
  loadBand_dataset b4 b8 date resolution = Ok ds ->
  loadBand_res resolution = Ok res ->
  Binary64.exact (bounds_left b4) resolution res ->
  Binary64.exact (bounds_bottom b4) resolution res ->
  Binary64.to_Z <$> snd (Binary64.loadBand_coords (Binary64.of_Z (bounds_left b4))
                           (Binary64.of_Z (bounds_bottom b4)) resolution res)
    = Some <$> ds_lon ds /\
  Binary64.to_Z <$> fst (Binary64.loadBand_coords (Binary64.of_Z (bounds_left b4))
                           (Binary64.of_Z (bounds_bottom b4)) resolution res)
    = Some <$> ds_lat ds /\
  ds_time ds = [date] /\
  lon_range ds = Some (bounds_left b4, bounds_left b4 + 109800 - resolution) /\
  head (ds_lat ds) = Some (bounds_bottom b4 + 109800 - resolution) /\
  last (ds_lat ds) = Some (bounds_bottom b4) /\
  (forall b8', read b8' = read b8 -> loadBand_dataset b4 b8' date resolution = Ok ds).
Proof.
  intros Hds Hres0 Hleft Hbottom.
  assert (forall b8', read b8' = read b8 ->
            loadBand_dataset b4 b8' date resolution = Ok ds) as Hnir.
  { intros b8' Hread. rewrite <- Hds.
    unfold loadBand_dataset, loadBand_resample, read_resampled, read in *.
    injection Hread as Hc Hh Hw. by rewrite Hc, Hh, Hw. }
  pose proof (loadBand_dataset_res _ _ _ _ _ Hds) as (res' & Hres & Hlat & Hlon).
  rewrite Hres0 in Hres. injection Hres as <-. rename Hres0 into Hres.
  pose proof (loadBand_res_supported _ _ Hres) as (_ & Hpos & Hrpos).
  pose proof (supported_footprint _ _ Hres) as Hfoot.
  assert (ds_time ds = [date]) as Htime.
  { unfold loadBand_dataset, and_then, Pd.date_range, Xr.Dataset_of in Hds.
    rewrite Hres in Hds.
    destruct (Pd.is_date date); [|done].
    destruct (loadBand_resample _ _ _ _ _) as [[red nir]|e]; [|done].
    destruct (_ && _); [|done]. by injection Hds as <-. }
  destruct (binary64_coords_exact _ _ _ _ Hleft Hbottom) as [Hflon Hflat].
  rewrite <- Hlon in Hflon. rewrite <- Hlat in Hflat.
  split; [exact Hflon|]. split; [exact Hflat|].
  repeat split; try done.
  - unfold lon_range. rewrite Hlon, head_lookup, last_lookup.
    destruct (loadBand_coords_length (bounds_left b4) (bounds_bottom b4) resolution res)
      as [_ ->].
    rewrite !loadBand_coords_lon. repeat case_decide; try lia.
    replace (Z.of_nat (Init.Nat.pred (Z.to_nat res))) with (res - 1) by lia.
    replace ((res - 1) * resolution) with (109800 - resolution) by lia.
    do 2 f_equal; lia.
  - rewrite Hlat, head_lookup, loadBand_coords_lat. case_decide; [|lia].
    replace (Z.of_nat (Z.to_nat res - 1 - 0)) with (res - 1) by lia.
    replace ((res - 1) * resolution) with (109800 - resolution) by lia.
    f_equal. lia.
  - rewrite Hlat, last_lookup.
    destruct (loadBand_coords_length (bounds_left b4) (bounds_bottom b4) resolution res)
      as [-> _].
    rewrite loadBand_coords_lat. case_decide; [|lia].
    replace (Z.of_nat (Z.to_nat res - 1 - Init.Nat.pred (Z.to_nat res))) with 0 by lia.
    f_equal. lia.
Qed.

Lemma loadBand_dataset_extent_witness :
  let red := {| bounds_left := 399960; bounds_bottom := 5690220;
                count := 1; height := 5490; width := 5490 |} in
  let nir := {| bounds_left := 0; bounds_bottom := 0;
                count := 1; height := 5490; width := 5490 |} in
  exists ds,
    loadBand_dataset red nir "2020-06-01" 100 = Ok ds /\
    Binary64.to_Z <$> snd (Binary64.loadBand_coords (Binary64.of_Z 399960)
                             (Binary64.of_Z 5690220) 100 1098)
      = Some <$> ds_lon ds /\
    lon_range ds = Some (399960, 399960 + 109800 - 100).
Proof.
  intros red nir.
  destruct (loadBand_dataset_fits red nir "2020-06-01" 100 1098) as [ds Hds];
    try reflexivity.
  exists ds. split; [exact Hds|].
  assert (Binary64.exact 399960 100 1098) as Hleft
    by (apply exactb_exact; vm_compute; reflexivity).
  assert (Binary64.exact 5690220 100 1098) as Hbottom
    by (apply exactb_exact; vm_compute; reflexivity).
  destruct (loadBand_dataset_extent red nir "2020-06-01" 100 1098 ds Hds eq_refl
              Hleft Hbottom) as (Hfloat & _ & _ & Hrange & _).
  split; [exact Hfloat | exact Hrange].
Defined.

(* ------------------------------------------------------------------ *)
(** * The band locator *)

Section ExtractBandsFacts.

Variable os_listdir : string -> result (list string).

Lemma extractBands_folder_ok (filename directory : string) (lTwoA : list string)
    (folder : string) (red nir : nat) (paths : list string) :
  extractBands_folder os_listdir filename directory lTwoA folder red nir = Ok paths ->
  exists granule bandName band_red band_nir,
    lTwoA !! 0%nat = Some granule /\
    os_listdir (Path.join directory
                  [filename; "GRANULE"%string; granule; "IMG_DATA"%string; folder])
      = Ok bandName /\
    bandName !! red = Some band_red /\
    bandName !! nir = Some band_nir /\
    paths = [Path.join directory
               [filename; "GRANULE"%string; granule; "IMG_DATA"%string; folder; band_red];
             Path.join directory
               [filename; "GRANULE"%string; granule; "IMG_DATA"%string; folder; band_nir]].
Proof.
  unfold extractBands_folder, and_then, item.
  destruct (lTwoA !! 0%nat) as [granule|]; [|done].
  destruct (os_listdir _) as [bandName|e] eqn:Hls; [|done].
  destruct (bandName !! red) as [band_red|] eqn:Hred; [|done].
  destruct (bandName !! nir) as [band_nir|] eqn:Hnir; [|done].
  intros [= <-]. by exists granule, bandName, band_red, band_nir.
Qed.

(** X15. For the resolution 100 [extractBands] reads what it reads for the
    resolution 20: the same folder and the same two positions, hence the
    same result, whatever the file system holds. *)
Theorem extractBands_100_as_20 (filename directory : string) :
  extractBands os_listdir filename 100 directory =
  extractBands os_listdir filename 20 directory.
Proof. reflexivity. Qed.

(** X16. For an unsupported resolution [extractBands] never returns paths.
    It lists the GRANULE folder first: when that listing succeeds the error
    is [NoResolution], also when the folder is empty; when the folder is
    missing the error is [NoPath]; any other exception of the listing
    passes through. *)
Theorem extractBands_unsupported (filename directory : string) (resolution : Z) :
  ~ supported resolution ->
  extractBands os_listdir filename resolution directory =
    match os_listdir (Path.join directory [filename; "GRANULE"%string]) with
    | Ok _ => Err (NoResolution "Invalid Resolution, try 10, 20, 60 or 100")
    | Err (FileNotFoundError _) => Err (NoPath "No file in this path")
    | Err e => Err e
    end.
Proof.
  intros Hno. unfold extractBands, extractBands_try, and_then, supported in *.
  destruct (os_listdir _) as [lTwoA|e]; [|by destruct e].
  repeat match goal with
         | |- context [(resolution =? ?c)%Z] =>
             destruct (Z.eqb_spec resolution c); [lia|]
         end.
  reflexivity.
Qed.

(** X17. [extractBands] returns exactly when the layout is there, and then
    it returns two paths, red band first.  The GRANULE folder has a first
    entry; the image folder of the resolution below it can be listed
    ([R10m] for 10, [R20m] for 20 and for 100, [R60m] for 60); the listing
    has an entry at the position of the red band and one at the position of
    the near-infrared band (3 and 4 in [R10m], 3 and 9 in [R20m], 4 and 11
    in [R60m]); the result is these two entries, in this order, joined to
    the path of the image folder. *)
Theorem extractBands_returns_two_paths (filename directory : string) (resolution : Z)
    (paths : list string) :
  extractBands os_listdir filename resolution directory = Ok paths <->
  exists granule others folder red nir bandName band_red band_nir,
    ((resolution = 10 /\ folder = "R10m"%string /\ red = 3%nat /\ nir = 4%nat) \/
     (resolution = 20 /\ folder = "R20m"%string /\ red = 3%nat /\ nir = 9%nat) \/
     (resolution = 60 /\ folder = "R60m"%string /\ red = 4%nat /\ nir = 11%nat) \/
     (resolution = 100 /\ folder = "R20m"%string /\ red = 3%nat /\ nir = 9%nat)) /\
    os_listdir (Path.join directory [filename; "GRANULE"%string]) = Ok (granule :: others) /\
    os_listdir (Path.join directory
                  [filename; "GRANULE"%string; granule; "IMG_DATA"%string; folder])
      = Ok bandName /\
    bandName !! red = Some band_red /\
    bandName !! nir = Some band_nir /\
    paths = [Path.join directory
               [filename; "GRANULE"%string; granule; "IMG_DATA"%string; folder; band_red];
             Path.join directory
               [filename; "GRANULE"%string; granule; "IMG_DATA"%string; folder; band_nir]].
Proof.
  split.
  - unfold extractBands.
    destruct (extractBands_try os_listdir filename resolution directory) as [ps|e] eqn:Htry.
    2: { by destruct e. }
    intros [= ->]. unfold extractBands_try, and_then in Htry.
    destruct (os_listdir (Path.join directory [filename; "GRANULE"%string]))
      as [lTwoA|e] eqn:Hgranule; [|done].
    repeat match goal with
           | H : context [(resolution =? ?c)%Z] |- _ =>
               destruct (Z.eqb_spec resolution c)
           end; try done;
      apply extractBands_folder_ok in Htry
        as (granule & bandName & band_red & band_nir & Hg & Hls & Hred & Hnir & ->);
      (destruct lTwoA as [|g others]; [done|]); injection Hg as ->;
      eexists granule, others, _, _, _, bandName, band_red, band_nir;
      (split; [|by repeat split]); tauto.
  - intros (granule & others & folder & red & nir & bandName & band_red & band_nir
            & Hlayout & Hgranule & Hls & Hred & Hnir & ->).
    unfold extractBands, extractBands_try, and_then. rewrite Hgranule.
    destruct Hlayout as [(-> & -> & -> & ->) | [(-> & -> & -> & ->)
                       | [(-> & -> & -> & ->) | (-> & -> & -> & ->)]]];
      simpl Z.eqb; cbv iota;
      unfold extractBands_folder, and_then, item;
      change ((granule :: others) !! 0%nat) with (Some granule); cbv beta iota zeta;
      by rewrite Hls, Hred, Hnir.
Qed.

(** X18. An unexpected layout is not reported as [NoPath]: with a supported
    resolution, a GRANULE folder without entries makes [extractBands] raise
    [IndexError], and so does an image folder with fewer entries than the
    position of the red band (at most three). *)
Theorem extractBands_short_listing (filename directory : string) (resolution : Z)
    (lTwoA : list string) :
  supported resolution ->
  os_listdir (Path.join directory [filename; "GRANULE"%string]) = Ok lTwoA ->
  (lTwoA = [] \/
   exists granule others,
     lTwoA = granule :: others /\
     forall folder, exists bandName,
       os_listdir (Path.join directory
                     [filename; "GRANULE"%string; granule; "IMG_DATA"%string; folder])
         = Ok bandName /\ (length bandName <= 3)%nat) ->
  extractBands os_listdir filename resolution directory = Err IndexError.
Proof.
  intros Hs Hgranule Hshort.
  assert (forall folder red nir, (3 <= red)%nat ->
            extractBands_folder os_listdir filename directory lTwoA folder red nir
              = Err IndexError) as Hfolder.
  { intros folder red nir Hred. unfold extractBands_folder, and_then, item.
    destruct Hshort as [-> | (granule & others & -> & Hls)]; [done|].
    change ((granule :: others) !! 0%nat) with (Some granule). cbv beta iota zeta.
    destruct (Hls folder) as (bandName & -> & Hlen).
    rewrite (proj2 (lookup_ge_None bandName red)) by lia. done. }
  unfold extractBands, extractBands_try, and_then. rewrite Hgranule.
  destruct Hs as [-> | [-> | [-> | ->]]]; simpl; by rewrite Hfolder by lia.
Qed.

End ExtractBandsFacts.

Lemma extractBands_unsupported_witness :
  extractBands product_listing "P.SAFE" 30 "/data/" =
    Err (NoResolution "Invalid Resolution, try 10, 20, 60 or 100") /\
  extractBands product_listing "Q.SAFE" 30 "/data/" = Err (NoPath "No file in this path").
Proof.
  assert (~ supported 30) as Hno by (unfold supported; lia).
  split.
  - rewrite (extractBands_unsupported product_listing "P.SAFE" "/data/" 30 Hno). reflexivity.
  - rewrite (extractBands_unsupported product_listing "Q.SAFE" "/data/" 30 Hno). reflexivity.
Defined.

Lemma extractBands_returns_two_paths_witness :
  exists granule others folder red nir bandName band_red band_nir,
    (((100 = 10 /\ folder = "R10m"%string /\ red = 3%nat /\ nir = 4%nat) \/
      (100 = 20 /\ folder = "R20m"%string /\ red = 3%nat /\ nir = 9%nat) \/
      (100 = 60 /\ folder = "R60m"%string /\ red = 4%nat /\ nir = 11%nat) \/
      (100 = 100 /\ folder = "R20m"%string /\ red = 3%nat /\ nir = 9%nat)) /\
     product_listing (Path.join "/data/" ["P.SAFE"%string; "GRANULE"%string])
       = Ok (granule :: others) /\
     product_listing (Path.join "/data/"
                        ["P.SAFE"%string; "GRANULE"%string; granule; "IMG_DATA"%string; folder])
       = Ok bandName /\
     bandName !! red = Some band_red /\
     bandName !! nir = Some band_nir /\
     ["/data/P.SAFE/GRANULE/L2A_T32ULC_A025814/IMG_DATA/R20m/T32ULC_B04_20m.jp2"%string;
      "/data/P.SAFE/GRANULE/L2A_T32ULC_A025814/IMG_DATA/R20m/T32ULC_B8A_20m.jp2"%string] =
     [Path.join "/data/"
        ["P.SAFE"%string; "GRANULE"%string; granule; "IMG_DATA"%string; folder; band_red];
      Path.join "/data/"
        ["P.SAFE"%string; "GRANULE"%string; granule; "IMG_DATA"%string; folder; band_nir]]).
Proof.
  exact (proj1 (extractBands_returns_two_paths product_listing "P.SAFE" "/data/" 100 _)
           eq_refl).
Defined.

Lemma extractBands_short_listing_witness :
  extractBands (fun _ => Ok []) "P.SAFE" 10 "/data/" = Err IndexError.
Proof.
  apply (extractBands_short_listing (fun _ => Ok []) "P.SAFE" "/data/" 10 []).
  - left. reflexivity.
  - reflexivity.
  - left. reflexivity.
Defined.

Lemma extractBands_ok_two (os_listdir : string -> result (list string))
    (filename directory : string) (resolution : Z) (paths : list string) :
  extractBands os_listdir filename resolution directory = Ok paths ->
  supported resolution /\ exists pathRed pathNIR, paths = [pathRed; pathNIR].
Proof.
  unfold extractBands.
  destruct (extractBands_try os_listdir filename resolution directory) as [ps|e] eqn:Htry.
  2: { by destruct e. }
  intros [= ->]. unfold extractBands_try, and_then in Htry.
  destruct (os_listdir _) as [lTwoA|e]; [|done].
  unfold supported.
  repeat match goal with
         | H : context [(resolution =? ?c)%Z] |- _ =>
             destruct (Z.eqb_spec resolution c)
         end; try done;
    (split; [lia|]);
    apply extractBands_folder_ok in Htry as (? & ? & ? & ? & _ & _ & _ & _ & ->);
    by eexists _, _.
Qed.

(** X19. [loadBand] on the paths [extractBands] returned for the same
    resolution, as in [buildCube]: the band path list has its two entries
    and the resolution is supported, so [loadBand] raises neither
    [IndexError] nor [NoResolution]. *)
Theorem loadBand_after_extractBands (os_listdir : string -> result (list string))
    (filename directory date tile : string) (resolution : Z) (paths : list string)
    (w w' : World) (e : exn) :
  extractBands os_listdir filename resolution directory = Ok paths ->
  loadBand paths date tile resolution w = (w', Err e) ->
  e <> IndexError /\ forall message, e <> NoResolution message.
Proof.
  intros Hpaths. apply extractBands_ok_two in Hpaths as (Hs & pathRed & pathNIR & ->).
  rewrite loadBand_cases. simpl.
  destruct (Dir.find pathRed (rasters w)) as [b4|]; [|by intros [= _ <-]].
  destruct (Dir.find pathNIR (rasters w)) as [b8|]; [|by intros [= _ <-]].
  unfold loadBand_dataset, and_then.
  assert (exists res, loadBand_res resolution = Ok res) as [res ->]
    by (destruct Hs as [-> | [-> | [-> | ->]]]; by eexists).
  unfold Pd.date_range. destruct (Pd.is_date date); [|by intros [= _ <-]].
  unfold loadBand_resample, read_resampled, and_then.
  destruct (resolution =? 100).
  - destruct (_ || _); [by intros [= _ <-]|].
    destruct (_ || _); [by intros [= _ <-]|].
    unfold Xr.Dataset_of. destruct (_ && _); [done | by intros [= _ <-]].
  - unfold Xr.Dataset_of. destruct (_ && _); [done | by intros [= _ <-]].
Qed.

Lemma loadBand_after_extractBands_witness :
  RasterioIOError <> IndexError /\ forall message, RasterioIOError <> NoResolution message.
Proof.
  exact (loadBand_after_extractBands product_listing "P.SAFE" "/data/" "2020-06-01" "T32ULC"
           100 _ {| files := []; rasters := []; handles := [] |} _ _ eq_refl eq_refl).
Defined.

Lemma getDate_slice (filename : string) :
  getDate filename =
    (substring 0 4 (slice 11 19 filename) ++ "-" ++ substring 4 2 (slice 11 19 filename)
       ++ "-" ++ substring 6 2 (slice 11 19 filename))%string.
Proof.
  unfold getDate, slice. simpl Nat.sub. by rewrite !substring_substring by lia.
Qed.

(** X20. The file name [loadBand] builds depends on the characters 11 to 19
    and 38 to 44 of the product name alone.  Two products that agree there
    (the same tile on the same day) are saved under one name: the second
    [loadBand] adds no file to the workspace, and the file then holds the
    second dataset. *)
Theorem loadBand_same_day_tile_overwrites
    (filename1 filename2 : string) (bandpath1 bandpath2 : list string) (resolution : Z)
    (w w1 w2 : World) (ds1 ds2 : Dataset) :
  slice 11 19 filename1 = slice 11 19 filename2 ->
  slice 38 44 filename1 = slice 38 44 filename2 ->
  loadBand bandpath1 (getDate filename1) (getTile filename1) resolution w = (w1, Ok ds1) ->
  loadBand bandpath2 (getDate filename2) (getTile filename2) resolution w1 = (w2, Ok ds2) ->
  loadBand_name (getDate filename1) (getTile filename1) resolution =
    loadBand_name (getDate filename2) (getTile filename2) resolution /\
  Dir.names (files w2) = Dir.names (files w1) /\
  open_dataset (loadBand_name (getDate filename1) (getTile filename1) resolution) w2
    = (w2, Ok ds2).
Proof.
  intros Hdate Htile Hrun1 Hrun2.
  assert (getDate filename1 = getDate filename2) as Hd
    by (by rewrite !getDate_slice, Hdate).
  assert (getTile filename1 = getTile filename2) as Ht by exact Htile.
  rewrite Hd, Ht in *.
  set (name := loadBand_name (getDate filename2) (getTile filename2) resolution) in *.
  assert (files w1 = Dir.write name (NetCDF ds1) (files w)) as Hw1.
  { rewrite loadBand_cases in Hrun1.
    repeat match type of Hrun1 with
           | match ?x with _ => _ end = _ => destruct x; try done
           end.
    by injection Hrun1 as <- <-. }
  assert (files w2 = Dir.write name (NetCDF ds2) (files w1)) as Hw2.
  { rewrite loadBand_cases in Hrun2.
    repeat match type of Hrun2 with
           | match ?x with _ => _ end = _ => destruct x; try done
           end.
    by injection Hrun2 as <- <-. }
  repeat split.
  - rewrite Hw2. apply write_present_names.
    apply mem_names_In, mem_names_find. rewrite Hw1, find_write_eq. by eexists.
  - unfold open_dataset. by rewrite Hw2, find_write_eq.
Qed.

Lemma loadBand_same_day_tile_overwrites_witness :
  loadBand_name
    (getDate "S2A_MSIL2A_20200601T103031_N0214_R108_T32ULC_20200601T134211.SAFE")
    (getTile "S2A_MSIL2A_20200601T103031_N0214_R108_T32ULC_20200601T134211.SAFE") 100 =
  loadBand_name
    (getDate "S2B_MSIL2A_20200601T103031_N0214_R108_T32ULC_20200601T150000.SAFE")
    (getTile "S2B_MSIL2A_20200601T103031_N0214_R108_T32ULC_20200601T150000.SAFE") 100.
Proof.
  pose (band20 := {| bounds_left := 399960; bounds_bottom := 5690220;
                     count := 1; height := 5490; width := 5490 |}).
  pose (w0 := {| files := [];
                 rasters := [("red.jp2"%string, band20); ("nir.jp2"%string, band20)];
                 handles := [] |}).
  assert (exists ds, loadBand_dataset band20 band20 "2020-06-01" 100 = Ok ds) as [ds Hds]
    by (apply (loadBand_dataset_fits band20 band20 "2020-06-01" 100 1098); reflexivity).
  pose (name := loadBand_name "2020-06-01" "T32ULC" 100).
  assert (forall v, rasters v = rasters w0 -> handles v = [] ->
            loadBand ["red.jp2"%string; "nir.jp2"%string] "2020-06-01" "T32ULC" 100 v =
              (set_files (Dir.write name (NetCDF ds) (files v)) v, Ok ds)) as Hrun.
  { intros v Hr Hh. rewrite loadBand_cases.
    change (["red.jp2"%string; "nir.jp2"%string] !! 0%nat) with (Some "red.jp2"%string).
    change (["red.jp2"%string; "nir.jp2"%string] !! 1%nat) with (Some "nir.jp2"%string).
    cbv beta iota. rewrite Hr.
    change (Dir.find "red.jp2" (rasters w0)) with (Some band20).
    change (Dir.find "nir.jp2" (rasters w0)) with (Some band20).
    cbv beta iota. by rewrite Hds. }
  exact (proj1 (loadBand_same_day_tile_overwrites
    "S2A_MSIL2A_20200601T103031_N0214_R108_T32ULC_20200601T134211.SAFE"
    "S2B_MSIL2A_20200601T103031_N0214_R108_T32ULC_20200601T150000.SAFE"
    ["red.jp2"%string; "nir.jp2"%string] ["red.jp2"%string; "nir.jp2"%string] 100
    w0 _ _ ds ds eq_refl eq_refl (Hrun w0 eq_refl eq_refl)
    (Hrun (set_files (Dir.write name (NetCDF ds) (files w0)) w0) eq_refl eq_refl))).
Defined.

(* ------------------------------------------------------------------ *)
(** * The archives *)

Lemma remove_app {V} (n : string) (a b : list (string * V)) :
  Dir.remove n (a ++ b) = Dir.remove n a ++ Dir.remove n b.
Proof.
  induction a as [|[k c] a IH]; simpl; [done|].
  destruct (String.eqb n k); [done|]. simpl. by rewrite IH.
Qed.

Lemma find_middle {V} (n : string) (c : V) (a b : list (string * V)) :
  is_Some (Dir.find n (a ++ (n, c) :: b)).
Proof.
  induction a as [|[k c'] a IH]; simpl.
  - rewrite String.eqb_refl. by eexists.
  - destruct (String.eqb n k); [by eexists | done].
Qed.

Lemma NoDup_names_middle {V} (n : string) (c : V) (a b : list (string * V)) :
  NoDup (Dir.names (a ++ (n, c) :: b)) ->
  ~ In n (Dir.names a) /\ ~ In n (Dir.names b) /\ NoDup (Dir.names (a ++ b)).
Proof.
  unfold Dir.names. rewrite !map_app. simpl.
  intros Hnd. apply NoDup_app in Hnd as (Ha & Hdis & Hb).
  apply NoDup_cons in Hb as [Hn Hb].
  repeat split.
  - intros Hin. apply list_elem_of_In in Hin. apply (Hdis n Hin). by left.
  - intros Hin. by apply list_elem_of_In in Hin.
  - apply NoDup_app. repeat split; [done | | done].
    intros x Hx Hxb. apply (Hdis x Hx). by right.
Qed.

(** A name of fewer than 41 characters has no zone digits to show. *)
Lemma short_name_zone (f : string) :
  (String.length f < 41)%nat -> slice 39 41 f <> "32"%string.
Proof.
  intros Hlen Heq. apply (f_equal String.length) in Heq.
  rewrite length_slice in Heq by lia.
  change (String.length "32") with 2%nat in Heq. lia.
Qed.

Section UnzipFacts.

Variable unzipping : string -> M unit.

Lemma unzip_file_other (filename : string) :
  endswith filename ".zip" = false -> unzip_file unzipping filename = ret tt.
Proof. unfold unzip_file. by intros ->. Qed.

Lemma unzip_file_other_zone (filename : string) :
  endswith filename ".zip" = true -> slice 39 41 filename <> "32"%string ->
  unzip_file unzipping filename = delete filename.
Proof.
  unfold unzip_file. intros -> Hz. by rewrite (proj2 (String.eqb_neq _ _) Hz).
Qed.

Lemma unzip_file_zone32 (filename : string) :
  endswith filename ".zip" = true -> slice 39 41 filename = "32"%string ->
  unzip_file unzipping filename = (unzipping filename ;; delete filename).
Proof. unfold unzip_file. by intros -> ->. Qed.

(** The loop of [unzip] over archives of other zones: the entries already
    passed and kept are [kept], the entries still to come are [fs]. *)
Lemma unzip_rounds_other_zone (fs kept : list (string * Content)) (w : World) :
  NoDup (Dir.names (kept ++ fs)) ->
  (forall f, In f (Dir.names fs) -> endswith f ".zip" = true ->
     slice 39 41 f <> "32"%string) ->
  for_each (Dir.names fs) (unzip_file unzipping) (set_files (kept ++ fs) w) =
    (set_files (kept ++ filter (fun e => endswith (fst e) ".zip" = false) fs) w, Ok tt).
Proof.
  revert kept. induction fs as [|[n c] fs IH]; intros kept Hnd Hz; [done|].
  change (Dir.names ((n, c) :: fs)) with (n :: Dir.names fs) in *.
  change (for_each (n :: Dir.names fs) (unzip_file unzipping))
    with (unzip_file unzipping n ;; for_each (Dir.names fs) (unzip_file unzipping)).
  rewrite filter_cons. change (fst (n, c)) with n.
  destruct (endswith n ".zip") eqn:Ez.
  - rewrite decide_False by done.
    rewrite (unzip_file_other_zone n Ez (Hz n (or_introl eq_refl) Ez)).
    apply NoDup_names_middle in Hnd as (Hk & Hf & Hnd).
    rewrite (run_bind (delete n) _ _ (set_files (kept ++ fs) w) tt).
    + apply IH; [done|]. intros f Hf'. apply Hz. by right.
    + rewrite delete_present by (simpl; apply find_middle).
      unfold set_files. simpl. rewrite remove_app. simpl. rewrite String.eqb_refl.
      by rewrite !remove_absent.
  - rewrite decide_True by done. rewrite (unzip_file_other n Ez).
    rewrite (run_bind (ret tt) _ (set_files (kept ++ (n, c) :: fs) w)
               (set_files (kept ++ (n, c) :: fs) w) tt) by done.
    specialize (IH (kept ++ [(n, c)])). rewrite <- !List.app_assoc in IH.
    change ([(n, c)] ++ fs) with ((n, c) :: fs) in IH.
    change ([(n, c)] ++ filter (fun e => endswith (fst e) ".zip" = false) fs)
      with ((n, c) :: filter (fun e => endswith (fst e) ".zip" = false) fs) in IH.
    apply IH; [done|]. intros f Hf'. apply Hz. by right.
Qed.

(** X21. Archives of another zone are deleted and never extracted.  When
    the names of the workspace are distinct and every name that ends in
    [.zip] is shorter than 41 characters or shows other zone digits than
    [32] at the positions 39 and 40, [unzip] returns whatever [unzipping]
    would do: exactly the archives are gone, every other entry is as it
    was and in its place, and the raster store and the open handles are
    unchanged. *)
Theorem unzip_other_zones (w : World) :
  NoDup (Dir.names (files w)) ->
  (forall f, In f (Dir.names (files w)) -> endswith f ".zip" = true ->
     (String.length f < 41)%nat \/ slice 39 41 f <> "32"%string) ->
  unzip unzipping w =
    (set_files (filter (fun e => endswith (fst e) ".zip" = false) (files w)) w, Ok tt).
Proof.
  intros Hnd Hz. unfold unzip.
  rewrite (run_bind listdir _ w w (Dir.names (files w)) eq_refl).
  destruct w as [fs rs hs].
  apply (unzip_rounds_other_zone fs [] {| files := fs; rasters := rs; handles := hs |} Hnd).
  intros f Hf Ez. destruct (Hz f Hf Ez) as [Hshort | Hzone]; [|done].
  by apply short_name_zone.
Qed.

(** The loop of [unzip] when every name still to come is in the workspace *)
Lemma unzip_rounds_raise (l : list string) (w w' : World) (e : exn) :
  (forall f v v' r, unzipping f v = (v', r) ->
     forall n, is_Some (Dir.find n (files v)) -> is_Some (Dir.find n (files v'))) ->
  NoDup l ->
  (forall n, In n l -> is_Some (Dir.find n (files w))) ->
  for_each l (unzip_file unzipping) w = (w', Err e) ->
  exists f v,
    In f l /\ endswith f ".zip" = true /\ slice 39 41 f = "32"%string /\
    unzipping f v = (w', Err e) /\ is_Some (Dir.find f (files w')).
Proof.
  intros Hkeep. revert w. induction l as [|n l IH]; intros w Hnd Hin Hrun; [done|].
  apply NoDup_cons in Hnd as [Hn Hnd].
  assert (forall m, In m l -> m <> n) as Hne.
  { intros m Hm ->. by apply Hn, list_elem_of_In. }
  change (for_each (n :: l) (unzip_file unzipping))
    with (unzip_file unzipping n ;; for_each l (unzip_file unzipping)) in Hrun.
  destruct (endswith n ".zip") eqn:Ez.
  - destruct (String.eqb_spec (slice 39 41 n) "32") as [E32 | N32].
    + rewrite (unzip_file_zone32 n Ez E32) in Hrun. unfold bind in Hrun.
      destruct (unzipping n w) as [w1 [[]|e1]] eqn:Hu.
      * rewrite delete_present in Hrun by (apply (Hkeep _ _ _ _ Hu), Hin; by left).
        apply IH in Hrun as (f & v & Hf & Hrest); [|done|].
        -- exists f, v. split; [by right | done].
        -- intros m Hm. simpl. rewrite find_remove_ne by by apply Hne.
           apply (Hkeep _ _ _ _ Hu), Hin. by right.
      * injection Hrun as <- <-. exists n, w. repeat split; try done; [by left|].
        apply (Hkeep _ _ _ _ Hu), Hin. by left.
    + rewrite (unzip_file_other_zone n Ez N32) in Hrun.
      rewrite (run_bind (delete n) _ w (set_files (Dir.remove n (files w)) w) tt) in Hrun
        by (apply delete_present, Hin; by left).
      apply IH in Hrun as (f & v & Hf & Hrest); [|done|].
      * exists f, v. split; [by right | done].
      * intros m Hm. simpl. rewrite find_remove_ne by by apply Hne.
        apply Hin. by right.
  - rewrite (unzip_file_other n Ez) in Hrun.
    rewrite (run_bind (ret tt) _ w w tt) in Hrun by done.
    apply IH in Hrun as (f & v & Hf & Hrest); [|done|].
    + exists f, v. split; [by right | done].
    + intros m Hm. apply Hin. by right.
Qed.

(** X22. [unzip] raises only what an extraction raises.  When the names of
    the workspace are distinct and [unzipping] removes no entry, no [delete]
    of the loop fails: an exception of [unzip] is the exception of
    [unzipping] on an archive of zone 32, the loop ends there, and that
    archive is still in the workspace. *)
Theorem unzip_raises_from_unzipping (w w' : World) (e : exn) :
  NoDup (Dir.names (files w)) ->
  (forall f v v' r, unzipping f v = (v', r) ->
     forall n, is_Some (Dir.find n (files v)) -> is_Some (Dir.find n (files v'))) ->
  unzip unzipping w = (w', Err e) ->
  exists f v,
    In f (Dir.names (files w)) /\ endswith f ".zip" = true /\
    slice 39 41 f = "32"%string /\
    unzipping f v = (w', Err e) /\ is_Some (Dir.find f (files w')).
Proof.
  intros Hnd Hkeep. unfold unzip.
  rewrite (run_bind listdir _ w w (Dir.names (files w)) eq_refl).
  apply unzip_rounds_raise; [done | done |].
  intros n Hn. by apply mem_names_find, mem_names_In.
Qed.

End UnzipFacts.

Lemma unpack_keeps (bad f : string) (v v' : World) (r : result unit) :
  unpack bad f v = (v', r) ->
  forall n, is_Some (Dir.find n (files v)) -> is_Some (Dir.find n (files v')).
Proof.
  unfold unpack. destruct (String.eqb f bad).
  - by intros [= <- _].
  - intros [= <- _] n Hn. simpl.
    destruct (String.eqb_spec n (slice 0 (String.length f - 4) f ++ ".SAFE")) as [-> | Hne].
    + rewrite find_write_eq. by eexists.
    + by rewrite find_write_ne.
Qed.

Lemma unzip_other_zones_witness :
  let w0 := {| files := [("a.zip"%string, Other);
                         ("S2A_MSIL2A_20200601T103031_N0214_R108_T31UGT_20200601T134211.zip"%string,
                          Other);
                         ("notes.txt"%string, Other)];
               rasters := []; handles := [] |} in
  unzip (unpack "") w0 = (set_files [("notes.txt"%string, Other)] w0, Ok tt).
Proof.
  intros w0. apply (unzip_other_zones (unpack "") w0).
  - apply (bool_decide_unpack _). vm_compute. reflexivity.
  - intros f [<- | [<- | [<- | []]]] Ez.
    + left. vm_compute. lia.
    + right. vm_compute. discriminate.
    + vm_compute in Ez. discriminate.
Defined.

Lemma unzip_raises_from_unzipping_witness :
  let bad := "S2A_MSIL2A_20200601T103031_N0214_R108_T32ULC_20200601T134211.zip"%string in
  let w0 := {| files := [("a.zip"%string, Other); (bad, Other); ("later.zip"%string, Other)];
               rasters := []; handles := [] |} in
  let w' := set_files [(bad, Other); ("later.zip"%string, Other)] w0 in
  exists f v,
    In f (Dir.names (files w0)) /\ endswith f ".zip" = true /\
    slice 39 41 f = "32"%string /\
    unpack bad f v = (w', Err (OSError bad)) /\ is_Some (Dir.find f (files w')).
Proof.
  intros bad w0 w'.
  apply (unzip_raises_from_unzipping (unpack bad) w0 w' (OSError bad)).
  - apply (bool_decide_unpack _). vm_compute. reflexivity.
  - apply unpack_keeps.
  - vm_compute. reflexivity.
Defined.

(* ------------------------------------------------------------------ *)
(** * The products *)

Lemma buildCube_count_zero (l : list string) :
  buildCube_count l = 0%nat <-> forall f, In f l -> endswith f ".SAFE" = false.
Proof.
  unfold buildCube_count.
  assert (forall i : nat,
            fold_left (fun i filename => if endswith filename ".SAFE" then S i else i) l i
              = 0%nat <->
            i = 0%nat /\ forall f, In f l -> endswith f ".SAFE" = false) as Hgen.
  { induction l as [|a l IH]; intros i; simpl.
    - split; [by intros -> | by intros [-> _]].
    - rewrite IH. destruct (endswith a ".SAFE") eqn:Ea.
      + split; [by intros [? _]|]. intros [_ H]. specialize (H a (or_introl eq_refl)).
        congruence.
      + split; intros [-> H]; (split; [done|]).
        * by intros f [<- | Hf]; [|apply H].
        * intros f Hf. apply H. by right. }
  rewrite Hgen. split; [by intros [_ H] | by intros H].
Qed.

Lemma extractBands_unsupported_raises (os_listdir : string -> result (list string))
    (filename directory : string) (resolution : Z) :
  ~ supported resolution ->
  exists e,
    extractBands os_listdir filename resolution directory = Err e /\
    (is_ok (os_listdir (Path.join directory [filename; "GRANULE"%string])) = true ->
     e = NoResolution "Invalid Resolution, try 10, 20, 60 or 100").
Proof.
  intros Hno. unfold extractBands, extractBands_try, and_then, supported in *.
  destruct (os_listdir _) as [lTwoA|e].
  - repeat match goal with
           | |- context [(resolution =? ?c)%Z] =>
               destruct (Z.eqb_spec resolution c); [lia|]
           end.
    by eexists.
  - destruct e; by eexists.
Qed.

Section BuildCubeFacts.

Variable os_listdir : World -> string -> result (list string).

Lemma buildCube_round_other (directory filename : string) (resolution : Z) :
  endswith filename ".SAFE" = false ->
  buildCube_round os_listdir directory resolution filename = ret tt.
Proof. unfold buildCube_round. by intros ->. Qed.

(** X23. [buildCube] raises [NoSafeFileError] exactly when no entry of the
    workspace has a name that ends in [.SAFE]; the workspace is then as it
    was.  With such an entry it ends in another way, whatever the entry
    is. *)
Theorem buildCube_no_product (directory : string) (resolution : Z) (w w' : World)
    (message : string) :
  buildCube os_listdir directory resolution w = (w', NoSafeFileError message) <->
  (forall f, In f (Dir.names (files w)) -> endswith f ".SAFE" = false) /\
  w' = w /\
  message = "In this directory is no SAFE file to build a cube"%string.
Proof.
  unfold buildCube.
  destruct (Nat.eqb_spec (buildCube_count (Dir.names (files w))) 0) as [H0 | H0].
  - pose proof (proj1 (buildCube_count_zero _) H0) as Hnone. split.
    + by intros [= <- <-].
    + by intros (_ & -> & ->).
  - split.
    + by destruct (bind _ _ w) as [w1 [[]|e]].
    + intros (H & _). by apply (proj2 (buildCube_count_zero _)) in H.
Qed.

Lemma buildCube_rounds_unsupported (directory : string) (resolution : Z)
    (l : list string) (w : World) :
  ~ supported resolution ->
  (exists f, In f l /\ endswith f ".SAFE" = true) ->
  exists f e,
    In f l /\ endswith f ".SAFE" = true /\
    for_each l (buildCube_round os_listdir directory resolution) w = (w, Err e) /\
    (is_ok (os_listdir w (Path.join directory
                            [Path.join directory [f]; "GRANULE"%string])) = true ->
     e = NoResolution "Invalid Resolution, try 10, 20, 60 or 100").
Proof.
  intros Hno. induction l as [|a l IH]; intros (f & Hf & Ef); [done|].
  change (for_each (a :: l) (buildCube_round os_listdir directory resolution))
    with (buildCube_round os_listdir directory resolution a ;;
          for_each l (buildCube_round os_listdir directory resolution)).
  destruct (endswith a ".SAFE") eqn:Ea.
  - destruct (extractBands_unsupported_raises (os_listdir w) (Path.join directory [a])
                directory resolution Hno) as (e & He & Hres).
    exists a, e. repeat split; [by left | done | | done].
    unfold buildCube_round, bind. by rewrite Ea, He.
  - destruct IH as (f' & e & Hf' & Ef' & Hrun & Hres).
    { exists f. split; [|done]. destruct Hf as [<- | Hf]; [congruence | done]. }
    exists f', e. repeat split; [by right | done | | done].
    rewrite (buildCube_round_other directory a resolution Ea).
    by rewrite (run_bind (ret tt) _ w w tt).
Qed.

(** X24. With an unsupported resolution [buildCube] builds nothing.  When the
    workspace has an entry that ends in [.SAFE], the call raises at the
    first of them, in [extractBands], before anything is opened, written or
    removed: the world is as it was.  The exception is [NoResolution] when
    the GRANULE folder of that product can be listed. *)
Theorem buildCube_unsupported_resolution (directory : string) (resolution : Z) (w : World) :
  ~ supported resolution ->
  (exists f, In f (Dir.names (files w)) /\ endswith f ".SAFE" = true) ->
  exists f e,
    In f (Dir.names (files w)) /\ endswith f ".SAFE" = true /\
    buildCube os_listdir directory resolution w = (w, Raised e) /\
    (is_ok (os_listdir w (Path.join directory
                            [Path.join directory [f]; "GRANULE"%string])) = true ->
     e = NoResolution "Invalid Resolution, try 10, 20, 60 or 100").
Proof.
  intros Hno Hsafe.
  destruct (buildCube_rounds_unsupported directory resolution (Dir.names (files w)) w
              Hno Hsafe) as (f & e & Hf & Ef & Hrun & Hres).
  exists f, e. repeat split; try done.
  unfold buildCube.
  destruct (Nat.eqb_spec (buildCube_count (Dir.names (files w))) 0) as [H0 | H0].
  - pose proof (proj1 (buildCube_count_zero _) H0 f Hf) as Hnone. congruence.
  - rewrite (run_bind listdir _ w w (Dir.names (files w)) eq_refl). by rewrite Hrun.
Qed.

End BuildCubeFacts.

Lemma buildCube_unsupported_resolution_witness :
  let w0 := {| files := [("notes.txt"%string, Other); ("P.SAFE"%string, Other)];
               rasters := []; handles := [] |} in
  exists f e,
    In f (Dir.names (files w0)) /\ endswith f ".SAFE" = true /\
    buildCube (fun _ => product_listing) "/data/" 30 w0 = (w0, Raised e) /\
    (is_ok (product_listing (Path.join "/data/" [Path.join "/data/" [f]; "GRANULE"%string]))
       = true ->
     e = NoResolution "Invalid Resolution, try 10, 20, 60 or 100").
Proof.
  intros w0.
  apply (buildCube_unsupported_resolution (fun _ => product_listing) "/data/" 30 w0).
  - unfold supported. lia.
  - exists "P.SAFE"%string. split; [simpl; tauto | reflexivity].
Defined.

(* ------------------------------------------------------------------ *)
(** * The path [buildCube] hands to [extractBands] *)

Lemma prefix_empty (s : string) : String.prefix "" s = true.
Proof. by destruct s. Qed.

Lemma prefix_sep_app (d x : string) :
  d <> ""%string -> String.prefix "/" (d ++ x) = String.prefix "/" d.
Proof.
  destruct d as [|a d]; [congruence|]. intros _. cbn -[ascii_dec].
  destruct (ascii_dec "/" a); [|done]. by rewrite !prefix_empty.
Qed.

Lemma endswith_sep_app (x d : string) :
  d <> ""%string -> endswith (x ++ d) "/" = endswith d "/".
Proof.
  intros Hd. unfold endswith. cbv zeta.
  change (String.length "/") with 1%nat. rewrite length_append.
  assert (1 <= String.length d)%nat as Hlen by (destruct d; [congruence | simpl; lia]).
  replace (String.length x + String.length d - 1)%nat
    with (String.length x + (String.length d - 1))%nat by lia.
  rewrite substring_app_r.
  rewrite (proj2 (Nat.leb_le 1 (String.length x + String.length d))) by lia.
  by rewrite (proj2 (Nat.leb_le 1 (String.length d))).
Qed.

Lemma eqb_empty_app (d x : string) : d <> ""%string -> String.eqb (d ++ x) "" = false.
Proof. destruct d; [congruence | done]. Qed.

(** An absolute directory stays in front: joining it to a path that was
    joined to it before changes nothing. *)
Lemma join2_absolute (d f : string) :
  String.prefix "/" d = true -> Path.join2 d (Path.join2 d f) = Path.join2 d f.
Proof.
  intros Habs.
  assert (d <> ""%string) as Hd by (intros ->; done).
  assert (String.prefix "/" (Path.join2 d f) = true) as Hj.
  { unfold Path.join2. destruct (String.prefix "/" f) eqn:Ef; [done|].
    destruct (_ || _); by rewrite prefix_sep_app. }
  unfold Path.join2 at 1. by rewrite Hj.
Qed.

(** A relative directory is doubled. *)
Lemma join2_relative (d f : string) :
  d <> ""%string -> String.prefix "/" d = false -> String.prefix "/" f = false ->
  Path.join2 d (Path.join2 d f) = Path.join2 (Path.join2 d d) f.
Proof.
  intros Hd Hrel Hf. unfold Path.join2.
  rewrite Hrel, Hf, (proj2 (String.eqb_neq d "") Hd). simpl orb.
  destruct (endswith d "/") eqn:Esep.
  - rewrite prefix_sep_app, Hrel, eqb_empty_app, endswith_sep_app, Esep by done.
    simpl. by rewrite append_assoc.
  - rewrite prefix_sep_app, Hrel, eqb_empty_app by done.
    rewrite (endswith_sep_app d (String "/" d)) by done.
    change (String "/" d) with ("/" ++ d)%string.
    rewrite (endswith_sep_app "/" d), Esep by done.
    simpl. by rewrite !append_assoc.
Qed.

Section SamePaths.

Variable os_listdir : string -> result (list string).

Lemma extractBands_folder_same_paths (a b d d' : string) (lTwoA : list string)
    (folder : string) (red nir : nat) :
  (forall p, Path.join d (a :: p) = Path.join d' (b :: p)) ->
  extractBands_folder os_listdir a d lTwoA folder red nir =
  extractBands_folder os_listdir b d' lTwoA folder red nir.
Proof.
  intros Hsame. unfold extractBands_folder, and_then. cbv zeta.
  destruct (item lTwoA 0) as [granule|e]; [|done].
  rewrite Hsame. destruct (os_listdir _) as [bandName|e]; [|done].
  destruct (item bandName red) as [band_red|e]; [|done].
  destruct (item bandName nir) as [band_nir|e]; [|done].
  simpl app. by rewrite !Hsame.
Qed.

(** [extractBands] depends on its file name and its directory through the
    joined paths alone. *)
Lemma extractBands_same_paths (a b d d' : string) (resolution : Z) :
  (forall p, Path.join d (a :: p) = Path.join d' (b :: p)) ->
  extractBands os_listdir a resolution d = extractBands os_listdir b resolution d'.
Proof.
  intros Hsame. unfold extractBands, extractBands_try, and_then.
  rewrite Hsame. destruct (os_listdir _) as [lTwoA|e]; [|done].
  by rewrite !(extractBands_folder_same_paths a b d d').
Qed.

(** X25. An absolute [directory] makes the double join of [buildCube]
    harmless: [extractBands] is handed [os.path.join(directory, filename)]
    and joins it to [directory] again, and it then lists what it lists for
    the plain file name, the folders below [directory/filename]. *)
Theorem buildCube_absolute_directory (directory filename : string) (resolution : Z) :
  String.prefix "/" directory = true ->
  extractBands os_listdir (Path.join directory [filename]) resolution directory =
  extractBands os_listdir filename resolution directory.
Proof.
  intros Habs. apply extractBands_same_paths. intros p.
  unfold Path.join. simpl. by rewrite join2_absolute.
Qed.

(** X26. A relative [directory] is doubled by [buildCube]: for a directory
    string that is not empty and does not start with the separator,
    [extractBands] looks for the product below [directory/directory], not
    below [directory]. *)
Theorem buildCube_relative_directory (directory filename : string) (resolution : Z) :
  directory <> ""%string ->
  String.prefix "/" directory = false ->
  String.prefix "/" filename = false ->
  Path.join directory [directory] =
    (if endswith directory "/" then directory ++ directory
     else directory ++ "/" ++ directory)%string /\
  extractBands os_listdir (Path.join directory [filename]) resolution directory =
  extractBands os_listdir filename resolution (Path.join directory [directory]).
Proof.
  intros Hd Hrel Hf. split.
  - unfold Path.join, Path.join2. simpl.
    by rewrite Hrel, (proj2 (String.eqb_neq directory "") Hd).
  - apply extractBands_same_paths. intros p.
    unfold Path.join. simpl. by rewrite join2_relative.
Qed.

End SamePaths.

Lemma buildCube_absolute_directory_witness :
  extractBands product_listing (Path.join "/data/" ["P.SAFE"%string]) 100 "/data/" =
  extractBands product_listing "P.SAFE" 100 "/data/".
Proof.
  exact (buildCube_absolute_directory product_listing "/data/" "P.SAFE" 100 eq_refl).
Defined.

Lemma buildCube_relative_directory_witness :
  Path.join "work" ["work"%string] = "work/work"%string /\
  extractBands product_listing (Path.join "work" ["P.SAFE"%string]) 20 "work" =
  extractBands product_listing "P.SAFE" 20 "work/work".
Proof.
  apply (buildCube_relative_directory product_listing "work" "P.SAFE" 20);
    [discriminate | reflexivity | reflexivity].
Defined.

(* ------------------------------------------------------------------ *)
(** * What [buildCube] leaves behind *)

Lemma nc_not_SAFE (n : string) : endswith n ".nc" = true -> endswith n ".SAFE" = false.
Proof.
  unfold endswith. cbv zeta.
  change (String.length ".nc") with 3%nat. change (String.length ".SAFE") with 5%nat.
  intros Hnc. apply andb_true_iff in Hnc as [_ Hnc]. apply String.eqb_eq in Hnc.
  apply andb_false_iff.
  destruct (Nat.leb_spec 5 (String.length n)) as [Hlen|]; [right | by left].
  apply String.eqb_neq. intros HS.
  assert (substring 2 3 (substring (String.length n - 5) 5 n) = ".nc"%string) as H.
  { rewrite substring_substring by lia.
    by replace (String.length n - 5 + 2)%nat with (String.length n - 3)%nat by lia. }
  rewrite HS in H. discriminate H.
Qed.

Lemma loadBand_name_not_SAFE (date tile : string) (resolution : Z) :
  endswith (loadBand_name date tile resolution) ".SAFE" = false.
Proof.
  apply nc_not_SAFE. unfold loadBand_name. rewrite <- !append_assoc. apply endswith_app.
Qed.

Lemma SAFE_or_none (l : list string) :
  (exists f, In f l /\ endswith f ".SAFE" = true) \/
  (forall f, In f l -> endswith f ".SAFE" = false).
Proof.
  induction l as [|a l [(f & Hf & Ef) | Hnone]].
  - right. by intros f [].
  - left. exists f. split; [by right | done].
  - destruct (endswith a ".SAFE") eqn:Ea.
    + left. exists a. split; [by left | done].
    + right. intros f [<- | Hf]; [done | by apply Hnone].
Qed.

Section BuildCubeRounds.

Variable os_listdir : World -> string -> result (list string).

(** A round on a product that ends well: the dataset is saved, then the
    folder is removed. *)
Lemma buildCube_round_ok (directory : string) (resolution : Z) (f : string) (w w' : World) :
  endswith f ".SAFE" = true ->
  buildCube_round os_listdir directory resolution f w = (w', Ok tt) ->
  supported resolution /\
  exists ds,
    files w' = Dir.remove f (Dir.write (loadBand_name (getDate f) (getTile f) resolution)
                               (NetCDF ds) (files w)) /\
    handles w' = handles w.
Proof.
  intros Ef. unfold buildCube_round. rewrite Ef. unfold bind.
  destruct (extractBands _ _ _ _) as [bandPath|e]; [|done].
  rewrite loadBand_cases.
  destruct (bandPath !! 0%nat) as [p4|]; [|done].
  destruct (Dir.find p4 (rasters w)) as [b4|]; [|done].
  destruct (bandPath !! 1%nat) as [p8|]; [|done].
  destruct (Dir.find p8 (rasters w)) as [b8|]; [|done].
  destruct (loadBand_dataset b4 b8 (getDate f) resolution) as [ds|e] eqn:Hds; [|done].
  unfold rmtree. simpl.
  destruct (Dir.mem f _); [|done]. intros [= <-]. split.
  - apply loadBand_dataset_res in Hds as (res & Hres & _).
    by apply loadBand_res_supported in Hres as [? _].
  - by exists ds.
Qed.

(** A round, however it ends, touches the product folder and the file of
    its dataset alone. *)
Lemma buildCube_round_frame (directory : string) (resolution : Z) (f : string)
    (w w' : World) (res : result unit) (n : string) :
  buildCube_round os_listdir directory resolution f w = (w', res) ->
  endswith n ".SAFE" = false ->
  (endswith f ".SAFE" = true -> n <> loadBand_name (getDate f) (getTile f) resolution) ->
  Dir.find n (files w') = Dir.find n (files w).
Proof.
  unfold buildCube_round. destruct (endswith f ".SAFE") eqn:Ef.
  2: { by intros [= <- _]. }
  intros Hrun En Hn. specialize (Hn eq_refl).
  assert (n <> f) as Hnf by (intros ->; congruence).
  revert Hrun. unfold bind.
  destruct (extractBands _ _ _ _) as [bandPath|e]; [|by intros [= <- _]].
  rewrite loadBand_cases.
  destruct (bandPath !! 0%nat) as [p4|]; [|by intros [= <- _]].
  destruct (Dir.find p4 (rasters w)) as [b4|]; [|by intros [= <- _]].
  destruct (bandPath !! 1%nat) as [p8|]; [|by intros [= <- _]].
  destruct (Dir.find p8 (rasters w)) as [b8|]; [|by intros [= <- _]].
  destruct (loadBand_dataset b4 b8 (getDate f) resolution) as [ds|e];
    [|by intros [= <- _]].
  unfold rmtree. simpl. destruct (Dir.mem f _); intros [= <- _]; simpl.
  - by rewrite find_remove_ne, find_write_ne.
  - by rewrite find_write_ne.
Qed.

Lemma buildCube_rounds_frame (directory : string) (resolution : Z) (l : list string)
    (w w' : World) (res : result unit) (n : string) :
  for_each l (buildCube_round os_listdir directory resolution) w = (w', res) ->
  endswith n ".SAFE" = false ->
  (forall f, In f l -> endswith f ".SAFE" = true ->
     n <> loadBand_name (getDate f) (getTile f) resolution) ->
  Dir.find n (files w') = Dir.find n (files w).
Proof.
  revert w. induction l as [|a l IH]; intros w Hrun En Hn.
  - by injection Hrun as <- _.
  - change (for_each (a :: l) (buildCube_round os_listdir directory resolution))
      with (buildCube_round os_listdir directory resolution a ;;
            for_each l (buildCube_round os_listdir directory resolution)) in Hrun.
    unfold bind in Hrun.
    destruct (buildCube_round os_listdir directory resolution a w) as [w1 [[]|e]] eqn:Ha.
    + rewrite (IH w1 Hrun En) by (intros f Hf; apply Hn; by right).
      apply (buildCube_round_frame _ _ _ _ _ _ _ Ha En). apply Hn. by left.
    + injection Hrun as <- _.
      apply (buildCube_round_frame _ _ _ _ _ _ _ Ha En). apply Hn. by left.
Qed.

(** The second loop when it runs to its end: no product folder appears,
    a dataset file stays a dataset file, and every product of the loop has
    lost its folder and has its dataset. *)
Lemma buildCube_rounds_ok (directory : string) (resolution : Z) (l : list string)
    (w w' : World) :
  for_each l (buildCube_round os_listdir directory resolution) w = (w', Ok tt) ->
  handles w' = handles w /\
  (forall n, endswith n ".SAFE" = true -> Dir.find n (files w) = None ->
     Dir.find n (files w') = None) /\
  (forall n, endswith n ".SAFE" = false ->
     (exists ds, Dir.find n (files w) = Some (NetCDF ds)) ->
     exists ds, Dir.find n (files w') = Some (NetCDF ds)) /\
  (forall f, In f l -> endswith f ".SAFE" = true ->
     supported resolution /\
     Dir.find f (files w') = None /\
     exists ds, Dir.find (loadBand_name (getDate f) (getTile f) resolution) (files w')
                = Some (NetCDF ds)).
Proof.
  revert w. induction l as [|a l IH]; intros w Hrun.
  - injection Hrun as <-. split; [done|]. split; [done|]. split; [done|]. by intros f [].
  - change (for_each (a :: l) (buildCube_round os_listdir directory resolution))
      with (buildCube_round os_listdir directory resolution a ;;
            for_each l (buildCube_round os_listdir directory resolution)) in Hrun.
    unfold bind in Hrun.
    destruct (buildCube_round os_listdir directory resolution a w) as [w1 [[]|e]] eqn:Ha;
      [|done].
    destruct (IH w1 Hrun) as (Hh & Hgone & Hkept & Hall).
    destruct (endswith a ".SAFE") eqn:Ea.
    + destruct (buildCube_round_ok directory resolution a w w1 Ea Ha)
        as (Hs & ds & Hf1 & Hh1).
      pose proof (loadBand_name_not_SAFE (getDate a) (getTile a) resolution) as Hname.
      set (name := loadBand_name (getDate a) (getTile a) resolution) in *.
      assert (name <> a) as Hna by (intros E; rewrite E in Hname; congruence).
      split; [congruence|]. split; [|split].
      * intros n En Hn. apply Hgone; [done|]. rewrite Hf1.
        destruct (String.eqb_spec n a) as [-> | Hne]; [apply find_remove_eq|].
        rewrite find_remove_ne, find_write_ne; [done | | done].
        intros ->. congruence.
      * intros n En [ds0 Hn]. apply Hkept; [done|]. rewrite Hf1.
        rewrite find_remove_ne by (intros ->; congruence).
        destruct (String.eqb_spec n name) as [-> | Hne].
        -- exists ds. apply find_write_eq.
        -- exists ds0. by rewrite find_write_ne.
      * intros f [<- | Hf] Ef; [|by apply Hall].
        split; [done|]. split.
        -- apply Hgone; [done|]. rewrite Hf1. apply find_remove_eq.
        -- apply Hkept; [done|]. exists ds.
           rewrite Hf1, find_remove_ne by done. apply find_write_eq.
    + rewrite (buildCube_round_other os_listdir directory a resolution Ea) in Ha.
      injection Ha as <-. split; [done|]. split; [done|]. split; [done|].
      intros f [<- | Hf] Ef; [congruence | by apply Hall].
Qed.

(** X27. For a [directory] string that ends with the separator ([loadBand]
    saves under [directory + name], which is a file of the workspace only
    then): when [buildCube] runs to its end, the resolution is a supported
    one, no raster handle is left open, and every entry of the workspace
    with a name that ends in [.SAFE] has been replaced by a dataset: the
    folder is gone and the file [datacube_<date>_<tile>_R<resolution>.nc]
    named after it holds a dataset. *)
Theorem buildCube_builds_every_product (directory : string) (resolution : Z)
    (w w' : World) :
  endswith directory "/" = true ->
  buildCube os_listdir directory resolution w = (w', Built) ->
  supported resolution /\
  handles w' = handles w /\
  forall f, In f (Dir.names (files w)) -> endswith f ".SAFE" = true ->
    Dir.find f (files w') = None /\
    exists ds, Dir.find (loadBand_name (getDate f) (getTile f) resolution) (files w')
               = Some (NetCDF ds).
Proof.
  intros _. unfold buildCube.
  destruct (Nat.eqb_spec (buildCube_count (Dir.names (files w))) 0) as [H0 | H0]; [done|].
  rewrite (run_bind listdir _ w w (Dir.names (files w)) eq_refl).
  destruct (for_each _ _ w) as [w1 [[]|e]] eqn:Hrun; [|done]. intros [= <-].
  destruct (buildCube_rounds_ok directory resolution _ w w1 Hrun) as (Hh & _ & _ & Hall).
  split; [|split; [done|]].
  - destruct (SAFE_or_none (Dir.names (files w))) as [(f & Hf & Ef) | Hnone].
    + by destruct (Hall f Hf Ef) as [? _].
    + by apply (proj2 (buildCube_count_zero _)) in Hnone.
  - intros f Hf Ef. by destruct (Hall f Hf Ef) as (_ & ? & ?).
Qed.

(** X28. [buildCube] touches the product folders and the files of their
    datasets, and nothing else in the workspace: however it ends, an entry
    whose name does not end in [.SAFE] and is not the dataset name of a
    listed product is afterwards as it was before. *)
Theorem buildCube_touches_products_only (directory : string) (resolution : Z)
    (w w' : World) (out : built) (n : string) :
  buildCube os_listdir directory resolution w = (w', out) ->
  endswith n ".SAFE" = false ->
  (forall f, In f (Dir.names (files w)) -> endswith f ".SAFE" = true ->
     n <> loadBand_name (getDate f) (getTile f) resolution) ->
  Dir.find n (files w') = Dir.find n (files w).
Proof.
  unfold buildCube.
  destruct (Nat.eqb (buildCube_count (Dir.names (files w))) 0); [by intros [= <- _]|].
  rewrite (run_bind listdir _ w w (Dir.names (files w)) eq_refl).
  destruct (for_each _ _ w) as [w1 [[]|e]] eqn:Hrun; intros [= <- _] En Hn;
    by apply (buildCube_rounds_frame directory resolution _ w w1 _ n Hrun).
Qed.

End BuildCubeRounds.

(** [buildCube] at the resolution 100 on the workspace [S2A_world]: the
    product folder is replaced by its dataset, the other file stays. *)
Lemma S2A_world_built :
  exists ds,
    buildCube (fun _ => product_tree "/data/" S2A_product) "/data/" 100 S2A_world =
      ({| files := [("notes.txt"%string, Other);
                    (loadBand_name "2020-06-01" "T32ULC" 100, NetCDF ds)];
          rasters := []; handles := [] |}, Built).
Proof.
  assert (exists ds, loadBand_dataset S2A_band S2A_band "2020-06-01" 100 = Ok ds) as [ds Hds]
    by (apply (loadBand_dataset_fits S2A_band S2A_band "2020-06-01" 100 1098); reflexivity).
  exists ds.
  assert (buildCube_round (fun _ => product_tree "/data/" S2A_product) "/data/" 100
            S2A_product S2A_world =
          ({| files := [("notes.txt"%string, Other);
                        (loadBand_name "2020-06-01" "T32ULC" 100, NetCDF ds)];
              rasters := []; handles := [] |}, Ok tt)) as Hround.
  { unfold buildCube_round. change (endswith S2A_product ".SAFE") with true. cbv iota.
    unfold bind. cbv beta.
    change (extractBands (product_tree "/data/" S2A_product)
              (Path.join "/data/" [S2A_product]) 100 "/data/")
      with (Ok [fst (nth 0 (rasters S2A_world) (""%string, S2A_band));
                fst (nth 1 (rasters S2A_world) (""%string, S2A_band))]).
    cbv beta iota. rewrite loadBand_cases.
    change ([fst (nth 0 (rasters S2A_world) (""%string, S2A_band));
             fst (nth 1 (rasters S2A_world) (""%string, S2A_band))] !! 0%nat)
      with (Some (fst (nth 0 (rasters S2A_world) (""%string, S2A_band)))).
    change ([fst (nth 0 (rasters S2A_world) (""%string, S2A_band));
             fst (nth 1 (rasters S2A_world) (""%string, S2A_band))] !! 1%nat)
      with (Some (fst (nth 1 (rasters S2A_world) (""%string, S2A_band)))).
    cbv beta iota.
    change (Dir.find (fst (nth 0 (rasters S2A_world) (""%string, S2A_band)))
              (rasters S2A_world)) with (Some S2A_band).
    change (Dir.find (fst (nth 1 (rasters S2A_world) (""%string, S2A_band)))
              (rasters S2A_world)) with (Some S2A_band).
    cbv beta iota.
    change (getDate S2A_product) with "2020-06-01"%string.
    change (getTile S2A_product) with "T32ULC"%string.
    rewrite Hds. vm_compute. reflexivity. }
  unfold buildCube.
  change (Nat.eqb (buildCube_count (Dir.names (files S2A_world))) 0) with false.
  cbv iota. unfold bind at 1, listdir. cbv beta iota.
  change (for_each (Dir.names (files S2A_world))
            (buildCube_round (fun _ => product_tree "/data/" S2A_product) "/data/" 100)
            S2A_world)
    with (match buildCube_round (fun _ => product_tree "/data/" S2A_product) "/data/" 100
                  S2A_product S2A_world with
          | (w', Ok _) =>
              for_each ["notes.txt"%string]
                (buildCube_round (fun _ => product_tree "/data/" S2A_product) "/data/" 100)
                w'
          | (w', Err e) => (w', Err e)
          end).
  rewrite Hround. reflexivity.
Qed.

Lemma buildCube_builds_every_product_witness :
  let w' := fst (buildCube (fun _ => product_tree "/data/" S2A_product) "/data/" 100
                   S2A_world) in
  supported 100 /\
  handles w' = handles S2A_world /\
  forall f, In f (Dir.names (files S2A_world)) -> endswith f ".SAFE" = true ->
    Dir.find f (files w') = None /\
    exists ds, Dir.find (loadBand_name (getDate f) (getTile f) 100) (files w')
               = Some (NetCDF ds).
Proof.
  intros w'.
  apply (buildCube_builds_every_product (fun _ => product_tree "/data/" S2A_product)
           "/data/" 100 S2A_world w'); [reflexivity|].
  unfold w'. by destruct S2A_world_built as [ds ->].
Defined.

Lemma buildCube_touches_products_only_witness :
  let w' := fst (buildCube (fun _ => product_tree "/data/" S2A_product) "/data/" 100
                   S2A_world) in
  Dir.find "notes.txt" (files w') = Dir.find "notes.txt" (files S2A_world).
Proof.
  intros w'.
  apply (buildCube_touches_products_only (fun _ => product_tree "/data/" S2A_product)
           "/data/" 100 S2A_world w' Built "notes.txt").
  - unfold w'. by destruct S2A_world_built as [ds ->].
  - reflexivity.
  - intros f [<- | [<- | []]] Ef E.
    + vm_compute in E. discriminate E.
    + vm_compute in Ef. discriminate Ef.
Defined.

(* ------------------------------------------------------------------ *)
(** * From the archives to the products *)

Lemma names_filter {V} (P : string * V -> Prop) `{forall e, Decision (P e)}
    (fs : list (string * V)) (n : string) :
  In n (Dir.names (filter P fs)) -> In n (Dir.names fs).
Proof.
  unfold Dir.names. rewrite !in_map_iff. intros (e & He & Hin).
  exists e. split; [done|].
  apply list_elem_of_In. apply list_elem_of_In in Hin.
  by apply list_elem_of_filter in Hin as [_ ?].
Qed.

(** X29. [unzip] followed by [buildCube], as [mainSentinel] runs them, on a
    workspace that holds no product folder and no archive of zone 32
    (every name that ends in [.zip] is shorter than 41 characters or shows
    other zone digits): all archives are deleted, nothing is extracted, and
    [buildCube] raises [NoSafeFileError] on what is left, for every
    resolution. *)
Theorem unzip_then_buildCube_other_zones (unzipping : string -> M unit)
    (os_listdir : World -> string -> result (list string))
    (directory : string) (resolution : Z) (w : World) :
  NoDup (Dir.names (files w)) ->
  (forall f, In f (Dir.names (files w)) -> endswith f ".zip" = true ->
     (String.length f < 41)%nat \/ slice 39 41 f <> "32"%string) ->
  (forall f, In f (Dir.names (files w)) -> endswith f ".SAFE" = false) ->
  exists w1,
    unzip unzipping w = (w1, Ok tt) /\
    files w1 = filter (fun e => endswith (fst e) ".zip" = false) (files w) /\
    buildCube os_listdir directory resolution w1 =
      (w1, NoSafeFileError "In this directory is no SAFE file to build a cube").
Proof.
  intros Hnd Hz Hsafe.
  exists (set_files (filter (fun e => endswith (fst e) ".zip" = false) (files w)) w).
  split; [|split; [done|]].
  - unfold unzip. rewrite (run_bind listdir _ w w (Dir.names (files w)) eq_refl).
    destruct w as [fs rs hs].
    apply (unzip_rounds_other_zone unzipping fs []
             {| files := fs; rasters := rs; handles := hs |} Hnd).
    intros f Hf Ez. destruct (Hz f Hf Ez) as [Hshort | Hzone]; [|done].
    by apply short_name_zone.
  - unfold buildCube.
    rewrite (proj2 (Nat.eqb_eq _ 0)); [done|].
    apply buildCube_count_zero. intros f Hf. apply Hsafe.
    by apply names_filter in Hf.
Qed.

Lemma unzip_then_buildCube_other_zones_witness :
  let w0 := {| files := [("a.zip"%string, Other);
                         ("S2A_MSIL2A_20200601T103031_N0214_R108_T31UGT_20200601T134211.zip"%string,
                          Other);
                         ("notes.txt"%string, Other)];
               rasters := []; handles := [] |} in
  exists w1,
    unzip (unpack "") w0 = (w1, Ok tt) /\
    files w1 = [("notes.txt"%string, Other)] /\
    buildCube (fun _ => product_listing) "/data/" 20 w1 =
      (w1, NoSafeFileError "In this directory is no SAFE file to build a cube").
Proof.
  intros w0.
  apply (unzip_then_buildCube_other_zones (unpack "") (fun _ => product_listing)
           "/data/" 20 w0).
  - apply (bool_decide_unpack _). vm_compute. reflexivity.
  - intros f [<- | [<- | [<- | []]]] Ez.
    + left. vm_compute. lia.
    + right. vm_compute. discriminate.
    + vm_compute in Ez. discriminate.
  - by intros f [<- | [<- | [<- | []]]].
Defined.
